(** * Multi-agent need-finding pipeline: discussion graph, extraction,
      evaluation and prioritization

    A shallow embedding of
      - src/agents/need_finder.py  (MedicalReflectionSystem, run_reflection_sync)
      - src/agents/evaluator.py    (NeedEvaluator)
      - run_api.py                 (process_reflection, create_prioritization,
                                    submit_reflection_query, the three result
                                    endpoints, the status callback and the
                                    event stream)

    Python values that stay dynamically typed in the source (the dumped
    needs, the literal parsed back from final_summary) are values of
    [PyVal]; TypedDicts and pydantic models are records; the session
    registry is a finite map.  Calls to the language model go through a
    [Gateway] of oracles, indexed by the number of calls made so far, and
    the [World] counts them; the [Gateway] also holds what langchain makes
    of a prompt text that the source builds from run-time data (its input
    variables, or the ValueError of a malformed brace).  The constructor
    of MedicalReflectionSystem is embedded with the order of its
    assignments.  Logging and printing are left out. *)

From Stdlib Require Import ZArith QArith String Ascii List Permutation Sorted Lia.
From stdpp Require Import gmap strings list fin_maps pretty.

Local Set Warnings "-register-all".
Local Open Scope Z_scope.
Local Open Scope string_scope.

(* ===================================================================== *)
(** ** Exceptions and results *)
(* ===================================================================== *)

Inductive exn : Type :=
| GatewayError (msg : string)       (* network, auth, rate limit, timeout *)
| OutputParserException (msg : string) (* model output fails the schema *)
| TypeError (msg : string)
| AttributeError (msg : string)
| KeyError (key : string)
| ValueError (msg : string)
| ObserverError (msg : string).     (* raised by a status callback *)

Inductive result (A : Type) : Type :=
| Ok (a : A)
| Raise (e : exn).
Arguments Ok {A} a.
Arguments Raise {A} e.

(** Sequencing of two computations that may raise and have no other
    effect. *)
Definition rbind {A B} (r : result A) (k : A -> result B) : result B :=
  match r with
  | Ok a => k a
  | Raise e => Raise e
  end.

(** [str(e)] of an exception.  [str] of a KeyError is the repr of its key:
    the key between single quotes, for the keys of this program (letters,
    digits, underscores and dashes; nothing that repr would escape). *)
Definition exn_str (e : exn) : string :=
  match e with
  | GatewayError m | OutputParserException m | TypeError m
  | AttributeError m | ValueError m | ObserverError m => m
  | KeyError k => "'" ++ k ++ "'"
  end.

(* ===================================================================== *)
(** ** Data model *)
(* ===================================================================== *)

(** need_finder.py, class NeedItem *)
Record NeedItem : Type := mkNeedItem {
  need : string;
  ni_summary : string;
  ni_medical_insights : string;
  tech_insights : string;
  strategy : string
}.

(** need_finder.py, class NeedsOutput *)
Record NeedsOutput : Type := mkNeedsOutput {
  needs : list NeedItem
}.

(** Dynamically typed Python values. [PyModel] is a NeedItem instance
    (a pydantic model: attributes, no subscripting); [PyDict] is a dict
    with string keys in insertion order. *)
Inductive PyVal : Type :=
| PyNone
| PyBool (b : bool)
| PyInt (z : Z)
| PyStr (s : string)
| PyList (l : list PyVal)
| PyDict (d : list (string * PyVal))
| PyModel (item : NeedItem).

(** Truth value of a Python object ([if x], [not x]). *)
Definition truthy (v : PyVal) : bool :=
  match v with
  | PyNone => false
  | PyBool b => b
  | PyInt z => negb (z =? 0)%Z
  | PyStr s => negb (String.eqb s "")
  | PyList l => match l with [] => false | _ => true end
  | PyDict d => match d with [] => false | _ => true end
  | PyModel _ => true
  end.

Fixpoint assoc_lookup {A} (k : string) (d : list (string * A)) : option A :=
  match d with
  | [] => None
  | (k', v) :: rest => if String.eqb k k' then Some v else assoc_lookup k rest
  end.

(** [v[key]] with a string key. *)
Definition py_getitem (v : PyVal) (key : string) : result PyVal :=
  match v with
  | PyDict d =>
      match assoc_lookup key d with
      | Some x => Ok x
      | None => Raise (KeyError key)
      end
  | PyModel _ => Raise (TypeError "'NeedItem' object is not subscriptable")
  | PyList _ => Raise (TypeError "list indices must be integers or slices, not str")
  | PyStr _ => Raise (TypeError "string indices must be integers, not 'str'")
  | PyNone => Raise (TypeError "'NoneType' object is not subscriptable")
  | PyBool _ => Raise (TypeError "'bool' object is not subscriptable")
  | PyInt _ => Raise (TypeError "'int' object is not subscriptable")
  end.

(** [v.need] *)
Definition py_getattr_need (v : PyVal) : result string :=
  match v with
  | PyModel item => Ok (need item)
  | PyDict _ => Raise (AttributeError "'dict' object has no attribute 'need'")
  | _ => Raise (AttributeError "object has no attribute 'need'")
  end.

(** [v.get(key)] and [v.get(key, default)] *)
Definition py_get (v : PyVal) (key : string) (default : PyVal) : result PyVal :=
  match v with
  | PyDict d =>
      match assoc_lookup key d with
      | Some x => Ok x
      | None => Ok default
      end
  | _ => Raise (AttributeError "object has no attribute 'get'")
  end.

Definition chars (s : string) : list PyVal :=
  map (fun c => PyStr (String c EmptyString)) (list_ascii_of_string s).

(** [for x in v] *)
Definition py_iter (v : PyVal) : result (list PyVal) :=
  match v with
  | PyList l => Ok l
  | PyDict d => Ok (map (fun kv => PyStr (fst kv)) d)
  | PyStr s => Ok (chars s)
  | _ => Raise (TypeError "object is not iterable")
  end.

(** [v[:n]] *)
Definition py_slice_to (n : nat) (v : PyVal) : result PyVal :=
  match v with
  | PyList l => Ok (PyList (firstn n l))
  | PyStr s => Ok (PyStr (String.substring 0 n s))
  | _ => Raise (TypeError "object is not subscriptable")
  end.

(** What the interpreter provides and the source only calls: [str] of a
    value, [ast.literal_eval], the formatting of a float in an f-string. *)
Record PyRuntime : Type := mkPyRuntime {
  py_str : PyVal -> string;
  literal_eval : string -> result PyVal;
  float_str : Q -> string
}.

(** An f-string field [{v}]: a str is inserted as it is. *)
Definition py_format (rt : PyRuntime) (v : PyVal) : string :=
  match v with
  | PyStr s => s
  | _ => py_str rt v
  end.

(** [NeedItem.model_dump()] and [NeedsOutput.model_dump()] *)
Definition NeedItem_model_dump (n : NeedItem) : PyVal :=
  PyDict [("need", PyStr (need n));
          ("summary", PyStr (ni_summary n));
          ("medical_insights", PyStr (ni_medical_insights n));
          ("tech_insights", PyStr (tech_insights n));
          ("strategy", PyStr (strategy n))].

Definition NeedsOutput_model_dump (o : NeedsOutput) : PyVal :=
  PyDict [("needs", PyList (map NeedItem_model_dump (needs o)))].

(** langchain messages *)
Inductive BaseMessage : Type :=
| HumanMessage (content : string)
| AIMessage (content : string).

Definition content (m : BaseMessage) : string :=
  match m with HumanMessage c | AIMessage c => c end.

(** need_finder.py, class ReflectionState *)
Record ReflectionState : Type := mkState {
  messages : list BaseMessage;
  medical_insights : list string;
  engineering_insights : list string;
  discussion_round : Z;
  max_rounds : Z;
  final_summary : string
}.

(** evaluator.py, class NeedEvaluation.  A score is a float in [0,10]
    (pydantic ge=0, le=10, which also rejects NaN); the code only
    compares and prints scores, so they are rationals here. *)
Record NeedEvaluation : Type := mkNeedEvaluation {
  need_title : string;
  feasibility_score : Q;
  impact_score : Q;
  innovation_score : Q;
  resource_score : Q;
  overall_score : Q;
  strengths : list string;
  weaknesses : list string;
  recommendations : list string
}.

(** evaluator.py, class NeedsEvaluationOutput *)
Record NeedsEvaluationOutput : Type := mkEvaluationOutput {
  evaluations : list NeedEvaluation;
  summary : string;
  top_priority_needs : list string
}.

(** One element of ["prioritized_needs"] in create_prioritization. *)
Record PrioritizedNeed : Type := mkPrioritizedNeed {
  rank : Z;
  pn_need_title : string;
  pn_overall_score : Q;
  pn_feasibility_score : Q;
  pn_impact_score : Q;
  pn_innovation_score : Q;
  pn_resource_score : Q;
  priority_level : string
}.

(** The dict returned by create_prioritization. *)
Record Prioritization : Type := mkPrioritization {
  prioritized_needs : list PrioritizedNeed;
  ranking_criteria : list (string * string);
  prio_recommendations : list string
}.

(** The dict returned by run_reflection_sync. *)
Record ReflectionResult : Type := mkReflectionResult {
  original_query : string;
  discussion_rounds : Z;
  rr_medical_insights : list string;
  rr_engineering_insights : list string;
  parsed_needs : PyVal;
  rr_final_summary : string;
  full_conversation : list string
}.

(** Values stored under the keys of one session dict in run_api.py. *)
Inductive EntryBody : Type :=
| EvaluationBody (e : NeedsEvaluationOutput)
| PrioritizationBody (p : Prioritization)
| ErrorBody (msg : string).

Inductive SessionVal : Type :=
| SVStr (s : string)
| SVInt (z : Z)
| SVTime (t : Z)
| SVResult (r : ReflectionResult)
| SVEntry (status : string) (body : EntryBody) (created_at : Z).

(** Nodes of the LangGraph workflow built by _build_graph. *)
Inductive Node : Type :=
| medical_staff_agent
| engineer_agent
| collector
| END.

Definition is_agent (n : Node) : bool :=
  match n with
  | medical_staff_agent | engineer_agent => true
  | _ => false
  end.

(* ===================================================================== *)
(** ** The world and the monad of effects *)
(* ===================================================================== *)

(** [gateway_calls]: language-model calls made so far; [steps]: the nodes
    the graph has run, oldest first; [sessions]: the registry of
    run_api.py; [clock]: what datetime.now() returns next. *)
Record World : Type := mkWorld {
  gateway_calls : nat;
  steps : list Node;
  sessions : gmap string (gmap string SessionVal);
  clock : Z
}.

Definition M (A : Type) : Type := World -> result A * World.

Definition ret {A} (a : A) : M A := fun w => (Ok a, w).

Definition bind {A B} (m : M A) (k : A -> M B) : M B :=
  fun w =>
    match m w with
    | (Ok a, w') => k a w'
    | (Raise e, w') => (Raise e, w')
    end.

Definition raise {A} (e : exn) : M A := fun w => (Raise e, w).

(** [try: body except Exception as e: handler(e)] *)
Definition try_except {A} (body : M A) (handler : exn -> M A) : M A :=
  fun w =>
    match body w with
    | (Ok a, w') => (Ok a, w')
    | (Raise e, w') => handler e w'
    end.

Definition lift {A} (r : result A) : M A := fun w => (r, w).

Notation "x <- m ;; k" := (bind m (fun x => k))
  (at level 100, m at next level, right associativity).
Notation "m ;;; k" := (bind m (fun _ => k))
  (at level 100, right associativity).

(** What langchain and the language model provide to the four chains of
    the source.  Each model oracle gets the number of calls made before
    it, so that the same prompt may be answered differently at different
    times.  [template_variables] is ChatPromptTemplate.from_messages on a
    message text that the source builds from run-time data: the text is
    read as a format string, and the answer is the list of its input
    variables, or the ValueError a malformed brace raises. *)
Inductive Persona : Type := medical_expert | engineer.

Record Gateway : Type := mkGateway {
  template_variables : string -> result (list string);
  (* medical_prompt | llm, engineer_prompt | llm *)
  chat : nat -> Persona -> list BaseMessage -> result string;
  (* judge_prompt | llm, on the content of the last message *)
  judge : nat -> string -> result string;
  (* formatted_prompt | llm | parser in collector_node, on the two insight
     logs and the transcript *)
  needs_chain : nat -> list string -> list string -> list string -> result NeedsOutput;
  (* formatted_prompt | llm | parser in evaluate_needs, on needs_content *)
  evaluation_chain : nat -> string -> result NeedsEvaluationOutput
}.

Definition call_gateway {A} (oracle : nat -> result A) : M A :=
  fun w =>
    (oracle (gateway_calls w),
     mkWorld (S (gateway_calls w)) (steps w) (sessions w) (clock w)).

(** [chain.invoke({})] on a chain whose prompt has the given input
    variables: the prompt is formatted first, which fails on a variable
    that the empty input does not supply, before the model is called. *)
Definition invoke_without_input {A} (variables : list string) (model : M A)
    : M A :=
  match variables with
  | [] => model
  | v :: _ => raise (KeyError v)
  end.

Definition log_step (n : Node) : M unit :=
  fun w => (Ok tt, mkWorld (gateway_calls w) (steps w ++ [n])%list (sessions w) (clock w)).

(** datetime.now() *)
Definition now : M Z :=
  fun w => (Ok (clock w),
            mkWorld (gateway_calls w) (steps w) (sessions w) (clock w + 1)).

(* ===================================================================== *)
(** ** Text helpers: [str.strip], [str.lower], [in], [join] *)
(* ===================================================================== *)

(** ASCII white space as [str.isspace] sees it. *)
Definition is_space (c : ascii) : bool :=
  let n := nat_of_ascii c in
  ((9 <=? n) && (n <=? 13) || (28 <=? n) && (n <=? 32))%nat.

Fixpoint lstrip (s : string) : string :=
  match s with
  | EmptyString => EmptyString
  | String c rest => if is_space c then lstrip rest else s
  end.

(** [s.strip()] *)
Definition strip (s : string) : string :=
  String.rev (lstrip (String.rev (lstrip s))).

Definition lower_ascii (c : ascii) : ascii :=
  let n := nat_of_ascii c in
  if ((65 <=? n) && (n <=? 90))%nat then ascii_of_nat (n + 32) else c.

(** [s.lower()]; bytes outside A-Z are kept. *)
Fixpoint lower (s : string) : string :=
  match s with
  | EmptyString => EmptyString
  | String c rest => String (lower_ascii c) (lower rest)
  end.

(** [sub in s] *)
Fixpoint contains (sub s : string) : bool :=
  String.prefix sub s ||
  match s with
  | EmptyString => false
  | String _ rest => contains sub rest
  end.

Definition newline : string := String (ascii_of_nat 10) EmptyString.

(** [sep.join(parts)] *)
Fixpoint join (sep : string) (parts : list string) : string :=
  match parts with
  | [] => ""
  | [p] => p
  | p :: rest => p ++ sep ++ join sep rest
  end.

(* ===================================================================== *)
(** ** need_finder.py: MedicalReflectionSystem *)
(* ===================================================================== *)

(** StatusCallback = Callable[[str, str, Dict[str, Any]], None].  All the
    source can observe of a callback is whether it returns or raises. *)
Definition StatusCallback : Type :=
  string -> string -> list (string * PyVal) -> result unit.

(** The attributes of [self] the graph reads. *)
Record MedicalReflectionSystem : Type := mkSystem {
  self_max_rounds : Z;
  status_callback : option StatusCallback
}.

(** The attributes of [self] while __init__ runs, in the order __init__
    assigns them; [None] is an attribute that has not been assigned yet. *)
Record Attributes : Type := mkAttributes {
  attr_max_rounds : option Z;
  attr_status_callback : option (option StatusCallback);
  attr_graph : option unit;
  attr_checkpointer : option unit;
  attr_parser : option unit
}.

(** [self.checkpointer] *)
Definition no_checkpointer : string :=
  "'MedicalReflectionSystem' object has no attribute 'checkpointer'".

Definition getattr_checkpointer (self : Attributes) : result unit :=
  match attr_checkpointer self with
  | Some checkpointer => Ok checkpointer
  | None => Raise (AttributeError no_checkpointer)
  end.

(** _build_graph (need_finder.py:61-99).  The nodes and the edges it adds
    are those of [run_node] and [next_node] below; its last line hands
    [self.checkpointer] to builder.compile. *)
Definition _build_graph (self : Attributes) : result unit :=
  rbind (getattr_checkpointer self) (fun checkpointer => Ok tt).

(** MedicalReflectionSystem.__init__ (need_finder.py:47-54): the graph is
    built on line 50, the checkpointer is assigned on line 51. *)
Definition MedicalReflectionSystem_init (max_discussion_rounds : Z)
    (status_callback : option StatusCallback)
    : result MedicalReflectionSystem :=
  let self :=
    mkAttributes (Some max_discussion_rounds) (Some status_callback)
                 None None None in
  rbind (_build_graph self) (fun graph =>
    Ok (mkSystem max_discussion_rounds status_callback)).

(** _emit_status (need_finder.py:56-59) *)
Definition _emit_status (self : MedicalReflectionSystem)
    (event_type agent : string) (data : list (string * PyVal)) : M unit :=
  match status_callback self with
  | Some cb => lift (cb event_type agent data)
  | None => ret tt
  end.

Definition medical_thinking_message : string :=
  "醫療專家正在分析醫療需求和流程問題...".
Definition engineer_thinking_message : string :=
  "工程師正在分析技術解決方案和系統優化...".

(** medical_staff_node (need_finder.py:122-163) *)
Definition medical_staff_node (g : Gateway) (self : MedicalReflectionSystem)
    (state : ReflectionState) : M ReflectionState :=
  _emit_status self "thinking_started" "medical_expert"
    [("round", PyInt (discussion_round state + 1));
     ("message", PyStr medical_thinking_message)] ;;;
  response <- call_gateway (fun i => chat g i medical_expert (messages state)) ;;
  let new_messages := (messages state ++ [AIMessage response])%list in
  let medical_insights' := (medical_insights state ++ [response])%list in
  _emit_status self "thinking_completed" "medical_expert"
    [("round", PyInt (discussion_round state + 1));
     ("response", PyStr response);
     ("insight_count", PyInt (Z.of_nat (length medical_insights')))] ;;;
  ret (mkState new_messages medical_insights' (engineering_insights state)
         (discussion_round state + 1) (max_rounds state) (final_summary state)).

(** engineer_node (need_finder.py:165-206) *)
Definition engineer_node (g : Gateway) (self : MedicalReflectionSystem)
    (state : ReflectionState) : M ReflectionState :=
  _emit_status self "thinking_started" "engineer"
    [("round", PyInt (discussion_round state + 1));
     ("message", PyStr engineer_thinking_message)] ;;;
  response <- call_gateway (fun i => chat g i engineer (messages state)) ;;
  let new_messages := (messages state ++ [AIMessage response])%list in
  let engineering_insights' := (engineering_insights state ++ [response])%list in
  _emit_status self "thinking_completed" "engineer"
    [("round", PyInt (discussion_round state + 1));
     ("response", PyStr response);
     ("insight_count", PyInt (Z.of_nat (length engineering_insights')))] ;;;
  ret (mkState new_messages (medical_insights state) engineering_insights'
         (discussion_round state + 1) (max_rounds state) (final_summary state)).

(** The default structure of collector_node (need_finder.py:257-267). *)
Definition failed_need_item : NeedItem :=
  mkNeedItem "解析失敗的需求" "解析失敗，請檢查輸出格式"
             "無法解析醫療洞察" "無法解析技術洞察" "無法解析策略".

Definition failed_parsed_output : PyVal :=
  PyDict [("needs", PyList [
    PyDict [("need", PyStr "解析失敗的需求");
            ("summary", PyStr "解析失敗，請檢查輸出格式");
            ("medical_insights", PyStr "無法解析醫療洞察");
            ("tech_insights", PyStr "無法解析技術洞察");
            ("strategy", PyStr "無法解析策略")]])].

(** The text of the human message of collector_prompt
    (need_finder.py:227-238): an f-string over the two insight logs and
    the transcript, each line indented as in the source. *)
Definition indent : string := "            ".

Definition collector_human_text (state : ReflectionState) : string :=
  join newline
    [""; indent ++ "醫療專家洞察：";
     indent ++ join newline (medical_insights state);
     indent;
     indent ++ "工程師洞察：";
     indent ++ join newline (engineering_insights state);
     indent;
     indent ++ "完整對話記錄：";
     indent ++ join newline (map content (messages state));
     indent;
     indent ++ "請分析並識別出具體的需求項目，以列表格式輸出。";
     indent].

(** The input variables [partial(format_instructions=...)] leaves open
    (need_finder.py:241-243). *)
Definition unfilled (variables : list string) : list string :=
  List.filter (fun v => negb (String.eqb v "format_instructions")) variables.

(** The try/except of collector_node (need_finder.py:248-267): the value
    bound to [parsed_output].  [variables] are the input variables of the
    prompt that are still open. *)
Definition collector_parsed_output (g : Gateway) (variables : list string)
    (state : ReflectionState) : M PyVal :=
  try_except
    (response <- invoke_without_input variables
        (call_gateway (fun i =>
           needs_chain g i (medical_insights state)
                       (engineering_insights state)
                       (map content (messages state)))) ;;
     ret (NeedsOutput_model_dump response))
    (fun e => ret failed_parsed_output).

(** collector_node (need_finder.py:208-273).  The prompt is built, from
    the text of the state, before the try. *)
Definition collector_node (g : Gateway) (rt : PyRuntime)
    (state : ReflectionState) : M ReflectionState :=
  variables <- lift (template_variables g (collector_human_text state)) ;;
  parsed_output <- collector_parsed_output g (unfilled variables) state ;;
  ret (mkState (messages state ++ [AIMessage (py_str rt parsed_output)])%list
         (medical_insights state) (engineering_insights state)
         (discussion_round state) (max_rounds state)
         (py_str rt parsed_output)).

(** The simple alternation both fallbacks of the router return. *)
Definition alternate (current_round : Z) : string :=
  if (current_round mod 2 =? 0)%Z then "engineer_agent" else "medical".

(** The text of the human message of judge_prompt (need_finder.py:296). *)
Definition judge_human_text (last_content : string) : string :=
  "最近的對話內容：" ++ newline ++ last_content.

(** _should_continue_discussion (need_finder.py:275-318).  Every state the
    graph sees has both counters, so the defaults of [state.get] are never
    used and [self] is not read.  judge_prompt is built, from the content
    of the last message, before the try. *)
Definition _should_continue_discussion (g : Gateway)
    (state : ReflectionState) : M string :=
  let current_round := discussion_round state in
  let max_rounds := max_rounds state in
  if (current_round >=? max_rounds)%Z then ret "collector"
  else
    match last (messages state) with
    | Some (AIMessage last_content) =>
        variables <- lift (template_variables g
                             (judge_human_text last_content)) ;;
        try_except
          (reply <- invoke_without_input variables
                      (call_gateway (fun i => judge g i last_content)) ;;
           let judgment := lower (strip reply) in
           if contains "medical" judgment then ret "engineer_agent"
           else if contains "engineering" judgment then ret "medical"
           else ret (alternate current_round))
          (fun e => ret (alternate current_round))
    | _ => ret "medical"
    end.

(** The path map of both conditional edges (need_finder.py:77-93). *)
Definition path_map (label : string) : option Node :=
  if String.eqb label "medical" then Some medical_staff_agent
  else if String.eqb label "engineer_agent" then Some engineer_agent
  else if String.eqb label "collector" then Some collector
  else if String.eqb label "end" then Some END
  else None.

(** The function a node runs. *)
Definition run_node (g : Gateway) (rt : PyRuntime)
    (self : MedicalReflectionSystem) (n : Node) (state : ReflectionState)
    : M ReflectionState :=
  match n with
  | medical_staff_agent => medical_staff_node g self state
  | engineer_agent => engineer_node g self state
  | collector => collector_node g rt state
  | END => ret state
  end.

(** The edge out of a node: conditional for the two agents, fixed for the
    collector. *)
Definition next_node (g : Gateway) (n : Node) (state : ReflectionState)
    : M Node :=
  match n with
  | medical_staff_agent | engineer_agent =>
      label <- _should_continue_discussion g state ;;
      match path_map label with
      | Some n' => ret n'
      | None => raise (ValueError label)
      end
  | collector => ret END
  | END => ret END
  end.

(** One step of the graph: run the node, then follow its edge. *)
Definition graph_step (g : Gateway) (rt : PyRuntime)
    (self : MedicalReflectionSystem) (c : Node * ReflectionState)
    : M (Node * ReflectionState) :=
  log_step (fst c) ;;;
  state' <- run_node g rt self (fst c) (snd c) ;;
  n' <- next_node g (fst c) state' ;;
  ret (n', state').

(** Steps until END.  [None]: the fuel ran out before END. *)
Fixpoint graph_run (fuel : nat) (g : Gateway) (rt : PyRuntime)
    (self : MedicalReflectionSystem) (n : Node) (state : ReflectionState)
    : M (option ReflectionState) :=
  match n with
  | END => ret (Some state)
  | _ =>
      match fuel with
      | O => ret None
      | S fuel' =>
          c <- graph_step g rt self (n, state) ;;
          graph_run fuel' g rt self (fst c) (snd c)
      end
  end.

(** [graph.invoke(initial_state)] on the graph of a constructed system:
    the edge from START leads to medical_staff_agent.  The nodes and edges
    are those _build_graph adds; the recursion limit of LangGraph is not
    part of the model. *)
Definition graph_invoke (fuel : nat) (g : Gateway) (rt : PyRuntime)
    (self : MedicalReflectionSystem) (initial_state : ReflectionState)
    : M (option ReflectionState) :=
  graph_run fuel g rt self medical_staff_agent initial_state.

Definition initial_state (user_query : string) (max_rounds : Z)
    : ReflectionState :=
  mkState [HumanMessage user_query] [] [] 0 max_rounds "".

(** run_reflection_sync (need_finder.py:419-451) *)
Definition run_reflection_sync (fuel : nat) (g : Gateway) (rt : PyRuntime)
    (user_query : string) (max_rounds : Z) : M (option ReflectionResult) :=
  reflection_system <- lift (MedicalReflectionSystem_init max_rounds None) ;;
  r <- graph_invoke fuel g rt reflection_system
         (initial_state user_query max_rounds) ;;
  match r with
  | None => ret None
  | Some result =>
      let parsed_needs :=
        match literal_eval rt (final_summary result) with
        | Ok v => v
        | Raise _ => PyDict [("needs", PyList [])]
        end in
      ret (Some (mkReflectionResult user_query (discussion_round result)
                   (medical_insights result) (engineering_insights result)
                   parsed_needs (final_summary result)
                   (map content (messages result))))
  end.

(* ===================================================================== *)
(** ** evaluator.py: NeedEvaluator *)
(* ===================================================================== *)

(** A loop or comprehension whose body may raise. *)
Fixpoint for_each {A B} (f : A -> result B) (l : list A) : result (list B) :=
  match l with
  | [] => Ok []
  | x :: rest =>
      rbind (f x) (fun y =>
      rbind (for_each f rest) (fun ys => Ok (y :: ys)))
  end.

(** [enumerate(l, start)] *)
Fixpoint enumerate {A} (start : Z) (l : list A) : list (Z * A) :=
  match l with
  | [] => []
  | x :: rest => (start, x) :: enumerate (start + 1) rest
  end.

(** The body of the loop of _format_needs_for_evaluation
    (evaluator.py:108-115). *)
Definition format_need (rt : PyRuntime) (ineed : Z * PyVal) : result string :=
  let i := fst ineed in
  let need := snd ineed in
  rbind (py_getitem need "need") (fun v_need =>
  rbind (py_getitem need "summary") (fun v_summary =>
  rbind (py_getitem need "medical_insights") (fun v_medical =>
  rbind (py_getitem need "tech_insights") (fun v_tech =>
  rbind (py_getitem need "strategy") (fun v_strategy =>
  Ok (newline ++ "需求 " ++ pretty i ++ ": " ++ py_format rt v_need ++ newline
      ++ "摘要: " ++ py_format rt v_summary ++ newline
      ++ "醫療觀點: " ++ py_format rt v_medical ++ newline
      ++ "技術觀點: " ++ py_format rt v_tech ++ newline
      ++ "實施策略: " ++ py_format rt v_strategy ++ newline
      ++ "---" ++ newline)))))).

(** _format_needs_for_evaluation (evaluator.py:104-118) *)
Definition _format_needs_for_evaluation (rt : PyRuntime) (needs : PyVal)
    : result string :=
  rbind (py_iter needs) (fun l =>
  rbind (for_each (format_need rt) (enumerate 1 l)) (fun formatted_content =>
  Ok (join newline formatted_content))).

Definition no_needs_summary : string := "沒有需求項目需要評估".
Definition default_summary : string :=
  "評估過程遇到問題，請檢查輸入數據或重新執行評估".

(** The body of the loop of _create_default_evaluation
    (evaluator.py:124-134). *)
Definition default_need_evaluation (need : PyVal) : result NeedEvaluation :=
  rbind (py_getattr_need need) (fun title =>
  Ok (mkNeedEvaluation title 5 5 5 5 5
        ["需要進一步分析"] ["評估過程失敗"] ["重新執行評估"])).

(** _create_default_evaluation (evaluator.py:120-141) *)
Definition _create_default_evaluation (needs : PyVal)
    : result NeedsEvaluationOutput :=
  rbind (py_iter needs) (fun l =>
  rbind (for_each default_need_evaluation l) (fun evaluations =>
  rbind (py_slice_to 3 needs) (fun first3 =>
  rbind (py_iter first3) (fun l3 =>
  rbind (for_each py_getattr_need l3) (fun titles =>
  Ok (mkEvaluationOutput evaluations default_summary titles)))))).

(** evaluate_needs (evaluator.py:38-102) *)
Definition evaluate_needs (g : Gateway) (rt : PyRuntime) (needs : PyVal)
    : M NeedsEvaluationOutput :=
  if negb (truthy needs) then
    ret (mkEvaluationOutput [] no_needs_summary [])
  else
    needs_content <- lift (_format_needs_for_evaluation rt needs) ;;
    try_except
      (call_gateway (fun i => evaluation_chain g i needs_content))
      (fun e => lift (_create_default_evaluation needs)).

(* ===================================================================== *)
(** ** run_api.py: create_prioritization *)
(* ===================================================================== *)

(** [a < b] on scores. *)
Definition score_lt (a b : Q) : bool := negb (Qle_bool b a).

(** [sorted(evaluations, key=lambda x: x.overall_score, reverse=True)]:
    a stable sort that compares keys with [<] only; an element is placed
    behind the elements whose key is greater and in front of the rest. *)
Fixpoint insert_by_score (x : NeedEvaluation) (l : list NeedEvaluation)
    : list NeedEvaluation :=
  match l with
  | [] => [x]
  | y :: rest =>
      if score_lt (overall_score x) (overall_score y)
      then y :: insert_by_score x rest
      else x :: y :: rest
  end.

Definition sorted_by_score_reverse (l : list NeedEvaluation)
    : list NeedEvaluation :=
  fold_right insert_by_score [] l.

(** ["High" if i <= 2 else "Medium" if i <= 4 else "Low"] *)
Definition priority_of_rank (i : Z) : string :=
  if (i <=? 2)%Z then "High" else if (i <=? 4)%Z then "Medium" else "Low".

(** The dict appended for one ranked evaluation (run_api.py:193-202). *)
Definition prioritized_need (ie : Z * NeedEvaluation) : PrioritizedNeed :=
  let i := fst ie in
  let need_eval := snd ie in
  mkPrioritizedNeed i (need_title need_eval) (overall_score need_eval)
    (feasibility_score need_eval) (impact_score need_eval)
    (innovation_score need_eval) (resource_score need_eval)
    (priority_of_rank i).

Definition ranking_criteria_table : list (string * string) :=
  [("primary", "Overall Score (weighted combination of all factors)");
   ("feasibility", "Technical implementation possibility (0-10)");
   ("impact", "Potential impact on medical system (0-10)");
   ("innovation", "Innovation level and differentiation (0-10)");
   ("resource", "Resource efficiency (10 = low resource requirement)")].

Definition top_recommendation (rt : PyRuntime) (top_need : PrioritizedNeed)
    : string :=
  "Prioritize '" ++ pn_need_title top_need
  ++ "' as it has the highest overall score of "
  ++ float_str rt (pn_overall_score top_need).

Definition focus_advice : string :=
  "Focus on top 3 ranked needs for maximum impact".
Definition resource_advice : string :=
  "Consider resource constraints when selecting implementation order".
Definition reassess_advice : string :=
  "Regularly reassess priorities based on changing requirements".

(** create_prioritization (run_api.py:181-229) *)
Definition create_prioritization (rt : PyRuntime)
    (evaluation_result : NeedsEvaluationOutput) : Prioritization :=
  let evaluations := evaluations evaluation_result in
  let sorted_needs := sorted_by_score_reverse evaluations in
  let prioritized_needs := map prioritized_need (enumerate 1 sorted_needs) in
  let recommendations1 :=
    match prioritized_needs with
    | top_need :: _ => [top_recommendation rt top_need]
    | [] => []
    end in
  let recommendations2 :=
    if (1 <? length prioritized_needs)%nat then [focus_advice] else [] in
  mkPrioritization prioritized_needs ranking_criteria_table
    (recommendations1 ++ recommendations2
     ++ [resource_advice; reassess_advice])%list.

(* ===================================================================== *)
(** ** run_api.py: the session registry and process_reflection *)
(* ===================================================================== *)

(** [sessions[session_id]] *)
Definition sessions_getitem (session_id : string)
    : M (gmap string SessionVal) :=
  fun w =>
    match sessions w !! session_id with
    | Some session => (Ok session, w)
    | None => (Raise (KeyError session_id), w)
    end.

(** The session dict is mutated in place: the registry holds the new
    contents afterwards. *)
Definition sessions_store (session_id : string)
    (session : gmap string SessionVal) : M unit :=
  fun w =>
    (Ok tt, mkWorld (gateway_calls w) (steps w)
              (<[session_id := session]> (sessions w)) (clock w)).

(** [sessions[session_id][key] = v] *)
Definition session_setitem (session_id key : string) (v : SessionVal)
    : M unit :=
  session <- sessions_getitem session_id ;;
  sessions_store session_id (<[key := v]> session).

(** The session dict of submit_reflection_query (run_api.py:347-352). *)
Definition new_session (query : string) (max_rounds created_at : Z)
    : gmap string SessionVal :=
  <["created_at" := SVTime created_at]>
  (<["max_rounds" := SVInt max_rounds]>
  (<["query" := SVStr query]>
  (<["status" := SVStr "queued"]> ∅))).

(** process_reflection (run_api.py:112-179).  [None]: the fuel of the
    graph ran out. *)
Definition process_reflection (fuel : nat) (g : Gateway) (rt : PyRuntime)
    (session_id query : string) (max_rounds : Z) : M (option unit) :=
  try_except
    (session_setitem session_id "status" (SVStr "processing") ;;;
     r <- run_reflection_sync fuel g rt query max_rounds ;;
     match r with
     | None => ret None
     | Some result =>
         session <- sessions_getitem session_id ;;
         completed_at <- now ;;
         sessions_store session_id
           (<["completed_at" := SVTime completed_at]>
            (<["result" := SVResult result]>
            (<["status" := SVStr "completed"]> session))) ;;;
         found <- lift (py_get (parsed_needs result) "needs" PyNone) ;;
         if truthy found then
           try_except
             (needs_list <- lift (py_getitem (parsed_needs result) "needs") ;;
              evaluation_result <- evaluate_needs g rt needs_list ;;
              created_at <- now ;;
              session_setitem session_id "evaluation"
                (SVEntry "completed" (EvaluationBody evaluation_result)
                         created_at) ;;;
              let prioritization := create_prioritization rt evaluation_result in
              created_at' <- now ;;
              session_setitem session_id "prioritization"
                (SVEntry "completed" (PrioritizationBody prioritization)
                         created_at') ;;;
              ret (Some tt))
             (fun e =>
                created_at <- now ;;
                session_setitem session_id "evaluation"
                  (SVEntry "error" (ErrorBody (exn_str e)) created_at) ;;;
                created_at' <- now ;;
                session_setitem session_id "prioritization"
                  (SVEntry "error" (ErrorBody (exn_str e)) created_at') ;;;
                ret (Some tt))
         else ret (Some tt)
     end)
    (fun e =>
       session <- sessions_getitem session_id ;;
       completed_at <- now ;;
       sessions_store session_id
         (<["completed_at" := SVTime completed_at]>
          (<["error" := SVStr (exn_str e)]>
          (<["status" := SVStr "error"]> session))) ;;;
       ret (Some tt)).

(* ===================================================================== *)
(** ** Sample collaborators *)
(* ===================================================================== *)

(** A runtime whose [str] is a fixed text and whose [ast.literal_eval]
    rejects every input. *)
Definition rt_unparsable : PyRuntime :=
  mkPyRuntime (fun _ => "<needs>")
              (fun _ => Raise (ValueError "malformed node or string"))
              (fun _ => "5.0").

(** A runtime whose [ast.literal_eval] answers with one dumped need. *)
Definition sample_item : NeedItem :=
  mkNeedItem "Bed management" "Allocate beds" "Shorter waits" "IoT sensors"
             "Pilot in the emergency room".

Definition rt_sample : PyRuntime :=
  mkPyRuntime (fun _ => "<needs>")
              (fun _ => Ok (NeedsOutput_model_dump (mkNeedsOutput [sample_item])))
              (fun _ => "5.0").

(** The fields of a format string as [str.format] reads it: a doubled
    brace is a literal brace; a single open brace starts a field, which
    runs to its matching close brace; a close brace outside a field, a
    field that is not closed and an open brace inside a field name raise
    ValueError.  The state is [None] in literal text and, inside a field,
    the number of braces still open within it and the text of the field
    so far. *)
Definition is_open (c : ascii) : bool := Ascii.eqb c "{"%char.
Definition is_close (c : ascii) : bool := Ascii.eqb c "}"%char.

Fixpoint scan_fields (field : option (nat * string)) (s : string)
    : result (list string) :=
  match s with
  | EmptyString =>
      match field with
      | None => Ok []
      | Some _ => Raise (ValueError "expected '}' before end of string")
      end
  | String c rest =>
      match field with
      | Some (depth, name) =>
          if is_close c then
            match depth with
            | O =>
                if contains "{" name
                then Raise (ValueError "unexpected '{' in field name")
                else rbind (scan_fields None rest)
                           (fun names => Ok (name :: names))
            | S depth' =>
                scan_fields (Some (depth', name ++ String c EmptyString)) rest
            end
          else if is_open c then
            scan_fields (Some (S depth, name ++ String c EmptyString)) rest
          else scan_fields (Some (depth, name ++ String c EmptyString)) rest
      | None =>
          if is_open c then
            match rest with
            | EmptyString =>
                Raise (ValueError "Single '{' encountered in format string")
            | String c' rest' =>
                if is_open c' then scan_fields None rest'
                else scan_fields (Some (O, EmptyString)) rest
            end
          else if is_close c then
            match rest with
            | EmptyString =>
                Raise (ValueError "Single '}' encountered in format string")
            | String c' rest' =>
                if is_close c' then scan_fields None rest'
                else
                  Raise (ValueError "Single '}' encountered in format string")
            end
          else scan_fields None rest
      end
  end.

Definition format_fields (text : string) : result (list string) :=
  scan_fields None text.

(** A model that always answers, judges every message "unclear" and
    extracts no need at all. *)
Definition gw_quiet : Gateway :=
  mkGateway format_fields (fun _ _ _ => Ok "noted")
            (fun _ _ => Ok "Unclear")
            (fun _ _ _ _ => Ok (mkNeedsOutput []))
            (fun _ _ => Raise (OutputParserException "bad evaluation")).

(** A model whose every call fails. *)
Definition gw_down : Gateway :=
  mkGateway format_fields (fun _ _ _ => Raise (GatewayError "timeout"))
            (fun _ _ => Raise (GatewayError "timeout"))
            (fun _ _ _ _ => Raise (GatewayError "timeout"))
            (fun _ _ => Raise (GatewayError "timeout")).

Definition cb_raising : StatusCallback :=
  fun _ _ _ => Raise (ObserverError "observer failed").

Definition cb_silent : StatusCallback := fun _ _ _ => Ok tt.

Definition w0 : World := mkWorld 0 [] ∅ 0.

Definition sample_state : ReflectionState :=
  mkState [HumanMessage "q"; AIMessage "a"] ["a"] [] 1 3 "".




(** The configurations a run passes through: the entry of the graph, and
    what a step that returns leads to. *)
Inductive reachable (g : Gateway) (rt : PyRuntime)
    (self : MedicalReflectionSystem) (user_query : string) (limit : Z)
    : Node -> ReflectionState -> World -> Prop :=
| reach_start w :
    reachable g rt self user_query limit
      medical_staff_agent (initial_state user_query limit) w
| reach_step n s w n' s' w' :
    reachable g rt self user_query limit n s w ->
    n <> END ->
    graph_step g rt self (n, s) w = (Ok (n', s'), w') ->
    reachable g rt self user_query limit n' s' w'.

(** The role the spec assigns to a round when the classifier gives no
    usable answer: even round, the engineer; odd round, the medical
    expert. *)
Definition fallback_role (round : Z) : string :=
  if Z.even round then "engineer_agent" else "medical".

(** The classifier gave no usable answer: its call raised, or its reply,
    stripped and lower-cased, names neither category. *)
Definition no_usable_judgment (r : result string) : Prop :=
  match r with
  | Raise _ => True
  | Ok reply =>
      contains "medical" (lower (strip reply)) = false /\
      contains "engineering" (lower (strip reply)) = false
  end.

(** [parsed_output["needs"]] as a list; empty when there is none. *)
Definition needs_of (parsed_output : PyVal) : list PyVal :=
  match py_getitem parsed_output "needs" with
  | Ok (PyList l) => l
  | _ => []
  end.

(** What _create_default_evaluation builds for one title. *)
Definition midpoint_evaluation (title : string) : NeedEvaluation :=
  mkNeedEvaluation title 5 5 5 5 5
    ["需要進一步分析"] ["評估過程失敗"] ["重新執行評估"].

(** The order create_prioritization asks for: no score before a greater
    one. *)
Definition score_ge (a b : NeedEvaluation) : Prop :=
  (overall_score b <= overall_score a)%Q.

(** The evaluations whose overall score is [q]. *)
Definition score_is (q : Q) (e : NeedEvaluation) : bool :=
  Qeq_bool (overall_score e) q.

(** Two evaluations with the same title and the same scores as numbers. *)
Definition same_evaluation (a b : NeedEvaluation) : Prop :=
  need_title a = need_title b /\
  (overall_score a == overall_score b)%Q.

Definition sample_evaluation (title : string) (score : Q) : NeedEvaluation :=
  mkNeedEvaluation title 6 6 6 6 score [] [] [].

(** A computation that leaves the registry and the clock alone. *)
Definition keeps_registry {A} (m : M A) : Prop :=
  forall w, sessions (snd (m w)) = sessions w /\ clock (snd (m w)) = clock w.

Definition evaluations_close : list NeedEvaluation :=
  [sample_evaluation "A" (15 # 2); sample_evaluation "B" 9].
Definition evaluations_close' : list NeedEvaluation :=
  [sample_evaluation "A" (30 # 4); sample_evaluation "B" (18 # 2)].

(** A registry with one queued session. *)
Definition w_registered : World :=
  mkWorld 0 [] (<["s1" := new_session "q" 1 0]> ∅) 1.

(** The persona a node speaks as. *)
Definition persona_of (n : Node) : Persona :=
  match n with
  | engineer_agent => engineer
  | _ => medical_expert
  end.

(** The state an agent node returns once the model has answered
    [response] (need_finder.py:158-163 and 201-206). *)
Definition after_turn (n : Node) (response : string) (s : ReflectionState)
    : ReflectionState :=
  match n with
  | engineer_agent =>
      mkState (messages s ++ [AIMessage response])%list (medical_insights s)
        (engineering_insights s ++ [response])%list
        (discussion_round s + 1) (max_rounds s) (final_summary s)
  | _ =>
      mkState (messages s ++ [AIMessage response])%list
        (medical_insights s ++ [response])%list (engineering_insights s)
        (discussion_round s + 1) (max_rounds s) (final_summary s)
  end.

(** The world after one more gateway call. *)
Definition after_call (w : World) : World :=
  mkWorld (S (gateway_calls w)) (steps w) (sessions w) (clock w).

(** The node the parity fallback of the router leads to. *)
Definition fallback_node (round : Z) : Node :=
  if Z.even round then engineer_agent else medical_staff_agent.

(** The rounds [first, first + 1, ..., first + count - 1]. *)
Definition rounds_from (first : Z) (count : nat) : list Z :=
  map (fun k => first + Z.of_nat k) (seq 0 count).

(** A system whose observer, if it has one, returns on every event. *)
Definition silent (self : MedicalReflectionSystem) : Prop :=
  match status_callback self with
  | Some cb => forall ev agent data, cb ev agent data = Ok tt
  | None => True
  end.

(** The keys _format_needs_for_evaluation reads from every need, in the
    order it reads them. *)
Definition need_keys : list string :=
  ["need"; "summary"; "medical_insights"; "tech_insights"; "strategy"].

(** The result evaluate_needs returns for no needs. *)
Definition empty_evaluation : NeedsEvaluationOutput :=
  mkEvaluationOutput [] no_needs_summary [].

(** A model whose evaluation chain gives every batch the same scores. *)
Definition sample_scores : NeedsEvaluationOutput :=
  mkEvaluationOutput
    [sample_evaluation "Bed management" 8] "one need" ["Bed management"].

Definition gw_scoring : Gateway :=
  mkGateway format_fields (fun _ _ _ => Ok "noted")
            (fun _ _ => Ok "medical")
            (fun _ _ _ _ => Ok (mkNeedsOutput [sample_item]))
            (fun _ _ => Ok sample_scores).

(** What one evaluation carries into the ranking, and what one ranked
    need shows of it. *)
Definition evaluation_scores (e : NeedEvaluation)
    : string * Q * Q * Q * Q * Q :=
  (need_title e, overall_score e, feasibility_score e, impact_score e,
   innovation_score e, resource_score e).

Definition prioritized_scores (p : PrioritizedNeed)
    : string * Q * Q * Q * Q * Q :=
  (pn_need_title p, pn_overall_score p, pn_feasibility_score p,
   pn_impact_score p, pn_innovation_score p, pn_resource_score p).

Definition evaluations_ranked : list NeedEvaluation :=
  [sample_evaluation "A" 9; sample_evaluation "B" 9; sample_evaluation "C" 4].

(** The world with the dict of one session replaced. *)
Definition with_session (session_id : string)
    (session : gmap string SessionVal) (w : World) : World :=
  mkWorld (gateway_calls w) (steps w)
    (<[session_id := session]> (sessions w)) (clock w).

(** The world after one reading of the clock. *)
Definition after_now (w : World) : World :=
  mkWorld (gateway_calls w) (steps w) (sessions w) (clock w + 1).

(** The three updates process_reflection makes to a session dict
    (run_api.py:118, 127-131, 175-179). *)
Definition marked_processing (session : gmap string SessionVal)
    : gmap string SessionVal :=
  <["status" := SVStr "processing"]> session.

Definition marked_completed (result : ReflectionResult) (completed_at : Z)
    (session : gmap string SessionVal) : gmap string SessionVal :=
  <["completed_at" := SVTime completed_at]>
  (<["result" := SVResult result]>
  (<["status" := SVStr "completed"]> session)).

Definition marked_error (e : exn) (completed_at : Z)
    (session : gmap string SessionVal) : gmap string SessionVal :=
  <["completed_at" := SVTime completed_at]>
  (<["error" := SVStr (exn_str e)]>
  (<["status" := SVStr "error"]> session)).

(** The two entries process_reflection writes after an evaluation that
    returned [outcome] when the clock showed [t] (run_api.py:141-169). *)
Definition evaluation_entry (outcome : result NeedsEvaluationOutput) (t : Z)
    : SessionVal :=
  match outcome with
  | Ok evaluation_result =>
      SVEntry "completed" (EvaluationBody evaluation_result) t
  | Raise e => SVEntry "error" (ErrorBody (exn_str e)) t
  end.

Definition prioritization_entry (rt : PyRuntime)
    (outcome : result NeedsEvaluationOutput) (t : Z) : SessionVal :=
  match outcome with
  | Ok evaluation_result =>
      SVEntry "completed"
        (PrioritizationBody (create_prioritization rt evaluation_result)) t
  | Raise e => SVEntry "error" (ErrorBody (exn_str e)) t
  end.

(** The two halves of process_reflection, named for the proofs: what it
    does with the outcome of the run, and its handler. *)
Definition store_and_evaluate (g : Gateway) (rt : PyRuntime)
    (session_id : string) (r : option ReflectionResult) : M (option unit) :=
  match r with
  | None => ret None
  | Some result =>
      session <- sessions_getitem session_id ;;
      completed_at <- now ;;
      sessions_store session_id
        (<["completed_at" := SVTime completed_at]>
         (<["result" := SVResult result]>
         (<["status" := SVStr "completed"]> session))) ;;;
      found <- lift (py_get (parsed_needs result) "needs" PyNone) ;;
      if truthy found then
        try_except
          (needs_list <- lift (py_getitem (parsed_needs result) "needs") ;;
           evaluation_result <- evaluate_needs g rt needs_list ;;
           created_at <- now ;;
           session_setitem session_id "evaluation"
             (SVEntry "completed" (EvaluationBody evaluation_result)
                      created_at) ;;;
           let prioritization := create_prioritization rt evaluation_result in
           created_at' <- now ;;
           session_setitem session_id "prioritization"
             (SVEntry "completed" (PrioritizationBody prioritization)
                      created_at') ;;;
           ret (Some tt))
          (fun e =>
             created_at <- now ;;
             session_setitem session_id "evaluation"
               (SVEntry "error" (ErrorBody (exn_str e)) created_at) ;;;
             created_at' <- now ;;
             session_setitem session_id "prioritization"
               (SVEntry "error" (ErrorBody (exn_str e)) created_at') ;;;
             ret (Some tt))
      else ret (Some tt)
  end.

Definition record_failure (session_id : string) (e : exn) : M (option unit) :=
  session <- sessions_getitem session_id ;;
  completed_at <- now ;;
  sessions_store session_id
    (<["completed_at" := SVTime completed_at]>
     (<["error" := SVStr (exn_str e)]>
     (<["status" := SVStr "error"]> session))) ;;;
  ret (Some tt).

(** The session and the world once the result of a run is stored. *)
Definition world_completed (session_id : string) (result : ReflectionResult)
    (session : gmap string SessionVal) (w1 : World) : World :=
  with_session session_id
    (marked_completed result (clock w1) (marked_processing session))
    (after_now w1).

(** The session once the outcome of the evaluation is stored too. *)
Definition with_entries (rt : PyRuntime)
    (outcome : result NeedsEvaluationOutput) (t : Z)
    (session : gmap string SessionVal) : gmap string SessionVal :=
  <["prioritization" := prioritization_entry rt outcome (t + 1)]>
  (<["evaluation" := evaluation_entry outcome t]> session).

(* ===================================================================== *)
(** ** run_api.py: the request model and the endpoints *)
(* ===================================================================== *)

(** class ReflectionRequest (run_api.py:74-76) *)
Record ReflectionRequest : Type := mkRequest {
  req_query : string;
  req_max_rounds : Z
}.

(** The validation pydantic runs before the handler is called: max_rounds
    defaults to 3 and must lie in 1..10 (ge=1, le=10).  [None]: the
    request is rejected and no handler runs. *)
Definition ReflectionRequest_validate (query : string) (max_rounds : option Z)
    : option ReflectionRequest :=
  let m := match max_rounds with Some m => m | None => 3 end in
  if ((1 <=? m) && (m <=? 10))%Z then Some (mkRequest query m) else None.

(** class ReflectionResponse (run_api.py:78-81) *)
Record ReflectionResponse : Type := mkResponse {
  resp_session_id : string;
  resp_status : string;
  resp_message : string
}.

(** submit_reflection_query (run_api.py:337-363); [session_id] is the
    uuid4 it draws.  The background task it queues is process_reflection
    with the same id, query and max_rounds. *)
Definition submit_reflection_query (session_id : string)
    (request : ReflectionRequest) : M ReflectionResponse :=
  created_at <- now ;;
  sessions_store session_id
    (new_session (req_query request) (req_max_rounds request) created_at) ;;;
  ret (mkResponse session_id "queued"
         "Reflection analysis has been queued for processing").

(** What an endpoint answers: a response model, an HTTPException, or an
    exception nobody handles. *)
Inductive http (A : Type) : Type :=
| Respond (a : A)
| HTTPException (status_code : Z) (detail : string)
| Unhandled (e : exn).
Arguments Respond {A} a.
Arguments HTTPException {A} status_code detail.
Arguments Unhandled {A} e.

(** class ReflectionResult (run_api.py:83-94), the response model *)
Record ReflectionResultModel : Type := mkReflectionResultModel {
  rm_session_id : string;
  rm_status : string;
  rm_original_query : string;
  rm_discussion_rounds : Z;
  rm_medical_insights : list string;
  rm_engineering_insights : list string;
  rm_parsed_needs : list (string * PyVal);
  rm_final_summary : string;
  rm_full_conversation : list string;
  rm_created_at : Z;
  rm_completed_at : option Z
}.

(** class EvaluationResult (run_api.py:96-102) *)
Record EvaluationResultModel : Type := mkEvaluationResultModel {
  em_session_id : string;
  em_status : string;
  em_evaluations : list NeedEvaluation;
  em_summary : string;
  em_top_priority_needs : list string;
  em_created_at : Z
}.

(** class PrioritizationResult (run_api.py:104-110) *)
Record PrioritizationResultModel : Type := mkPrioritizationResultModel {
  pm_session_id : string;
  pm_status : string;
  pm_prioritized_needs : list PrioritizedNeed;
  pm_ranking_criteria : list (string * string);
  pm_recommendations : list string;
  pm_created_at : Z
}.

(** [v == s] for a stored value and a str literal. *)
Definition is_str (s : string) (v : SessionVal) : bool :=
  match v with
  | SVStr s' => String.eqb s' s
  | _ => false
  end.

(** An f-string field [{session.get('error')}]; [fmt] is [str] on the
    values that are not strings. *)
Definition format_get (fmt : SessionVal -> string) (o : option SessionVal)
    : string :=
  match o with
  | None => "None"
  | Some (SVStr s) => s
  | Some v => fmt v
  end.

Definition validation_error (model : string) : exn :=
  ValueError ("validation error for " ++ model).

(** get_reflection_result (run_api.py:395-439).  Every key of a session
    holds one kind of value in the source (a str under "status" and
    "query", a datetime under "created_at" and "completed_at", the result
    dict under "result"); on a value of another kind the answer here is
    the failure of the response model's validation, and the coercions
    pydantic would try on such a value are not modelled. *)
Definition get_reflection_result (fmt : SessionVal -> string)
    (registry : gmap string (gmap string SessionVal)) (session_id : string)
    : http ReflectionResultModel :=
  match registry !! session_id with
  | None => HTTPException 404 "Session not found"
  | Some session =>
      match session !! "status" with
      | None => Unhandled (KeyError "status")
      | Some status =>
          if is_str "error" status then
            HTTPException 500
              ("Reflection failed: " ++ format_get fmt (session !! "error"))
          else if negb (is_str "completed" status) then
            match session !! "query", session !! "created_at" with
            | None, _ => Unhandled (KeyError "query")
            | _, None => Unhandled (KeyError "created_at")
            | Some query, Some created_at =>
                match status, query, created_at with
                | SVStr st, SVStr q, SVTime t =>
                    Respond (mkReflectionResultModel session_id st q 0 [] []
                               [] "" [] t None)
                | _, _, _ => Unhandled (validation_error "ReflectionResult")
                end
            end
          else
            match session !! "result" with
            | None => Unhandled (KeyError "result")
            | Some (SVResult result) =>
                match session !! "created_at" with
                | None => Unhandled (KeyError "created_at")
                | Some created_at =>
                    match parsed_needs result, created_at,
                          session !! "completed_at" with
                    | PyDict d, SVTime t, None =>
                        Respond (mkReflectionResultModel session_id "completed"
                          (original_query result) (discussion_rounds result)
                          (rr_medical_insights result)
                          (rr_engineering_insights result) d
                          (rr_final_summary result) (full_conversation result)
                          t None)
                    | PyDict d, SVTime t, Some (SVTime t') =>
                        Respond (mkReflectionResultModel session_id "completed"
                          (original_query result) (discussion_rounds result)
                          (rr_medical_insights result)
                          (rr_engineering_insights result) d
                          (rr_final_summary result) (full_conversation result)
                          t (Some t'))
                    | _, _, _ => Unhandled (validation_error "ReflectionResult")
                    end
                end
            | Some (SVEntry _ _ _) => Unhandled (KeyError "original_query")
            | Some _ => Unhandled (TypeError "indices must be integers")
            end
      end
  end.

(** get_evaluation_result (run_api.py:441-475) *)
Definition get_evaluation_result
    (registry : gmap string (gmap string SessionVal)) (session_id : string)
    : http EvaluationResultModel :=
  match registry !! session_id with
  | None => HTTPException 404 "Session not found"
  | Some session =>
      match session !! "evaluation" with
      | None =>
          HTTPException 404
            "Evaluation not available. Reflection must complete first."
      | Some (SVEntry status body created_at) =>
          if String.eqb status "error" then
            HTTPException 500
              ("Evaluation failed: " ++
               match body with ErrorBody msg => msg | _ => "None" end)
          else if negb (String.eqb status "completed") then
            HTTPException 202 "Evaluation is still processing"
          else
            match body with
            | EvaluationBody result =>
                Respond (mkEvaluationResultModel session_id "completed"
                           (evaluations result) (summary result)
                           (top_priority_needs result) created_at)
            | PrioritizationBody _ => Unhandled (KeyError "evaluations")
            | ErrorBody _ => Unhandled (KeyError "result")
            end
      | Some (SVResult _) => Unhandled (KeyError "status")
      | Some _ => Unhandled (TypeError "indices must be integers")
      end
  end.

(** get_prioritization_result (run_api.py:477-511) *)
Definition get_prioritization_result
    (registry : gmap string (gmap string SessionVal)) (session_id : string)
    : http PrioritizationResultModel :=
  match registry !! session_id with
  | None => HTTPException 404 "Session not found"
  | Some session =>
      match session !! "prioritization" with
      | None =>
          HTTPException 404
            "Prioritization not available. Evaluation must complete first."
      | Some (SVEntry status body created_at) =>
          if String.eqb status "error" then
            HTTPException 500
              ("Prioritization failed: " ++
               match body with ErrorBody msg => msg | _ => "None" end)
          else if negb (String.eqb status "completed") then
            HTTPException 202 "Prioritization is still processing"
          else
            match body with
            | PrioritizationBody result =>
                Respond (mkPrioritizationResultModel session_id "completed"
                           (prioritized_needs result) (ranking_criteria result)
                           (prio_recommendations result) created_at)
            | EvaluationBody _ => Unhandled (KeyError "prioritized_needs")
            | ErrorBody _ => Unhandled (KeyError "result")
            end
      | Some (SVResult _) => Unhandled (KeyError "status")
      | Some _ => Unhandled (TypeError "indices must be integers")
      end
  end.

(** One stored progress event (run_api.py:236-241). *)
Record StreamEvent : Type := mkStreamEvent {
  ev_timestamp : Z;
  ev_event_type : string;
  ev_agent : string;
  ev_data : list (string * PyVal)
}.

(** The callback create_status_callback builds for a session
    (run_api.py:232-250), on the registry of streams; [timestamp] is the
    instant datetime.now() gave. *)
Definition status_callback_for (session_id : string) (timestamp : Z)
    (event_type agent : string) (data : list (string * PyVal))
    (session_streams : gmap string (list StreamEvent))
    : gmap string (list StreamEvent) :=
  let event := mkStreamEvent timestamp event_type agent data in
  let events :=
    match session_streams !! session_id with
    | None => []          (* session_streams[session_id] = [] *)
    | Some events => events
    end in
  <[session_id := (events ++ [event])%list]> session_streams.

(** One pass of the loop of generate_events over the stored events
    (run_api.py:548-554): what it yields and the index it keeps. *)
Definition new_events_since (last_event_index : nat)
    (events : list StreamEvent) : list StreamEvent * nat :=
  let new_events := skipn last_event_index events in
  (new_events, (last_event_index + length new_events)%nat).

(** The two entries of a session after process_reflection: untouched, or
    written together from one outcome of the evaluation. *)
Definition entries_follow (rt : PyRuntime)
    (before after : gmap string SessionVal) : Prop :=
  (after !! "evaluation" = before !! "evaluation" /\
   after !! "prioritization" = before !! "prioritization") \/
  (exists outcome t,
     after !! "evaluation" = Some (evaluation_entry outcome t) /\
     after !! "prioritization" = Some (prioritization_entry rt outcome (t + 1))).

(** [session_streams.get(session_id, [])] (run_api.py:548) *)
Definition stream_of (session_id : string)
    (session_streams : gmap string (list StreamEvent)) : list StreamEvent :=
  match session_streams !! session_id with
  | Some events => events
  | None => []
  end.

(** The callback of one session called once per event, in order. *)
Fixpoint record_events (session_id : string) (events : list StreamEvent)
    (session_streams : gmap string (list StreamEvent))
    : gmap string (list StreamEvent) :=
  match events with
  | [] => session_streams
  | e :: rest =>
      record_events session_id rest
        (status_callback_for session_id (ev_timestamp e) (ev_event_type e)
           (ev_agent e) (ev_data e) session_streams)
  end.

Definition sample_event (t : Z) (event_type : string) : StreamEvent :=
  mkStreamEvent t event_type "medical_expert" [("round", PyInt 1)].

(* ===================================================================== *)
(** ** Texts and braces *)
(* ===================================================================== *)

(** A text without a brace character. *)
Fixpoint brace_free (s : string) : bool :=
  match s with
  | EmptyString => true
  | String c rest => negb (is_open c) && negb (is_close c) && brace_free rest
  end.

(** The texts a state carries into the prompts of the router and of the
    collector. *)
Definition texts_of (s : ReflectionState) : list string :=
  (map content (messages s) ++ medical_insights s ++ engineering_insights s)%list.

Definition brace_free_state (s : ReflectionState) : Prop :=
  Forall (fun t => brace_free t = true) (texts_of s).

(** A prompt layer that finds no variable in a text without braces, and a
    model whose chat answers are texts without braces. *)
Definition plain_templates (g : Gateway) : Prop :=
  forall text, brace_free text = true -> template_variables g text = Ok [].

Definition chat_answers_plainly (g : Gateway) : Prop :=
  forall i persona transcript, exists response,
    chat g i persona transcript = Ok response /\ brace_free response = true.

(** A model whose chat answers end in a single open brace, and whose
    classifier names neither category. *)
Definition gw_braces : Gateway :=
  mkGateway format_fields (fun _ _ _ => Ok "let x = {")
            (fun _ _ => Ok "Unclear")
            (fun _ _ _ _ => Ok (mkNeedsOutput [sample_item]))
            (fun _ _ => Ok sample_scores).

(** A state below its budget whose last message, an agent's, ends in a
    single open brace; and one whose last message names a field. *)
Definition brace_state : ReflectionState :=
  mkState [HumanMessage "q"; AIMessage "let x = {"] ["let x = {"] [] 1 3 "".

Definition field_state : ReflectionState :=
  mkState [HumanMessage "q"; AIMessage "send {id}"] ["send {id}"] [] 1 3 "".

(** The state collector_node returns for a value of parsed_output. *)
Definition collected (rt : PyRuntime) (v : PyVal) (s : ReflectionState)
    : ReflectionState :=
  mkState (messages s ++ [AIMessage (py_str rt v)])%list
    (medical_insights s) (engineering_insights s)
    (discussion_round s) (max_rounds s) (py_str rt v).

(** ** The events of a turn *)

(** The agent name and the data of the two events of a turn
    (need_finder.py:125-128, 151-155, 168-171, 194-198). *)
Definition agent_label (n : Node) : string :=
  match n with
  | engineer_agent => "engineer"
  | _ => "medical_expert"
  end.

Definition thinking_started_data (n : Node) (s : ReflectionState)
    : list (string * PyVal) :=
  [("round", PyInt (discussion_round s + 1));
   ("message", PyStr (match n with
                      | engineer_agent => engineer_thinking_message
                      | _ => medical_thinking_message
                      end))].

Definition thinking_completed_data (n : Node) (response : string)
    (s : ReflectionState) : list (string * PyVal) :=
  [("round", PyInt (discussion_round s + 1));
   ("response", PyStr response);
   ("insight_count",
    PyInt (Z.of_nat (length (match n with
                             | engineer_agent => engineering_insights s
                             | _ => medical_insights s
                             end ++ [response])%list)))].

(** An observer that returns when a turn starts and raises when it
    completes. *)
Definition cb_late : StatusCallback :=
  fun event_type _ _ =>
    if String.eqb event_type "thinking_completed"
    then Raise (ObserverError "observer failed")
    else Ok tt.

(* ===================================================================== *)
(** * Properties *)
(* ===================================================================== *)

(** ** The router *)

Ltac run_monad :=
  unfold bind, ret, raise, lift, try_except, call_gateway, log_step, now in *;
  simpl in *.

Lemma alternate_label (r : Z) :
  alternate r = "medical" \/ alternate r = "engineer_agent".
Proof. unfold alternate. destruct (r mod 2 =? 0)%Z; auto. Qed.

(** At or past the budget the router answers "collector" at once, without
    building a prompt or consulting the model. *)
Lemma router_hard_stop g s w :
  max_rounds s <= discussion_round s ->
  _should_continue_discussion g s w = (Ok "collector", w).
Proof.
  intros H. unfold _should_continue_discussion.
  replace (discussion_round s >=? max_rounds s)%Z with true; [reflexivity|].
  symmetry. rewrite Z.geb_le. exact H.
Qed.

(** Below the budget, after an agent's message, the router in closed form:
    a malformed brace in the message raises out of the router; a field in
    the message makes the chain fail before the model is called, which the
    handler turns into the alternation; otherwise the classifier is called
    once. *)
Lemma router_below_budget g s w last_content :
  discussion_round s < max_rounds s ->
  last (messages s) = Some (AIMessage last_content) ->
  _should_continue_discussion g s w =
    match template_variables g (judge_human_text last_content) with
    | Raise e => (Raise e, w)
    | Ok (_ :: _) => (Ok (alternate (discussion_round s)), w)
    | Ok [] =>
        (Ok (match judge g (gateway_calls w) last_content with
             | Ok reply =>
                 if contains "medical" (lower (strip reply))
                 then "engineer_agent"
                 else if contains "engineering" (lower (strip reply))
                      then "medical"
                      else alternate (discussion_round s)
             | Raise _ => alternate (discussion_round s)
             end),
         after_call w)
    end.
Proof.
  intros Hlt Hlast. unfold _should_continue_discussion.
  replace (discussion_round s >=? max_rounds s)%Z with false
    by (symmetry; destruct (Z.geb_spec (discussion_round s) (max_rounds s));
        [lia|reflexivity]).
  rewrite Hlast. unfold bind at 1, lift.
  destruct (template_variables g (judge_human_text last_content))
    as [[|v vars]|e]; [| reflexivity | reflexivity].
  unfold invoke_without_input, try_except, bind, call_gateway, ret, after_call.
  destruct (judge g (gateway_calls w) last_content) as [reply|e];
    [|reflexivity].
  destruct (contains "medical" (lower (strip reply))); [reflexivity|].
  destruct (contains "engineering" (lower (strip reply))); reflexivity.
Qed.

(** The router either raises, before any call and only below the budget,
    or names a node: "collector" at the budget, one of the two agents
    below it, after at most one call. *)
Lemma router_cases g s w :
  (discussion_round s < max_rounds s /\
   exists e, _should_continue_discussion g s w = (Raise e, w)) \/
  (exists label w',
     _should_continue_discussion g s w = (Ok label, w') /\
     (w' = w \/ w' = after_call w) /\
     (max_rounds s <= discussion_round s -> label = "collector") /\
     (discussion_round s < max_rounds s ->
        label = "medical" \/ label = "engineer_agent")).
Proof.
  destruct (Z_le_gt_dec (max_rounds s) (discussion_round s)) as [Hle|Hgt].
  { right. exists "collector", w. rewrite router_hard_stop by exact Hle.
    split; [reflexivity|]. split; [auto|]. split; [auto|lia]. }
  assert (Hlt : discussion_round s < max_rounds s) by lia.
  destruct (last (messages s)) as [[c|c]|] eqn:Hlast.
  - right. exists "medical", w. unfold _should_continue_discussion.
    replace (discussion_round s >=? max_rounds s)%Z with false
      by (symmetry; destruct (Z.geb_spec (discussion_round s) (max_rounds s));
          [lia|reflexivity]).
    rewrite Hlast. split; [reflexivity|]. split; [auto|]. split; [lia|auto].
  - rewrite (router_below_budget g s w c Hlt Hlast).
    destruct (template_variables g (judge_human_text c)) as [[|v vars]|e].
    + right. eexists _, _. split; [reflexivity|]. split; [auto|].
      split; [lia|]. intros _.
      destruct (judge g (gateway_calls w) c) as [reply|e];
        [|apply alternate_label].
      destruct (contains "medical" (lower (strip reply))); [auto|].
      destruct (contains "engineering" (lower (strip reply))); [auto|].
      apply alternate_label.
    + right. eexists _, _. split; [reflexivity|]. split; [auto|].
      split; [lia|]. intros _. apply alternate_label.
    + left. split; [exact Hlt|]. eauto.
  - right. exists "medical", w. unfold _should_continue_discussion.
    replace (discussion_round s >=? max_rounds s)%Z with false
      by (symmetry; destruct (Z.geb_spec (discussion_round s) (max_rounds s));
          [lia|reflexivity]).
    rewrite Hlast. split; [reflexivity|]. split; [auto|]. split; [lia|auto].
Qed.

(** ** The nodes *)

Lemma emit_status_cases self ev agent data w :
  _emit_status self ev agent data w = (Ok tt, w) \/
  exists e, _emit_status self ev agent data w = (Raise e, w).
Proof.
  unfold _emit_status, lift, ret.
  destruct (status_callback self) as [cb|]; [|auto].
  destruct (cb ev agent data) as [[]|e]; eauto.
Qed.

Lemma emit_status_silent self ev agent data w :
  silent self -> _emit_status self ev agent data w = (Ok tt, w).
Proof.
  unfold silent, _emit_status, lift, ret.
  destruct (status_callback self) as [cb|]; [|reflexivity].
  intros H. rewrite H. reflexivity.
Qed.

Lemma bind_ok {A B} (m : M A) (k : A -> M B) w a w' :
  m w = (Ok a, w') -> bind m k w = k a w'.
Proof. intros H. unfold bind. rewrite H. reflexivity. Qed.

Lemma bind_raise {A B} (m : M A) (k : A -> M B) w e w' :
  m w = (Raise e, w') -> bind m k w = (Raise e, w').
Proof. intros H. unfold bind. rewrite H. reflexivity. Qed.

Lemma call_gateway_eq {A} (oracle : nat -> result A) w :
  call_gateway oracle w =
  (oracle (gateway_calls w),
   mkWorld (S (gateway_calls w)) (steps w) (sessions w) (clock w)).
Proof. reflexivity. Qed.

(** A turn in closed form, by what the observer does on its two events
    and what the model answers. *)
Lemma agent_turn_closed g rt self n s w :
  is_agent n = true ->
  run_node g rt self n s w =
    match fst (_emit_status self "thinking_started" (agent_label n)
                 (thinking_started_data n s) w) with
    | Raise e => (Raise e, w)
    | Ok _ =>
        match chat g (gateway_calls w) (persona_of n) (messages s) with
        | Raise e => (Raise e, after_call w)
        | Ok response =>
            match fst (_emit_status self "thinking_completed" (agent_label n)
                         (thinking_completed_data n response s)
                         (after_call w)) with
            | Raise e => (Raise e, after_call w)
            | Ok _ => (Ok (after_turn n response s), after_call w)
            end
        end
    end.
Proof.
  intros Hn. destruct n; try discriminate; simpl run_node;
    unfold medical_staff_node, engineer_node;
    unfold agent_label, thinking_started_data, thinking_completed_data,
           persona_of, after_turn.
  - match goal with |- context [bind (_emit_status ?a ?b ?c ?d) ?k w] =>
      destruct (emit_status_cases a b c d w) as [H | [e H]] end.
    2:{ erewrite bind_raise by exact H. rewrite H. reflexivity. }
    erewrite bind_ok by exact H. rewrite H. cbn [fst]. clear H.
    destruct (chat g (gateway_calls w) medical_expert (messages s))
      as [resp|e] eqn:Hchat.
    2:{ erewrite bind_raise
          by (rewrite call_gateway_eq, Hchat; reflexivity). reflexivity. }
    erewrite bind_ok by (rewrite call_gateway_eq, Hchat; reflexivity).
    fold (after_call w).
    match goal with |- context [bind (_emit_status ?a ?b ?c ?d) ?k ?w1] =>
      destruct (emit_status_cases a b c d w1) as [H | [e H]] end.
    2:{ erewrite bind_raise by exact H. rewrite H. reflexivity. }
    erewrite bind_ok by exact H. rewrite H. reflexivity.
  - match goal with |- context [bind (_emit_status ?a ?b ?c ?d) ?k w] =>
      destruct (emit_status_cases a b c d w) as [H | [e H]] end.
    2:{ erewrite bind_raise by exact H. rewrite H. reflexivity. }
    erewrite bind_ok by exact H. rewrite H. cbn [fst]. clear H.
    destruct (chat g (gateway_calls w) engineer (messages s))
      as [resp|e] eqn:Hchat.
    2:{ erewrite bind_raise
          by (rewrite call_gateway_eq, Hchat; reflexivity). reflexivity. }
    erewrite bind_ok by (rewrite call_gateway_eq, Hchat; reflexivity).
    fold (after_call w).
    match goal with |- context [bind (_emit_status ?a ?b ?c ?d) ?k ?w1] =>
      destruct (emit_status_cases a b c d w1) as [H | [e H]] end.
    2:{ erewrite bind_raise by exact H. rewrite H. reflexivity. }
    erewrite bind_ok by exact H. rewrite H. reflexivity.
Qed.

Lemma after_turn_fields n response s :
  discussion_round (after_turn n response s) = discussion_round s + 1 /\
  max_rounds (after_turn n response s) = max_rounds s /\
  messages (after_turn n response s) = (messages s ++ [AIMessage response])%list /\
  final_summary (after_turn n response s) = final_summary s /\
  (length (medical_insights (after_turn n response s)) +
   length (engineering_insights (after_turn n response s)) =
   S (length (medical_insights s) + length (engineering_insights s)))%nat.
Proof.
  destruct n; simpl; rewrite ?length_app; simpl; repeat split; lia.
Qed.

(** A turn that returns has made exactly one call, to the chat model of
    its persona, and returns [after_turn] of the answer. *)
Lemma agent_turn_returns g rt self n s w s' w' :
  is_agent n = true ->
  run_node g rt self n s w = (Ok s', w') ->
  exists response,
    chat g (gateway_calls w) (persona_of n) (messages s) = Ok response /\
    s' = after_turn n response s /\ w' = after_call w.
Proof.
  intros Hn Hrun. rewrite (agent_turn_closed g rt self n s w Hn) in Hrun.
  destruct (fst (_emit_status self "thinking_started" _ _ w));
    [|discriminate].
  destruct (chat g (gateway_calls w) (persona_of n) (messages s))
    as [response|]; [|discriminate].
  destruct (fst (_emit_status self "thinking_completed" _ _ _));
    [|discriminate].
  inversion Hrun; subst. eauto.
Qed.

(** A turn of a silent system, in closed form. *)
Lemma agent_turn_silent g rt self n s w :
  silent self -> is_agent n = true ->
  run_node g rt self n s w =
  match chat g (gateway_calls w) (persona_of n) (messages s) with
  | Ok response => (Ok (after_turn n response s), after_call w)
  | Raise e => (Raise e, after_call w)
  end.
Proof.
  intros Hs Hn. rewrite (agent_turn_closed g rt self n s w Hn).
  rewrite emit_status_silent by exact Hs. cbn [fst].
  destruct (chat g (gateway_calls w) (persona_of n) (messages s));
    [|reflexivity].
  rewrite emit_status_silent by exact Hs. reflexivity.
Qed.

(** A turn either raises or appends one message and adds one to the round
    counter. *)
Lemma agent_turn_cases g rt self n s w :
  is_agent n = true ->
  (exists e w', run_node g rt self n s w = (Raise e, w') /\
                steps w' = steps w /\ sessions w' = sessions w) \/
  (exists s' w' m, run_node g rt self n s w = (Ok s', w') /\
     steps w' = steps w /\ sessions w' = sessions w /\
     discussion_round s' = discussion_round s + 1 /\
     max_rounds s' = max_rounds s /\
     messages s' = (messages s ++ [m])%list).
Proof.
  intros Hn. rewrite (agent_turn_closed g rt self n s w Hn).
  destruct (fst (_emit_status self "thinking_started" _ _ w)).
  2:{ left. eexists _, _. split; [reflexivity|]. split; reflexivity. }
  destruct (chat g (gateway_calls w) (persona_of n) (messages s))
    as [response|].
  2:{ left. eexists _, _. split; [reflexivity|]. split; reflexivity. }
  destruct (fst (_emit_status self "thinking_completed" _ _ _)).
  2:{ left. eexists _, _. split; [reflexivity|]. split; reflexivity. }
  right. destruct (after_turn_fields n response s) as (Hr & Hm & Hms & _).
  eexists _, _, _. split; [reflexivity|].
  split; [reflexivity|]. split; [reflexivity|].
  split; [exact Hr|]. split; [exact Hm|exact Hms].
Qed.

(** The value bound to parsed_output: never an exception.  A field in the
    prompt gives the default structure without a call to the model. *)
Lemma collector_parsed_output_cases g variables s w :
  collector_parsed_output g variables s w =
    match variables with
    | _ :: _ => (Ok failed_parsed_output, w)
    | [] =>
        match needs_chain g (gateway_calls w) (medical_insights s)
                (engineering_insights s) (map content (messages s)) with
        | Ok response => (Ok (NeedsOutput_model_dump response), after_call w)
        | Raise _ => (Ok failed_parsed_output, after_call w)
        end
    end.
Proof.
  unfold collector_parsed_output. destruct variables as [|v vars].
  - run_monad. unfold after_call.
    destruct (needs_chain g (gateway_calls w) _ _ _); reflexivity.
  - reflexivity.
Qed.

(** The collector either raises while building its prompt, before any
    call, or returns [collected] of some value after at most one call. *)
Lemma collector_cases g rt s w :
  (exists e, template_variables g (collector_human_text s) = Raise e /\
             collector_node g rt s w = (Raise e, w)) \/
  (exists variables v w',
     template_variables g (collector_human_text s) = Ok variables /\
     collector_parsed_output g (unfilled variables) s w = (Ok v, w') /\
     collector_node g rt s w = (Ok (collected rt v s), w') /\
     (w' = w \/ w' = after_call w)).
Proof.
  unfold collector_node. unfold bind at 1, lift.
  destruct (template_variables g (collector_human_text s))
    as [variables|e]; [|left; eauto].
  right. exists variables.
  assert (Hv : exists v w',
            collector_parsed_output g (unfilled variables) s w = (Ok v, w') /\
            (w' = w \/ w' = after_call w)).
  { rewrite collector_parsed_output_cases.
    destruct (unfilled variables) as [|x vars];
      [destruct (needs_chain g (gateway_calls w) _ _ _)|];
      eexists _, _; (split; [reflexivity|]); auto. }
  destruct Hv as (v & w' & Hv & Hw). exists v, w'.
  split; [reflexivity|]. split; [exact Hv|]. split; [|exact Hw].
  unfold bind. rewrite Hv. reflexivity.
Qed.

(** ** Steps of the graph *)

Lemma log_step_eq n w :
  log_step n w =
  (Ok tt, mkWorld (gateway_calls w) (steps w ++ [n])%list (sessions w) (clock w)).
Proof. reflexivity. Qed.

Lemma next_node_agent g n s :
  is_agent n = true ->
  next_node g n s =
  bind (_should_continue_discussion g s)
    (fun label => match path_map label with
                  | Some n' => ret n'
                  | None => raise (ValueError label)
                  end).
Proof. intros Hn. destruct n; try discriminate; reflexivity. Qed.

(** A step from an agent node: an exception, or one more round and an edge
    chosen by the router. *)
Lemma graph_step_agent g rt self n s w :
  is_agent n = true ->
  (exists e w', graph_step g rt self (n, s) w = (Raise e, w') /\
                steps w' = (steps w ++ [n])%list /\ sessions w' = sessions w) \/
  (exists n' s' w' m, graph_step g rt self (n, s) w = (Ok (n', s'), w') /\
     steps w' = (steps w ++ [n])%list /\ sessions w' = sessions w /\
     discussion_round s' = discussion_round s + 1 /\
     max_rounds s' = max_rounds s /\
     messages s' = (messages s ++ [m])%list /\
     (max_rounds s' <= discussion_round s' -> n' = collector) /\
     (discussion_round s' < max_rounds s' -> is_agent n' = true)).
Proof.
  intros Hn. unfold graph_step. simpl fst; simpl snd.
  erewrite bind_ok by apply log_step_eq.
  set (w1 := mkWorld _ _ _ _).
  destruct (agent_turn_cases g rt self n s w1 Hn)
    as [(e & w' & Hrun & Hst & Hse) | (s' & w' & m & Hrun & Hst & Hse & Hr & Hm & Hms)];
    subst w1; simpl in Hst, Hse.
  - left. erewrite bind_raise by exact Hrun. eauto.
  - erewrite bind_ok by exact Hrun.
    rewrite (next_node_agent g n s' Hn).
    destruct (router_cases g s' w')
      as [(_ & e & Hrt) | (label & w2 & Hrt & Hw2 & Hstop & Hgo)].
    + left. erewrite bind_raise by (erewrite bind_raise by exact Hrt; reflexivity).
      eauto.
    + assert (Hst2 : steps w2 = steps w' /\ sessions w2 = sessions w')
        by (destruct Hw2 as [-> | ->]; split; reflexivity).
      destruct Hst2 as [Hst2 Hse2].
      assert (Hnext : exists n',
                bind (_should_continue_discussion g s')
                  (fun label => match path_map label with
                                | Some n' => ret n'
                                | None => raise (ValueError label)
                                end) w' = (Ok n', w2) /\
                (max_rounds s' <= discussion_round s' -> n' = collector) /\
                (discussion_round s' < max_rounds s' -> is_agent n' = true)).
      { erewrite bind_ok by exact Hrt.
        destruct (Z_le_gt_dec (max_rounds s') (discussion_round s')) as [Hle|Hgt].
        - rewrite (Hstop Hle). exists collector.
          split; [reflexivity|]. split; [auto|lia].
        - destruct Hgo as [-> | ->]; [lia | |].
          + exists medical_staff_agent. split; [reflexivity|]. split; [lia|auto].
          + exists engineer_agent. split; [reflexivity|]. split; [lia|auto]. }
      destruct Hnext as (n' & Hnx & Hc & Ha).
      right. erewrite bind_ok by exact Hnx.
      exists n', s', w2, m. unfold ret.
      split; [reflexivity|]. split; [congruence|]. split; [congruence|].
      auto.
Qed.

(** A step from the collector: an exception raised while the prompt was
    built, or the edge to END. *)
Lemma graph_step_collector g rt self s w :
  (exists e w', graph_step g rt self (collector, s) w = (Raise e, w') /\
     steps w' = (steps w ++ [collector])%list /\ sessions w' = sessions w) \/
  (exists s' w' m, graph_step g rt self (collector, s) w = (Ok (END, s'), w') /\
     steps w' = (steps w ++ [collector])%list /\ sessions w' = sessions w /\
     discussion_round s' = discussion_round s /\
     max_rounds s' = max_rounds s /\
     messages s' = (messages s ++ [m])%list).
Proof.
  unfold graph_step. simpl fst; simpl snd.
  erewrite bind_ok by apply log_step_eq.
  set (w1 := mkWorld _ _ _ _). simpl run_node.
  destruct (collector_cases g rt s w1)
    as [(e & _ & Hrun) | (variables & v & w' & _ & _ & Hrun & Hw')].
  - left. erewrite bind_raise by exact Hrun. eexists _, _.
    split; [reflexivity|]. subst w1. auto.
  - right. erewrite bind_ok by exact Hrun.
    exists (collected rt v s), w', (AIMessage (py_str rt v)).
    split; [reflexivity|].
    assert (Hst : steps w' = steps w1 /\ sessions w' = sessions w1)
      by (destruct Hw' as [-> | ->]; split; reflexivity).
    destruct Hst as [Hst Hse]. subst w1. simpl in Hst, Hse.
    repeat split; auto.
Qed.




(** ** Runs on texts without braces *)

Lemma brace_free_app (a b : string) :
  brace_free (a ++ b) = brace_free a && brace_free b.
Proof.
  induction a as [|c a IH]; [reflexivity|].
  change (String c a ++ b) with (String c (a ++ b)).
  cbn [brace_free]. rewrite IH.
  destruct (negb (is_open c) && negb (is_close c)); reflexivity.
Qed.

Lemma brace_free_join sep parts :
  brace_free sep = true ->
  Forall (fun t => brace_free t = true) parts ->
  brace_free (join sep parts) = true.
Proof.
  intros Hsep. induction 1 as [|p rest Hp Hrest IH]; [reflexivity|].
  destruct rest as [|q rest]; [exact Hp|].
  change (join sep (p :: q :: rest)) with (p ++ sep ++ join sep (q :: rest)).
  rewrite !brace_free_app, Hp, Hsep, IH. reflexivity.
Qed.

Lemma judge_text_plain c :
  brace_free c = true -> brace_free (judge_human_text c) = true.
Proof.
  intros Hc. unfold judge_human_text.
  rewrite !brace_free_app, Hc.
  assert (H : brace_free "最近的對話內容：" = true) by (vm_compute; reflexivity).
  rewrite H. reflexivity.
Qed.

Lemma brace_free_state_parts s :
  brace_free_state s ->
  Forall (fun t => brace_free t = true) (map content (messages s)) /\
  Forall (fun t => brace_free t = true) (medical_insights s) /\
  Forall (fun t => brace_free t = true) (engineering_insights s).
Proof.
  unfold brace_free_state, texts_of. intros H.
  apply List.Forall_app in H. destruct H as [H1 H].
  apply List.Forall_app in H. destruct H as [H2 H3]. auto.
Qed.

Lemma collector_text_plain s :
  brace_free_state s -> brace_free (collector_human_text s) = true.
Proof.
  intros H. destruct (brace_free_state_parts s H) as (Hm & Hmed & Heng).
  assert (Hnl : brace_free newline = true) by reflexivity.
  assert (Hind : brace_free indent = true) by reflexivity.
  unfold collector_human_text. apply brace_free_join; [exact Hnl|].
  repeat constructor;
    rewrite ?brace_free_app, ?Hind;
    try (vm_compute; reflexivity);
    cbn [andb]; apply brace_free_join; assumption.
Qed.

Lemma after_turn_plain n response s :
  brace_free response = true -> brace_free_state s ->
  brace_free_state (after_turn n response s).
Proof.
  intros Hr H. destruct (brace_free_state_parts s H) as (Hm & Hmed & Heng).
  assert (H1 : Forall (fun t => brace_free t = true) [response])
    by (repeat constructor; exact Hr).
  unfold brace_free_state, texts_of.
  destruct n; cbn [after_turn messages medical_insights engineering_insights];
    rewrite map_app; cbn [map content];
    repeat (apply List.Forall_app; split); assumption.
Qed.

Lemma initial_state_plain user_query limit :
  brace_free user_query = true ->
  brace_free_state (initial_state user_query limit).
Proof.
  intros H. unfold brace_free_state, texts_of. simpl.
  repeat constructor. exact H.
Qed.

(** The sample prompt layer finds no field in a text without braces. *)
Lemma scan_fields_plain text :
  brace_free text = true -> scan_fields None text = Ok [].
Proof.
  induction text as [|c text IH]; [reflexivity|].
  cbn [brace_free scan_fields]. intros H.
  apply andb_true_iff in H. destruct H as [H Htext].
  apply andb_true_iff in H. destruct H as [Ho Hc].
  apply negb_true_iff in Ho. apply negb_true_iff in Hc.
  rewrite Ho, Hc. apply IH. exact Htext.
Qed.

Lemma format_fields_plain : plain_templates gw_quiet.
Proof. intros text H. apply scan_fields_plain. exact H. Qed.







(** ** Invariants of the discussion state *)

Lemma graph_step_grows g rt self n s w n' s' w' :
  n <> END ->
  graph_step g rt self (n, s) w = (Ok (n', s'), w') ->
  (is_agent n = true -> discussion_round s' = discussion_round s + 1) /\
  (n = collector -> discussion_round s' = discussion_round s) /\
  max_rounds s' = max_rounds s /\
  (exists m, messages s' = (messages s ++ [m])%list) /\
  (is_agent n = true ->
     (max_rounds s' <= discussion_round s' -> n' = collector) /\
     (discussion_round s' < max_rounds s' -> is_agent n' = true)) /\
  (n = collector -> n' = END).
Proof.
  intros Hn Hstep.
  destruct n; try congruence.
  - destruct (graph_step_agent g rt self medical_staff_agent s w eq_refl)
      as [(e & w1 & Hs & _) | (n1 & s1 & w1 & m & Hs & _ & _ & Hr & Hm & Hms & Hc & Ha)];
      rewrite Hs in Hstep; inversion Hstep; subst.
    repeat split; eauto; discriminate.
  - destruct (graph_step_agent g rt self engineer_agent s w eq_refl)
      as [(e & w1 & Hs & _) | (n1 & s1 & w1 & m & Hs & _ & _ & Hr & Hm & Hms & Hc & Ha)];
      rewrite Hs in Hstep; inversion Hstep; subst.
    repeat split; eauto; discriminate.
  - destruct (graph_step_collector g rt self s w)
      as [(e & w1 & Hs & _) | (s1 & w1 & m & Hs & _ & _ & Hr & Hm & Hms)];
      rewrite Hs in Hstep; inversion Hstep; subst.
    repeat split; eauto; discriminate.
Qed.

(** C8: across the steps of a run the round counter never decreases, an
    agent turn adds exactly one to it and the collector leaves it alone,
    every step appends exactly one message to the messages it found, and,
    when max_rounds >= 1, the counter stays within 0..max_rounds in every
    configuration the run reaches and is below max_rounds whenever an
    agent turn is about to run. *)
Theorem discussion_state_invariants
    (g : Gateway) (rt : PyRuntime) (self : MedicalReflectionSystem)
    (user_query : string) (limit : Z) :
  1 <= limit ->
  (forall n s w n' s' w',
     n <> END ->
     graph_step g rt self (n, s) w = (Ok (n', s'), w') ->
     discussion_round s <= discussion_round s' /\
     (is_agent n = true -> discussion_round s' = discussion_round s + 1) /\
     (exists m, messages s' = (messages s ++ [m])%list) /\
     (length (messages s) <= length (messages s'))%nat) /\
  (forall n s w,
     reachable g rt self user_query limit n s w ->
     max_rounds s = limit /\
     0 <= discussion_round s <= limit /\
     (is_agent n = true -> discussion_round s < limit)).
Proof.
  intros Hlimit. split.
  - intros n s w n' s' w' Hn Hstep.
    destruct (graph_step_grows _ _ _ _ _ _ _ _ _ Hn Hstep)
      as (Hag & Hco & _ & [m Hms] & _).
    repeat split.
    + destruct n; try congruence;
        [rewrite Hag by reflexivity; lia ..|rewrite Hco by reflexivity; lia].
    + exact Hag.
    + eauto.
    + rewrite Hms, length_app. lia.
  - intros n s w Hreach.
    induction Hreach as [w | n s w n' s' w' _ IH Hn Hstep].
    + simpl. repeat split; try lia.
    + destruct IH as (Hmax & Hrange & Hbelow).
      destruct (graph_step_grows _ _ _ _ _ _ _ _ _ Hn Hstep)
        as (Hag & Hco & Hm & _ & Hnext & Hend).
      destruct (is_agent n) eqn:Hagent.
      * specialize (Hag eq_refl). specialize (Hbelow eq_refl).
        destruct (Hnext eq_refl) as [Hstop Hgo].
        repeat split; try lia.
        intros Hn'.
        destruct (Z_le_gt_dec (max_rounds s') (discussion_round s')) as [Hle|Hgt];
          [rewrite (Hstop Hle) in Hn'; discriminate | lia].
      * assert (n = collector) by (destruct n; try discriminate; congruence).
        specialize (Hco H). specialize (Hend H). subst n'.
        repeat split; try lia. discriminate.
Qed.

(** Why the budget must be at least 1: the edge from START runs the first
    turn before the router is ever asked, so with max_rounds = 0 the run
    ends with the counter at 1. *)
Example first_turn_runs_on_zero_budget :
  exists s' w',
    graph_invoke 2 gw_quiet rt_unparsable (mkSystem 0 None)
      (initial_state "q" 0) w0 = (Ok (Some s'), w') /\
    discussion_round s' = 1 /\ max_rounds s' = 0.
Proof. eexists _, _. split; [reflexivity|]. split; reflexivity. Qed.

Lemma discussion_state_invariants_witness :
  1 <= 2 /\
  (forall n s w,
     reachable gw_quiet rt_unparsable (mkSystem 2 None) "q" 2 n s w ->
     max_rounds s = 2 /\
     0 <= discussion_round s <= 2 /\
     (is_agent n = true -> discussion_round s < 2)).
Proof.
  split; [lia|].
  apply (discussion_state_invariants gw_quiet rt_unparsable
           (mkSystem 2 None) "q" 2); lia.
Defined.

(** ** The fallback of the router *)

Lemma alternate_fallback_role (r : Z) : alternate r = fallback_role r.
Proof.
  unfold alternate, fallback_role. rewrite Zmod_even.
  destruct (Z.even r); reflexivity.
Qed.

(** Where the prompt of the classifier can be built, the fallback is as
    the spec has it: below the budget, after an agent's message, a
    classifier that cannot be called (the message holds a field), whose
    call raises or whose reply names neither category leaves the choice to
    the parity of the round counter alone. *)
Lemma router_fallback_when_prompt_builds g s w last_content variables :
  discussion_round s < max_rounds s ->
  last (messages s) = Some (AIMessage last_content) ->
  template_variables g (judge_human_text last_content) = Ok variables ->
  (variables = [] ->
   no_usable_judgment (judge g (gateway_calls w) last_content)) ->
  exists w',
    _should_continue_discussion g s w =
      (Ok (fallback_role (discussion_round s)), w').
Proof.
  intros Hlt Hlast Hvars Hjudge.
  rewrite (router_below_budget g s w last_content Hlt Hlast), Hvars.
  rewrite <- alternate_fallback_role.
  destruct variables as [|v vars]; [|eauto].
  specialize (Hjudge eq_refl). unfold no_usable_judgment in Hjudge.
  destruct (judge g (gateway_calls w) last_content) as [reply|e]; [|eauto].
  destruct Hjudge as [-> ->]. eauto.
Qed.

(** C3 at an input the router can receive: below the budget, after an
    agent's message that ends in a single open brace, with a classifier
    whose reply would name neither category.  The router builds
    judge_prompt from the message before its try, the brace raises
    ValueError there, and the exception leaves the router: no fallback is
    taken.  The same holds of every message on which building the prompt
    raises. *)
Theorem router_raises_on_malformed_brace :
  discussion_round brace_state < max_rounds brace_state /\
  last (messages brace_state) = Some (AIMessage "let x = {") /\
  no_usable_judgment (judge gw_braces (gateway_calls w0) "let x = {") /\
  fallback_role (discussion_round brace_state) = "medical" /\
  _should_continue_discussion gw_braces brace_state w0 =
    (Raise (ValueError "Single '{' encountered in format string"), w0) /\
  (forall g s w last_content e,
     discussion_round s < max_rounds s ->
     last (messages s) = Some (AIMessage last_content) ->
     template_variables g (judge_human_text last_content) = Raise e ->
     _should_continue_discussion g s w = (Raise e, w)).
Proof.
  split; [simpl; lia|]. split; [reflexivity|].
  split; [vm_compute; auto|]. split; [reflexivity|].
  split; [vm_compute; reflexivity|].
  intros g s w last_content e Hlt Hlast Hraise.
  rewrite (router_below_budget g s w last_content Hlt Hlast), Hraise.
  reflexivity.
Qed.

(** ** The extractor *)

Lemma failed_parsed_output_dump :
  failed_parsed_output = NeedsOutput_model_dump (mkNeedsOutput [failed_need_item]).
Proof. reflexivity. Qed.

(** C4, as stated, fails: a model output that parses to an empty list of
    needs is returned as it is. *)
Lemma extractor_empty_collection_counterexample :
  collector_node gw_quiet rt_sample sample_state w0 =
    (Ok (collected rt_sample (PyDict [("needs", PyList [])]) sample_state),
     mkWorld 1 [] ∅ 0) /\
  needs_of (PyDict [("needs", PyList [])]) = [] /\
  ~ (forall g rt s w, exists v w',
       collector_node g rt s w = (Ok (collected rt v s), w') /\
       needs_of v <> [] /\
       (forall variables,
          template_variables g (collector_human_text s) = Ok variables ->
          collector_parsed_output g (unfilled variables) s w = (Ok v, w'))).
Proof.
  split; [vm_compute; reflexivity|]. split; [reflexivity|].
  intros H.
  destruct (H gw_quiet rt_sample sample_state w0) as (v & w' & _ & Hne & Hv).
  specialize (Hv [] ltac:(vm_compute; reflexivity)).
  vm_compute in Hv. inversion Hv; subst. apply Hne. reflexivity.
Qed.

(** C4, amended: whenever the prompt of the extractor can be built from
    the state, the extractor does not raise.  When the schema-constrained
    call fails, for whatever reason, parsed_output is the one-element
    collection whose five fields state the failure; so it is, without a
    call to the model, when the texts of the state hold a field (other
    than format_instructions) that chain.invoke cannot fill; when the call
    succeeds, parsed_output is the
    dump of the parsed needs, as many as the model gave, possibly none.
    The node stores str(parsed_output) as final_summary and appends it to
    the messages. *)
Theorem extractor_returns_parsed_or_sentinel
    (g : Gateway) (rt : PyRuntime) (s : ReflectionState) (w : World)
    (variables : list string) :
  template_variables g (collector_human_text s) = Ok variables ->
  exists v w',
    collector_node g rt s w =
      (Ok (mkState (messages s ++ [AIMessage (py_str rt v)])%list
             (medical_insights s) (engineering_insights s)
             (discussion_round s) (max_rounds s) (py_str rt v)), w') /\
    match unfilled variables with
    | _ :: _ =>
        w' = w /\ v = failed_parsed_output /\
        needs_of v = [NeedItem_model_dump failed_need_item]
    | [] =>
        w' = after_call w /\
        match needs_chain g (gateway_calls w) (medical_insights s)
                (engineering_insights s) (map content (messages s)) with
        | Raise _ =>
            v = failed_parsed_output /\
            needs_of v = [NeedItem_model_dump failed_need_item]
        | Ok response =>
            v = NeedsOutput_model_dump response /\
            needs_of v = map NeedItem_model_dump (needs response)
        end
    end.
Proof.
  intros Hvars. unfold collector_node. unfold bind at 1, lift.
  rewrite Hvars. unfold bind. rewrite collector_parsed_output_cases.
  destruct (unfilled variables) as [|x vars].
  - destruct (needs_chain g (gateway_calls w) _ _ _) as [response|e];
      eexists _, _; (split; [reflexivity|]); split; auto.
  - eexists _, _. split; [reflexivity|]. auto.
Qed.

Lemma extractor_returns_parsed_or_sentinel_witness :
  (exists v w',
     collector_node gw_scoring rt_sample sample_state w0 =
       (Ok (collected rt_sample v sample_state), w') /\
     w' = after_call w0 /\
     needs_of v = [NeedItem_model_dump sample_item]) /\
  (exists v w',
     collector_node gw_scoring rt_sample field_state w0 =
       (Ok (collected rt_sample v field_state), w') /\
     w' = w0 /\
     needs_of v = [NeedItem_model_dump failed_need_item]).
Proof.
  split.
  - destruct (extractor_returns_parsed_or_sentinel gw_scoring rt_sample
                sample_state w0 [])
      as (v & w' & Hnode & Hw & Hv); [vm_compute; reflexivity|].
    exists v, w'. split; [exact Hnode|]. split; [exact Hw|].
    exact (proj2 Hv).
  - destruct (extractor_returns_parsed_or_sentinel gw_scoring rt_sample
                field_state w0 ["id"; "id"])
      as (v & w' & Hnode & Hw & _ & Hv); [vm_compute; reflexivity|].
    exists v, w'. split; [exact Hnode|]. split; [exact Hw|exact Hv].
Defined.

(** ** The observer *)

(** C7, as stated, fails: with a model that answers, a turn whose observer
    raises fails with the observer's exception, before the model is
    called. *)
Lemma observer_failure_counterexample :
  medical_staff_node gw_quiet (mkSystem 3 (Some cb_raising)) sample_state w0 =
    (Raise (ObserverError "observer failed"), w0) /\
  (exists s', medical_staff_node gw_quiet (mkSystem 3 None) sample_state w0 =
                (Ok s', mkWorld 1 [] ∅ 0)) /\
  ~ (forall cb, fst (medical_staff_node gw_quiet (mkSystem 3 (Some cb)) sample_state w0) =
                fst (medical_staff_node gw_quiet (mkSystem 3 None) sample_state w0)).
Proof.
  split; [reflexivity|]. split; [eexists; reflexivity|].
  intros H. specialize (H cb_raising). vm_compute in H. discriminate.
Qed.

Lemma emit_status_none limit ev agent data w :
  _emit_status (mkSystem limit None) ev agent data w = (Ok tt, w).
Proof. reflexivity. Qed.

(** C7, amended: _emit_status calls the registered observer in line and
    does nothing when none is registered; nothing swallows what the
    observer raises.  An observer that raises on thinking_started makes
    the turn fail with that exception before the model is called.  An
    observer that returns on thinking_started and raises on
    thinking_completed makes the turn fail with that exception after the
    model has answered: the answer is lost.  A failure of the model fails
    the turn whatever the observer does.  Only when the observer returns
    on both events does the turn end exactly as it does without an
    observer: same state, same gateway call. *)
Theorem observer_outcome_decides_turn
    (g : Gateway) (rt : PyRuntime) (limit : Z) (cb : StatusCallback)
    (n : Node) (s : ReflectionState) (w : World) :
  is_agent n = true ->
  let self := mkSystem limit (Some cb) in
  let started :=
    cb "thinking_started" (agent_label n) (thinking_started_data n s) in
  let answer := chat g (gateway_calls w) (persona_of n) (messages s) in
  let completed response :=
    cb "thinking_completed" (agent_label n)
       (thinking_completed_data n response s) in
  (forall e, started = Raise e ->
     run_node g rt self n s w = (Raise e, w)) /\
  (forall e, started = Ok tt -> answer = Raise e ->
     run_node g rt self n s w = (Raise e, after_call w) /\
     run_node g rt (mkSystem limit None) n s w = (Raise e, after_call w)) /\
  (forall response e,
     started = Ok tt -> answer = Ok response ->
     completed response = Raise e ->
     run_node g rt self n s w = (Raise e, after_call w) /\
     run_node g rt (mkSystem limit None) n s w =
       (Ok (after_turn n response s), after_call w)) /\
  (forall response,
     started = Ok tt -> answer = Ok response ->
     completed response = Ok tt ->
     run_node g rt self n s w = (Ok (after_turn n response s), after_call w) /\
     run_node g rt self n s w = run_node g rt (mkSystem limit None) n s w).
Proof.
  intros Hn self started answer completed.
  assert (Hnone : run_node g rt (mkSystem limit None) n s w =
            match answer with
            | Ok response => (Ok (after_turn n response s), after_call w)
            | Raise e => (Raise e, after_call w)
            end)
    by (apply agent_turn_silent; [exact I | exact Hn]).
  assert (Hself : run_node g rt self n s w =
            match started with
            | Raise e => (Raise e, w)
            | Ok _ =>
                match answer with
                | Raise e => (Raise e, after_call w)
                | Ok response =>
                    match completed response with
                    | Raise e => (Raise e, after_call w)
                    | Ok _ => (Ok (after_turn n response s), after_call w)
                    end
                end
            end)
    by (rewrite (agent_turn_closed g rt self n s w Hn); reflexivity).
  rewrite Hself, Hnone. clear Hself Hnone.
  split; [intros e ->; reflexivity|].
  split; [intros e -> ->; split; reflexivity|].
  split; [intros response e -> -> ->; split; reflexivity|].
  intros response -> -> ->. split; reflexivity.
Qed.

Lemma observer_outcome_decides_turn_witness :
  run_node gw_quiet rt_sample (mkSystem 3 (Some cb_raising))
    engineer_agent sample_state w0 =
    (Raise (ObserverError "observer failed"), w0) /\
  run_node gw_quiet rt_sample (mkSystem 3 (Some cb_late))
    medical_staff_agent sample_state w0 =
    (Raise (ObserverError "observer failed"), after_call w0) /\
  run_node gw_quiet rt_sample (mkSystem 3 (Some cb_silent))
    medical_staff_agent sample_state w0 =
  run_node gw_quiet rt_sample (mkSystem 3 None)
    medical_staff_agent sample_state w0.
Proof.
  split; [|split].
  - apply (observer_outcome_decides_turn gw_quiet rt_sample 3 cb_raising
             engineer_agent sample_state w0 eq_refl).
    reflexivity.
  - apply (proj1 (proj1 (proj2 (proj2
             (observer_outcome_decides_turn gw_quiet rt_sample 3 cb_late
                medical_staff_agent sample_state w0 eq_refl)))
             "noted" (ObserverError "observer failed")
             eq_refl eq_refl eq_refl)).
  - apply (proj2 (proj2 (proj2 (proj2
             (observer_outcome_decides_turn gw_quiet rt_sample 3 cb_silent
                medical_staff_agent sample_state w0 eq_refl)))
             "noted" eq_refl eq_refl eq_refl)).
Defined.

(** ** The evaluator *)

(** C6: on an empty list of needs evaluate_needs returns the fixed empty
    result (no evaluations, the "no need items to evaluate" summary, no
    top priorities) and leaves the world as it found it: the count of
    gateway calls does not move, so a run that starts at zero calls ends at
    zero. *)
Theorem evaluate_needs_empty_short_circuit
    (g : Gateway) (rt : PyRuntime) (w : World) :
  evaluate_needs g rt (PyList []) w =
    (Ok (mkEvaluationOutput [] no_needs_summary []), w) /\
  gateway_calls (snd (evaluate_needs g rt (PyList []) w)) = gateway_calls w /\
  gateway_calls (snd (evaluate_needs g rt (PyList []) w0)) = O.
Proof. repeat split. Qed.

(** Any falsy argument takes the same exit. *)
Lemma evaluate_needs_falsy g rt needs w :
  truthy needs = false ->
  evaluate_needs g rt needs w =
    (Ok (mkEvaluationOutput [] no_needs_summary []), w).
Proof. intros H. unfold evaluate_needs. rewrite H. reflexivity. Qed.

Lemma for_each_models {B} (f : NeedItem -> B) (h : PyVal -> result B) items :
  (forall it, h (PyModel it) = Ok (f it)) ->
  for_each h (map PyModel items) = Ok (map f items).
Proof.
  intros Hh. induction items as [|it items IH]; [reflexivity|].
  simpl. rewrite Hh. simpl. rewrite IH. reflexivity.
Qed.

(** X8: on NeedItem objects the default evaluation is what its docstring
    promises, and it never raises: one evaluation per need, in order, with
    the need's title, 5.0 in all five scores and the three placeholder
    texts; the fixed summary; and the titles of the first three needs. *)
Lemma default_evaluation_on_models (items : list NeedItem) :
  _create_default_evaluation (PyList (map PyModel items)) =
    Ok (mkEvaluationOutput
          (map (fun it => midpoint_evaluation (need it)) items)
          default_summary
          (map need (firstn 3 items))).
Proof.
  unfold _create_default_evaluation.
  cbv beta iota delta [py_iter py_slice_to rbind].
  rewrite (for_each_models (fun it => midpoint_evaluation (need it)))
    by reflexivity.
  rewrite firstn_map.
  rewrite (for_each_models need) by reflexivity.
  reflexivity.
Qed.

(** X9: on a non-empty list of NeedItem objects, the type its signature
    announces, evaluate_needs raises TypeError in
    _format_needs_for_evaluation (which subscripts the need) and makes no
    call to the model. *)
Lemma evaluate_needs_on_models g rt item items w :
  evaluate_needs g rt (PyList (map PyModel (item :: items))) w =
    (Raise (TypeError "'NeedItem' object is not subscriptable"), w).
Proof. reflexivity. Qed.

(** On dumped needs the formatting succeeds. *)
Lemma format_need_dump rt i it :
  exists c, format_need rt (i, NeedItem_model_dump it) = Ok c.
Proof. eexists. reflexivity. Qed.

Lemma format_dumped_needs rt items : forall i,
  exists formatted,
    for_each (format_need rt) (enumerate i (map NeedItem_model_dump items)) =
    Ok formatted.
Proof.
  induction items as [|it items IH]; intros i; [eexists; reflexivity|].
  destruct (IH (i + 1)) as [rest Hrest].
  cbn [map enumerate for_each].
  destruct (format_need_dump rt i it) as [c ->].
  cbn [rbind]. rewrite Hrest. eauto.
Qed.

(** X10: on a non-empty list of dumped needs (dicts), as process_reflection
    passes them, a failure of the schema-constrained call ends in the
    AttributeError of the fallback, after exactly one gateway call. *)
Lemma evaluate_needs_fallback_on_dumps g rt item items w :
  (forall content, exists e,
     evaluation_chain g (gateway_calls w) content = Raise e) ->
  evaluate_needs g rt (PyList (map NeedItem_model_dump (item :: items))) w =
    (Raise (AttributeError "'dict' object has no attribute 'need'"),
     mkWorld (S (gateway_calls w)) (steps w) (sessions w) (clock w)).
Proof.
  intros Hfail. unfold evaluate_needs.
  change (truthy (PyList (map NeedItem_model_dump (item :: items)))) with true.
  cbv [negb]. unfold _format_needs_for_evaluation.
  destruct (format_dumped_needs rt (item :: items) 1) as [formatted Hf].
  cbv [py_iter rbind]. rewrite Hf.
  unfold bind at 1, lift at 1, try_except, call_gateway.
  destruct (Hfail (join newline formatted)) as [e ->].
  reflexivity.
Qed.

(** C5 at the input process_reflection passes: one dumped need and a model
    whose evaluation fails the schema.  evaluate_needs makes its one
    gateway call, enters the fallback, and the fallback raises. *)
Theorem default_evaluation_raises_on_dumped_need :
  evaluate_needs gw_quiet rt_sample
    (PyList [NeedItem_model_dump sample_item]) w0 =
    (Raise (AttributeError "'dict' object has no attribute 'need'"),
     mkWorld 1 [] ∅ 0) /\
  _format_needs_for_evaluation rt_sample
    (PyList [PyModel sample_item]) =
    Raise (TypeError "'NeedItem' object is not subscriptable") /\
  _create_default_evaluation (PyList [PyModel sample_item]) =
    Ok (mkEvaluationOutput [midpoint_evaluation "Bed management"]
          default_summary ["Bed management"]).
Proof. repeat split. Qed.

(** ** The prioritizer *)

Lemma score_lt_spec a b : score_lt a b = true <-> (a < b)%Q.
Proof.
  unfold score_lt. rewrite negb_true_iff.
  destruct (Qle_bool b a) eqn:H.
  - apply Qle_bool_iff in H. split; [discriminate|].
    intros Hlt. exfalso. apply (Qlt_not_le _ _ Hlt H).
  - split; [intros _|reflexivity].
    apply Qnot_le_lt. intros Hle. apply Qle_bool_iff in Hle. congruence.
Qed.

Lemma score_lt_false a b : score_lt a b = false <-> (b <= a)%Q.
Proof.
  unfold score_lt. rewrite negb_false_iff. apply Qle_bool_iff.
Qed.

Lemma insert_by_score_perm x l : Permutation (insert_by_score x l) (x :: l).
Proof.
  induction l as [|y l IH]; simpl; [reflexivity|].
  destruct (score_lt (overall_score x) (overall_score y)); [|reflexivity].
  rewrite IH. apply perm_swap.
Qed.

Lemma sorted_by_score_perm l : Permutation (sorted_by_score_reverse l) l.
Proof.
  induction l as [|x l IH]; simpl; [reflexivity|].
  rewrite insert_by_score_perm. constructor. exact IH.
Qed.

Lemma insert_by_score_sorted x l :
  StronglySorted score_ge l -> StronglySorted score_ge (insert_by_score x l).
Proof.
  induction l as [|y l IH]; intros Hs; simpl.
  - repeat constructor.
  - inversion Hs as [|? ? Hl Hy]; subst.
    destruct (score_lt (overall_score x) (overall_score y)) eqn:Hlt.
    + constructor; [apply IH; exact Hl|].
      apply score_lt_spec in Hlt.
      eapply Permutation_Forall; [symmetry; apply insert_by_score_perm|].
      constructor; [apply Qlt_le_weak; exact Hlt | exact Hy].
    + apply score_lt_false in Hlt.
      constructor; [exact Hs|].
      constructor; [exact Hlt|].
      eapply List.Forall_impl; [|exact Hy].
      intros z Hz. unfold score_ge in *. eapply Qle_trans; eauto.
Qed.

Lemma sorted_by_score_sorted l :
  StronglySorted score_ge (sorted_by_score_reverse l).
Proof.
  induction l as [|x l IH]; simpl; [constructor|].
  apply insert_by_score_sorted. exact IH.
Qed.

Lemma insert_by_score_stable q x l :
  List.filter (score_is q) (insert_by_score x l) =
  List.filter (score_is q) (x :: l).
Proof.
  induction l as [|y l IH]; [reflexivity|].
  cbn [insert_by_score].
  destruct (score_lt (overall_score x) (overall_score y)) eqn:Hlt; [|reflexivity].
  cbn [List.filter] in *. rewrite IH.
  destruct (score_is q x) eqn:Hx; [|reflexivity].
  destruct (score_is q y) eqn:Hy; [|reflexivity].
  exfalso. unfold score_is in *.
  apply Qeq_bool_iff in Hx. apply Qeq_bool_iff in Hy.
  apply score_lt_spec in Hlt. rewrite Hx, Hy in Hlt.
  apply (Qlt_irrefl _ Hlt).
Qed.

Lemma sorted_by_score_stable q l :
  List.filter (score_is q) (sorted_by_score_reverse l) =
  List.filter (score_is q) l.
Proof.
  induction l as [|x l IH]; [reflexivity|].
  cbn [sorted_by_score_reverse fold_right].
  rewrite insert_by_score_stable. cbn [List.filter].
  fold (sorted_by_score_reverse l). rewrite IH. reflexivity.
Qed.

Lemma enumerate_ranks {A} (l : list A) : forall i,
  map fst (enumerate i l) = map (fun k => i + Z.of_nat k) (seq 0 (length l)).
Proof.
  induction l as [|x l IH]; intros i; [reflexivity|].
  cbn [enumerate map length seq fst]. f_equal; [lia|].
  rewrite IH, <- seq_shift, map_map.
  apply map_ext. intros k. lia.
Qed.

Lemma enumerate_items {A} (l : list A) : forall i,
  map snd (enumerate i l) = l.
Proof.
  induction l as [|x l IH]; intros i; [reflexivity|].
  cbn [enumerate map snd]. rewrite IH. reflexivity.
Qed.

(** C2: create_prioritization orders the evaluations by overall score,
    greatest first, as a stable sort does (the result is a permutation of
    the input, no score comes before a greater one, and the evaluations
    sharing a score keep the order they had in the input); it numbers them
    1..N in that order, carrying title and score; it gives rank <= 2 the
    level High, rank <= 4 Medium and the rest Low, so that five needs get
    High, High, Medium, Medium, Low; when there is a need at all the first
    recommendation names the title and the score of the one ranked first,
    and the two fixed advisory sentences are always there. *)
Theorem prioritization_ranks_by_score
    (rt : PyRuntime) (e : NeedsEvaluationOutput) :
  Permutation (sorted_by_score_reverse (evaluations e)) (evaluations e) /\
  StronglySorted score_ge (sorted_by_score_reverse (evaluations e)) /\
  (forall q, List.filter (score_is q) (sorted_by_score_reverse (evaluations e)) =
             List.filter (score_is q) (evaluations e)) /\
  map pn_need_title (prioritized_needs (create_prioritization rt e)) =
    map need_title (sorted_by_score_reverse (evaluations e)) /\
  map pn_overall_score (prioritized_needs (create_prioritization rt e)) =
    map overall_score (sorted_by_score_reverse (evaluations e)) /\
  map rank (prioritized_needs (create_prioritization rt e)) =
    map Z.of_nat (seq 1 (length (evaluations e))) /\
  Forall (fun pn => priority_level pn =
            if (rank pn <=? 2)%Z then "High"
            else if (rank pn <=? 4)%Z then "Medium" else "Low")
    (prioritized_needs (create_prioritization rt e)) /\
  (length (evaluations e) = 5%nat ->
   map priority_level (prioritized_needs (create_prioritization rt e)) =
     ["High"; "High"; "Medium"; "Medium"; "Low"]) /\
  (forall top rest,
     sorted_by_score_reverse (evaluations e) = top :: rest ->
     head (prio_recommendations (create_prioritization rt e)) =
       Some ("Prioritize '" ++ need_title top
             ++ "' as it has the highest overall score of "
             ++ float_str rt (overall_score top))) /\
  In resource_advice (prio_recommendations (create_prioritization rt e)) /\
  In reassess_advice (prio_recommendations (create_prioritization rt e)).
Proof.
  assert (Hlen : length (sorted_by_score_reverse (evaluations e)) =
                 length (evaluations e))
    by (apply Permutation_length, sorted_by_score_perm).
  split; [apply sorted_by_score_perm|].
  split; [apply sorted_by_score_sorted|].
  split; [intros q; apply sorted_by_score_stable|].
  unfold create_prioritization. cbn [prioritized_needs prio_recommendations].
  split.
  { rewrite map_map.
    rewrite <- (enumerate_items (sorted_by_score_reverse (evaluations e)) 1) at 2.
    rewrite map_map. reflexivity. }
  split.
  { rewrite map_map.
    rewrite <- (enumerate_items (sorted_by_score_reverse (evaluations e)) 1) at 2.
    rewrite map_map. reflexivity. }
  split.
  { rewrite map_map.
    change (fun x => rank (prioritized_need x)) with (@fst Z NeedEvaluation).
    rewrite enumerate_ranks, Hlen, <- seq_shift, map_map.
    apply map_ext. intros k. lia. }
  split.
  { apply List.Forall_map. apply List.Forall_forall. intros ie _. reflexivity. }
  split.
  { intros H5. rewrite <- Hlen in H5.
    destruct (sorted_by_score_reverse (evaluations e))
      as [|e1 [|e2 [|e3 [|e4 [|e5 [|e6 l]]]]]]; try discriminate.
    reflexivity. }
  split.
  { intros top rest ->. reflexivity. }
  split; apply in_or_app; right; apply in_or_app; right; simpl; auto.
Qed.

Lemma score_lt_compat a a' b b' :
  (a == a')%Q -> (b == b')%Q -> score_lt a b = score_lt a' b'.
Proof.
  intros Ha Hb. apply Bool.eq_true_iff_eq.
  rewrite !score_lt_spec, Ha, Hb. reflexivity.
Qed.

Lemma insert_by_score_compat x x' l l' :
  same_evaluation x x' -> Forall2 same_evaluation l l' ->
  Forall2 same_evaluation (insert_by_score x l) (insert_by_score x' l').
Proof.
  intros Hx Hl. induction Hl as [|y y' l l' Hy Hl IH]; simpl.
  - constructor; [exact Hx | constructor].
  - rewrite (score_lt_compat _ (overall_score x') _ (overall_score y'))
      by (apply Hx || apply Hy).
    destruct (score_lt (overall_score x') (overall_score y')).
    + constructor; [exact Hy | exact IH].
    + constructor; [exact Hx | constructor; [exact Hy | exact Hl]].
Qed.

Lemma sorted_by_score_compat l l' :
  Forall2 same_evaluation l l' ->
  Forall2 same_evaluation (sorted_by_score_reverse l) (sorted_by_score_reverse l').
Proof.
  induction 1 as [|x x' l l' Hx Hl IH]; simpl; [constructor|].
  apply insert_by_score_compat; assumption.
Qed.

Lemma prioritized_compat l l' :
  Forall2 same_evaluation l l' -> forall i,
  map rank (map prioritized_need (enumerate i l)) =
    map rank (map prioritized_need (enumerate i l')) /\
  map pn_need_title (map prioritized_need (enumerate i l)) =
    map pn_need_title (map prioritized_need (enumerate i l')) /\
  map priority_level (map prioritized_need (enumerate i l)) =
    map priority_level (map prioritized_need (enumerate i l')) /\
  Forall2 Qeq (map pn_overall_score (map prioritized_need (enumerate i l)))
              (map pn_overall_score (map prioritized_need (enumerate i l'))).
Proof.
  induction 1 as [|x x' l l' [Ht Hs] Hl IH]; intros i.
  - repeat split; constructor.
  - destruct (IH (i + 1)) as (H1 & H2 & H3 & H4).
    cbn [enumerate map prioritized_need rank pn_need_title priority_level
         pn_overall_score fst snd] in *.
    rewrite H1, H2, H3, Ht. repeat split. constructor; assumption.
Qed.

(** C9: create_prioritization is a function of the evaluation result
    alone (its embedding takes no Gateway and no World: there is no model
    call to make).  Two inputs with the same titles and the same overall
    scores as numbers, in the same order, get the same ranks, the same
    titles in rank order, the same priority levels and the same scores;
    the same input gets the same output, recommendations included. *)
Theorem prioritization_is_deterministic
    (rt : PyRuntime) (e1 e2 : NeedsEvaluationOutput) :
  Forall2 same_evaluation (evaluations e1) (evaluations e2) ->
  map rank (prioritized_needs (create_prioritization rt e1)) =
    map rank (prioritized_needs (create_prioritization rt e2)) /\
  map pn_need_title (prioritized_needs (create_prioritization rt e1)) =
    map pn_need_title (prioritized_needs (create_prioritization rt e2)) /\
  map priority_level (prioritized_needs (create_prioritization rt e1)) =
    map priority_level (prioritized_needs (create_prioritization rt e2)) /\
  Forall2 Qeq
    (map pn_overall_score (prioritized_needs (create_prioritization rt e1)))
    (map pn_overall_score (prioritized_needs (create_prioritization rt e2))) /\
  (evaluations e1 = evaluations e2 ->
   create_prioritization rt e1 = create_prioritization rt e2).
Proof.
  intros Hsame.
  destruct (prioritized_compat _ _ (sorted_by_score_compat _ _ Hsame) 1)
    as (H1 & H2 & H3 & H4).
  unfold create_prioritization. cbn [prioritized_needs].
  repeat split; auto.
  intros ->. reflexivity.
Qed.

Lemma prioritization_is_deterministic_witness :
  Forall2 same_evaluation evaluations_close evaluations_close' /\
  map pn_need_title
    (prioritized_needs (create_prioritization rt_sample
       (mkEvaluationOutput evaluations_close "" []))) =
  map pn_need_title
    (prioritized_needs (create_prioritization rt_sample
       (mkEvaluationOutput evaluations_close' "summary" ["A"]))).
Proof.
  assert (H : Forall2 same_evaluation evaluations_close evaluations_close').
  { constructor; [split; reflexivity|].
    constructor; [split; reflexivity|]. constructor. }
  split; [exact H|].
  apply (prioritization_is_deterministic rt_sample
           (mkEvaluationOutput evaluations_close "" [])
           (mkEvaluationOutput evaluations_close' "summary" ["A"]) H).
Defined.

(** ** The registry during a run *)

Lemma keeps_ret {A} (a : A) : keeps_registry (ret a).
Proof. intros w. split; reflexivity. Qed.

Lemma keeps_lift {A} (r : result A) : keeps_registry (lift r).
Proof. intros w. split; reflexivity. Qed.

Lemma keeps_raise {A} (e : exn) : keeps_registry (@raise A e).
Proof. intros w. split; reflexivity. Qed.

Lemma keeps_call_gateway {A} (oracle : nat -> result A) :
  keeps_registry (call_gateway oracle).
Proof. intros w. split; reflexivity. Qed.

Lemma keeps_log_step n : keeps_registry (log_step n).
Proof. intros w. split; reflexivity. Qed.

Lemma keeps_bind {A B} (m : M A) (k : A -> M B) :
  keeps_registry m -> (forall a, keeps_registry (k a)) ->
  keeps_registry (bind m k).
Proof.
  intros Hm Hk w. unfold bind. specialize (Hm w).
  destruct (m w) as [[a|e] w1]; simpl in Hm; [|exact Hm].
  destruct (Hk a w1) as [H1 H2]. destruct Hm as [H3 H4].
  split; congruence.
Qed.

Lemma keeps_try_except {A} (body : M A) (handler : exn -> M A) :
  keeps_registry body -> (forall e, keeps_registry (handler e)) ->
  keeps_registry (try_except body handler).
Proof.
  intros Hm Hk w. unfold try_except. specialize (Hm w).
  destruct (body w) as [[a|e] w1]; simpl in Hm; [exact Hm|].
  destruct (Hk e w1) as [H1 H2]. destruct Hm as [H3 H4].
  split; congruence.
Qed.

Lemma keeps_invoke {A} (variables : list string) (model : M A) :
  keeps_registry model ->
  keeps_registry (invoke_without_input variables model).
Proof.
  intros H. destruct variables; [exact H | apply keeps_raise].
Qed.

Lemma keeps_emit_status self ev agent data :
  keeps_registry (_emit_status self ev agent data).
Proof.
  unfold _emit_status. destruct (status_callback self);
    [apply keeps_lift | apply keeps_ret].
Qed.

Ltac keeps :=
  repeat first
    [ apply keeps_ret | apply keeps_lift | apply keeps_raise
    | apply keeps_call_gateway | apply keeps_log_step
    | apply keeps_emit_status
    | apply keeps_invoke
    | apply keeps_bind; [|intros ?]
    | apply keeps_try_except; [|intros ?] ].

Lemma keeps_router g s : keeps_registry (_should_continue_discussion g s).
Proof.
  unfold _should_continue_discussion.
  destruct (discussion_round s >=? max_rounds s)%Z; [keeps|].
  destruct (last (messages s)) as [[c|c]|]; keeps.
  destruct (contains "medical" _); [keeps|].
  destruct (contains "engineering" _); keeps.
Qed.

Lemma keeps_graph_step g rt self c : keeps_registry (graph_step g rt self c).
Proof.
  unfold graph_step. keeps.
  - destruct (fst c); simpl;
      unfold medical_staff_node, engineer_node, collector_node,
             collector_parsed_output; keeps.
  - destruct (fst c); simpl; try apply keeps_ret;
      (apply keeps_bind;
       [apply keeps_router | intros label; destruct (path_map label); keeps]).
Qed.

Lemma keeps_graph_run g rt self : forall fuel n s,
  keeps_registry (graph_run fuel g rt self n s).
Proof.
  induction fuel as [|fuel IH]; intros n s.
  - destruct n; simpl; keeps.
  - destruct n; simpl; try apply keeps_ret;
      (apply keeps_bind; [apply keeps_graph_step | intros c; apply IH]).
Qed.

(* ===================================================================== *)
(** * Further properties of the discussion graph *)
(* ===================================================================== *)

Lemma path_map_agent label :
  label = "medical" \/ label = "engineer_agent" ->
  exists n', path_map label = Some n' /\ is_agent n' = true.
Proof. intros [-> | ->]; eexists; split; reflexivity. Qed.

(** A step from an agent node that returns: the exact state, and the
    calls it has made: the turn's own and, below the budget, at most one
    to the classifier, exactly one when the answer holds no field. *)
Lemma graph_step_agent_returns g rt self n s w n' s' w' :
  is_agent n = true ->
  graph_step g rt self (n, s) w = (Ok (n', s'), w') ->
  exists response,
    chat g (gateway_calls w) (persona_of n) (messages s) = Ok response /\
    s' = after_turn n response s /\
    steps w' = (steps w ++ [n])%list /\
    sessions w' = sessions w /\ clock w' = clock w /\
    (max_rounds s <= discussion_round s + 1 ->
       n' = collector /\ gateway_calls w' = S (gateway_calls w)) /\
    (discussion_round s + 1 < max_rounds s ->
       is_agent n' = true /\
       (gateway_calls w' = S (gateway_calls w) \/
        gateway_calls w' = S (S (gateway_calls w))) /\
       (template_variables g (judge_human_text response) = Ok [] ->
        gateway_calls w' = S (S (gateway_calls w))) /\
       exists label,
         path_map label = Some n' /\
         fst (_should_continue_discussion g (after_turn n response s)
                (after_call (mkWorld (gateway_calls w) (steps w ++ [n])%list
                               (sessions w) (clock w)))) = Ok label).
Proof.
  intros Hn Hstep. unfold graph_step in Hstep. simpl fst in Hstep; simpl snd in Hstep.
  erewrite bind_ok in Hstep by apply log_step_eq.
  set (w1 := mkWorld _ _ _ _) in *.
  destruct (run_node g rt self n s w1) as [[s1|e] w2] eqn:Hrun.
  2:{ erewrite bind_raise in Hstep by exact Hrun. discriminate. }
  erewrite bind_ok in Hstep by exact Hrun. cbv beta in Hstep.
  destruct (agent_turn_returns _ _ _ _ _ _ _ _ Hn Hrun) as (resp & Hchat & -> & ->).
  rewrite (next_node_agent g n _ Hn) in Hstep.
  destruct (after_turn_fields n resp s) as (Hr & Hm & Hms & _).
  exists resp. split; [exact Hchat|].
  destruct (Z_le_gt_dec (max_rounds s) (discussion_round s + 1)) as [Hle|Hgt].
  - erewrite bind_ok in Hstep
      by (erewrite bind_ok by (apply router_hard_stop; lia); reflexivity).
    unfold ret in Hstep. inversion Hstep; subst n' s' w'.
    split; [reflexivity|]. split; [reflexivity|]. split; [reflexivity|].
    split; [reflexivity|]. split; [auto|lia].
  - assert (Hlt : discussion_round (after_turn n resp s) <
                  max_rounds (after_turn n resp s)) by lia.
    assert (Hlast : last (messages (after_turn n resp s)) =
                    Some (AIMessage resp)) by (rewrite Hms; apply last_snoc).
    pose proof (router_below_budget g _ (after_call w1) resp Hlt Hlast) as Hrt.
    destruct (_should_continue_discussion g (after_turn n resp s)
                (after_call w1)) as [[label|e] w2] eqn:Hrouter.
    2:{ erewrite bind_raise in Hstep
          by (erewrite bind_raise by exact Hrouter; reflexivity).
        discriminate. }
    assert (Hlabel : label = "medical" \/ label = "engineer_agent").
    { destruct (router_cases g (after_turn n resp s) (after_call w1))
        as [(_ & e & He) | (l & w3 & Hl & _ & _ & Hgo)];
        rewrite Hrouter in *; [discriminate|].
      inversion Hl; subst. apply Hgo. exact Hlt. }
    destruct (path_map_agent label Hlabel) as (n1 & Hp & Hag).
    erewrite bind_ok in Hstep
      by (erewrite bind_ok by exact Hrouter; cbv beta; rewrite Hp; reflexivity).
    unfold ret in Hstep. inversion Hstep; subst n1 s' w'.
    assert (Hw2 : (w2 = after_call w1 \/ w2 = after_call (after_call w1)) /\
                  (template_variables g (judge_human_text resp) = Ok [] ->
                   w2 = after_call (after_call w1))).
    { destruct (template_variables g (judge_human_text resp))
        as [[|x vars]|e]; inversion Hrt; subst.
      - split; [auto|]. auto.
      - split; [auto|]. discriminate. }
    destruct Hw2 as [Hw2 Hexact].
    split; [reflexivity|].
    split; [destruct Hw2 as [-> | ->]; reflexivity|].
    split; [destruct Hw2 as [-> | ->]; reflexivity|].
    split; [destruct Hw2 as [-> | ->]; reflexivity|].
    split; [lia|]. intros _.
    split; [exact Hag|].
    split; [destruct Hw2 as [-> | ->]; simpl; auto|].
    split; [intros Hv; rewrite (Hexact Hv); reflexivity|].
    exists label. split; [exact Hp|reflexivity].
Qed.

(** A step from the collector that returns: the exact state, and at most
    one call, exactly one when the texts of the state hold no field. *)
Lemma graph_step_collector_returns g rt self s w n' s' w' :
  graph_step g rt self (collector, s) w = (Ok (n', s'), w') ->
  exists variables v,
    template_variables g (collector_human_text s) = Ok variables /\
    n' = END /\ s' = collected rt v s /\
    steps w' = (steps w ++ [collector])%list /\
    sessions w' = sessions w /\ clock w' = clock w /\
    (gateway_calls w' = gateway_calls w \/
     gateway_calls w' = S (gateway_calls w)) /\
    (unfilled variables = [] -> gateway_calls w' = S (gateway_calls w)).
Proof.
  intros Hstep. unfold graph_step in Hstep.
  simpl fst in Hstep; simpl snd in Hstep.
  erewrite bind_ok in Hstep by apply log_step_eq.
  set (w1 := mkWorld _ _ _ _) in *. simpl run_node in Hstep.
  destruct (collector_cases g rt s w1)
    as [(e & _ & Hrun) | (variables & v & w2 & Hvars & Hout & Hrun & Hw2)].
  { erewrite bind_raise in Hstep by exact Hrun. discriminate. }
  erewrite bind_ok in Hstep by exact Hrun. cbv beta in Hstep.
  simpl next_node in Hstep. unfold bind, ret in Hstep.
  inversion Hstep; subst n' s' w'.
  exists variables, v. split; [exact Hvars|].
  split; [reflexivity|]. split; [reflexivity|].
  split; [destruct Hw2 as [-> | ->]; reflexivity|].
  split; [destruct Hw2 as [-> | ->]; reflexivity|].
  split; [destruct Hw2 as [-> | ->]; reflexivity|].
  split; [destruct Hw2 as [-> | ->]; simpl; auto|].
  intros Hnone. rewrite Hnone, collector_parsed_output_cases in Hout.
  destruct (needs_chain g (gateway_calls w1) _ _ _);
    inversion Hout; reflexivity.
Qed.

Lemma graph_run_agent_unfold fuel g rt self n s :
  is_agent n = true ->
  graph_run (S fuel) g rt self n s =
  bind (graph_step g rt self (n, s))
       (fun c => graph_run fuel g rt self (fst c) (snd c)).
Proof. intros Hn. destruct n; try discriminate; reflexivity. Qed.

Lemma graph_run_collector_unfold fuel g rt self s :
  graph_run (S fuel) g rt self collector s =
  bind (graph_step g rt self (collector, s))
       (fun c => graph_run fuel g rt self (fst c) (snd c)).
Proof. reflexivity. Qed.

Lemma graph_run_end fuel g rt self s :
  graph_run fuel g rt self END s = ret (Some s).
Proof. destruct fuel; reflexivity. Qed.

Lemma insights_after_turn n response s :
  Permutation
    (medical_insights (after_turn n response s) ++
     engineering_insights (after_turn n response s))
    (medical_insights s ++ engineering_insights s ++ [response]).
Proof.
  destruct n; simpl; rewrite <- ?app_assoc; try reflexivity.
  - apply Permutation_app_head, Permutation_app_comm.
  - apply Permutation_app_head, Permutation_app_comm.
  - apply Permutation_app_head, Permutation_app_comm.
Qed.

(** The answer of a model that answers plainly holds no brace. *)
Lemma plain_answer g i persona transcript response :
  chat_answers_plainly g ->
  chat g i persona transcript = Ok response ->
  brace_free response = true.
Proof.
  intros Hchat Hresp.
  destruct (Hchat i persona transcript) as (r & Hr & Hfree).
  congruence.
Qed.

(** What a run that reaches END from an agent node has done, whatever the
    fuel it was given. *)
Lemma graph_run_completed g rt self : forall fuel n s w s' w',
  is_agent n = true ->
  discussion_round s < max_rounds s ->
  graph_run fuel g rt self n s w = (Ok (Some s'), w') ->
  exists (turns : list string) (nodes : list Node) (v : PyVal),
    length turns = Z.to_nat (max_rounds s - discussion_round s) /\
    length nodes = length turns /\
    Forall (fun n => is_agent n = true) nodes /\
    head nodes = Some n /\
    steps w' = (steps w ++ nodes ++ [collector])%list /\
    messages s' =
      (messages s ++ map AIMessage turns ++ [AIMessage (py_str rt v)])%list /\
    final_summary s' = py_str rt v /\
    Permutation (medical_insights s' ++ engineering_insights s')
      (medical_insights s ++ engineering_insights s ++ turns) /\
    discussion_round s' = max_rounds s /\
    max_rounds s' = max_rounds s /\
    (gateway_calls w + Z.to_nat (max_rounds s - discussion_round s)
       <= gateway_calls w')%nat /\
    (gateway_calls w'
       <= gateway_calls w + 2 * Z.to_nat (max_rounds s - discussion_round s))%nat /\
    (plain_templates g -> chat_answers_plainly g -> brace_free_state s ->
     gateway_calls w' =
       (gateway_calls w + 2 * Z.to_nat (max_rounds s - discussion_round s))%nat) /\
    sessions w' = sessions w /\ clock w' = clock w.
Proof.
  induction fuel as [|fuel IH]; intros n s w s' w' Hn Hlt Hrun.
  { destruct n; discriminate. }
  rewrite graph_run_agent_unfold in Hrun by exact Hn.
  destruct (graph_step g rt self (n, s) w) as [[[n1 s1]|e] w1] eqn:Hstep.
  2:{ erewrite bind_raise in Hrun by exact Hstep. discriminate. }
  erewrite bind_ok in Hrun by exact Hstep. simpl fst in Hrun; simpl snd in Hrun.
  destruct (graph_step_agent_returns _ _ _ _ _ _ _ _ _ Hn Hstep)
    as (resp & Hchat & -> & Hst & Hse & Hcl & Hstop & Hgo).
  destruct (after_turn_fields n resp s) as (Hr & Hm & Hms & Hfs & _).
  destruct (Z_le_gt_dec (max_rounds s) (discussion_round s + 1)) as [Hle|Hgt].
  - destruct (Hstop Hle) as [-> Hcalls].
    destruct fuel as [|fuel]; [discriminate|].
    rewrite graph_run_collector_unfold in Hrun.
    destruct (graph_step g rt self (collector, after_turn n resp s) w1)
      as [[[n2 s2]|e] w2] eqn:Hc.
    2:{ erewrite bind_raise in Hrun by exact Hc. discriminate. }
    erewrite bind_ok in Hrun by exact Hc.
    simpl fst in Hrun; simpl snd in Hrun.
    destruct (graph_step_collector_returns _ _ _ _ _ _ _ _ Hc)
      as (variables & v & Hvars & -> & -> & Hst2 & Hse2 & Hcl2 & Hcalls2 & Hexact).
    rewrite graph_run_end in Hrun. unfold ret in Hrun.
    inversion Hrun; subst s' w'.
    exists [resp], [n], v. unfold collected.
    cbn [length messages final_summary
      medical_insights engineering_insights discussion_round max_rounds
      map head].
    replace (Z.to_nat (max_rounds s - discussion_round s)) with 1%nat by lia.
    split; [reflexivity|]. split; [reflexivity|].
    split; [repeat constructor; exact Hn|]. split; [reflexivity|].
    split; [rewrite Hst2, Hst, <- app_assoc; reflexivity|].
    split; [rewrite Hms, <- app_assoc; reflexivity|].
    split; [reflexivity|].
    split; [apply insights_after_turn|].
    split; [lia|]. split; [exact Hm|].
    split; [lia|]. split; [lia|].
    split.
    { intros Hplain Hplainly Hstate.
      assert (Hfree : brace_free resp = true)
        by (eapply plain_answer; eassumption).
      pose proof (Hplain _ (collector_text_plain _
                    (after_turn_plain n resp s Hfree Hstate))) as Hnone.
      rewrite Hvars in Hnone. inversion Hnone; subst variables.
      rewrite (Hexact eq_refl). lia. }
    split; congruence.
  - assert (Hlt1 : discussion_round s + 1 < max_rounds s) by lia.
    destruct (Hgo Hlt1) as (Hag & Hcalls & Hexact & _).
    assert (Hlt' : discussion_round (after_turn n resp s) <
                   max_rounds (after_turn n resp s)) by lia.
    destruct (IH n1 (after_turn n resp s) w1 s' w' Hag Hlt' Hrun)
      as (turns & nodes & v & Hlen & Hnl & Hall & Hhd & Hsteps & Hmsgs & Hfin
          & Hperm & Hround & Hmax & Hlow & Hhigh & Hplainrun & Hses & Hclk).
    exists (resp :: turns), (n :: nodes), v.
    rewrite Hr, Hm in *.
    cbn [length head map].
    split; [rewrite Hlen; lia|]. split; [congruence|].
    split; [constructor; assumption|]. split; [reflexivity|].
    split; [rewrite Hsteps, Hst, <- app_assoc; reflexivity|].
    split; [rewrite Hmsgs, Hms, <- app_assoc; reflexivity|].
    split; [exact Hfin|].
    split.
    { rewrite Hperm, app_assoc, (insights_after_turn n resp s).
      rewrite <- !app_assoc. reflexivity. }
    split; [exact Hround|]. split; [exact Hmax|].
    split; [lia|]. split; [lia|].
    split.
    { intros Hplain Hplainly Hstate.
      assert (Hfree : brace_free resp = true)
        by (eapply plain_answer; eassumption).
      rewrite (Hplainrun Hplain Hplainly
                 (after_turn_plain n resp s Hfree Hstate)).
      rewrite (Hexact (Hplain _ (judge_text_plain resp Hfree))). lia. }
    split; congruence.
Qed.

(** X1: a run that completes on a budget of max_rounds >= 1 has run
    max_rounds agent nodes, the medical expert first, then the collector,
    and has left the session registry and the clock as they were.  It has
    made between max_rounds and 2 * max_rounds gateway calls: one per
    turn, at most one classification after every turn but the last, at
    most one extraction.  When no text of the run holds a brace it has
    made exactly 2 * max_rounds. *)
Theorem completed_run_cost
    (fuel : nat) (g : Gateway) (rt : PyRuntime) (self : MedicalReflectionSystem)
    (user_query : string) (limit : Z) (w : World)
    (s' : ReflectionState) (w' : World) :
  1 <= limit ->
  graph_invoke fuel g rt self (initial_state user_query limit) w =
    (Ok (Some s'), w') ->
  (gateway_calls w + Z.to_nat limit <= gateway_calls w')%nat /\
  (gateway_calls w' <= gateway_calls w + 2 * Z.to_nat limit)%nat /\
  (plain_templates g -> chat_answers_plainly g ->
   brace_free user_query = true ->
   gateway_calls w' = (gateway_calls w + 2 * Z.to_nat limit)%nat) /\
  (exists nodes,
     steps w' = (steps w ++ nodes ++ [collector])%list /\
     length nodes = Z.to_nat limit /\
     Forall (fun n => is_agent n = true) nodes /\
     head nodes = Some medical_staff_agent) /\
  sessions w' = sessions w /\ clock w' = clock w.
Proof.
  intros Hlimit Hrun.
  assert (Hlt : discussion_round (initial_state user_query limit) <
                max_rounds (initial_state user_query limit)) by (simpl; lia).
  destruct (graph_run_completed g rt self fuel medical_staff_agent
              (initial_state user_query limit) w s' w' eq_refl Hlt Hrun)
    as (turns & nodes & v & Hlen & Hnl & Hall & Hhd & Hsteps & _ & _ & _ & _
        & _ & Hlow & Hhigh & Hplainrun & Hses & Hclk).
  simpl in Hlen, Hlow, Hhigh, Hplainrun.
  rewrite Z.sub_0_r in Hlen, Hlow, Hhigh, Hplainrun.
  split; [exact Hlow|]. split; [exact Hhigh|].
  split.
  { intros Hplain Hplainly Hquery. apply Hplainrun; auto.
    apply initial_state_plain. exact Hquery. }
  split; [|split; assumption].
  exists nodes. repeat split; auto. congruence.
Qed.

Lemma completed_run_cost_witness :
  exists s' w',
    graph_invoke 3 gw_quiet rt_unparsable (mkSystem 2 None)
      (initial_state "q" 2) w0 = (Ok (Some s'), w') /\
    gateway_calls w' = 4%nat.
Proof.
  assert (Hrun : exists s' w',
            graph_invoke 3 gw_quiet rt_unparsable (mkSystem 2 None)
              (initial_state "q" 2) w0 = (Ok (Some s'), w'))
    by (eexists _, _; vm_compute; reflexivity).
  destruct Hrun as (s' & w' & Hrun). exists s', w'. split; [exact Hrun|].
  assert (Hlimit : 1 <= 2) by lia.
  destruct (completed_run_cost 3 gw_quiet rt_unparsable (mkSystem 2 None)
              "q" 2 w0 s' w' Hlimit Hrun) as (_ & _ & H & _).
  exact (H format_fields_plain
           (fun _ _ _ => ex_intro _ "noted" (conj eq_refl eq_refl))
           eq_refl).
Defined.

Lemma completed_run_transcript_aux
    (fuel : nat) (g : Gateway) (rt : PyRuntime) (self : MedicalReflectionSystem)
    (user_query : string) (limit : Z) (w : World)
    (s' : ReflectionState) (w' : World) :
  1 <= limit ->
  graph_invoke fuel g rt self (initial_state user_query limit) w =
    (Ok (Some s'), w') ->
  exists turns : list string,
    messages s' =
      (HumanMessage user_query :: map AIMessage turns
       ++ [AIMessage (final_summary s')])%list /\
    length turns = Z.to_nat limit /\
    Permutation (medical_insights s' ++ engineering_insights s') turns /\
    discussion_round s' = limit /\
    max_rounds s' = limit.
Proof.
  intros Hlimit Hrun.
  assert (Hlt : discussion_round (initial_state user_query limit) <
                max_rounds (initial_state user_query limit)) by (simpl; lia).
  destruct (graph_run_completed g rt self fuel medical_staff_agent
              (initial_state user_query limit) w s' w' eq_refl Hlt Hrun)
    as (turns & nodes & v & Hlen & _ & _ & _ & _ & Hmsgs & Hfin & Hperm
        & Hround & Hmax & _).
  simpl in *. rewrite Z.sub_0_r in Hlen.
  exists turns. rewrite Hfin. repeat split; auto.
Qed.

(** X2: the state a completed run ends in, on a budget of max_rounds >= 1:
    the messages are the user's query, then the max_rounds answers of the
    agents in the order they were given, then the collector's message,
    whose content is final_summary; the two insight logs together hold
    exactly those answers, each once; the round counter equals
    max_rounds. *)
Theorem completed_run_transcript
    (fuel : nat) (g : Gateway) (rt : PyRuntime) (self : MedicalReflectionSystem)
    (user_query : string) (limit : Z) (w : World)
    (s' : ReflectionState) (w' : World) :
  1 <= limit ->
  graph_invoke fuel g rt self (initial_state user_query limit) w =
    (Ok (Some s'), w') ->
  exists turns : list string,
    messages s' =
      (HumanMessage user_query :: map AIMessage turns
       ++ [AIMessage (final_summary s')])%list /\
    length turns = Z.to_nat limit /\
    Permutation (medical_insights s' ++ engineering_insights s') turns /\
    discussion_round s' = limit /\
    max_rounds s' = limit.
Proof.
  exact (completed_run_transcript_aux fuel g rt self user_query limit w s' w').
Qed.

Lemma completed_run_transcript_witness :
  exists s' turns,
    messages s' =
      (HumanMessage "q" :: map AIMessage turns
       ++ [AIMessage (final_summary s')])%list /\
    length turns = 2%nat /\ discussion_round s' = 2.
Proof.
  assert (Hrun : exists s' w',
            graph_invoke 3 gw_quiet rt_unparsable (mkSystem 2 None)
              (initial_state "q" 2) w0 = (Ok (Some s'), w'))
    by (eexists _, _; vm_compute; reflexivity).
  destruct Hrun as (s' & w' & Hrun).
  destruct (completed_run_transcript 3 gw_quiet rt_unparsable (mkSystem 2 None)
              "q" 2 w0 s' w' ltac:(lia) Hrun)
    as (turns & H1 & H2 & _ & H3 & _).
  exists s', turns. split; [exact H1|]. split; [exact H2 | exact H3].
Defined.

(** ** The observer over a whole run *)

Lemma run_node_silent g rt self1 self2 n s w :
  silent self1 -> silent self2 ->
  run_node g rt self1 n s w = run_node g rt self2 n s w.
Proof.
  intros H1 H2. destruct (is_agent n) eqn:Hn.
  - rewrite !agent_turn_silent by assumption. reflexivity.
  - destruct n; try discriminate; reflexivity.
Qed.

Lemma graph_run_silent g rt self1 self2 :
  silent self1 -> silent self2 ->
  forall fuel n s w,
    graph_run fuel g rt self1 n s w = graph_run fuel g rt self2 n s w.
Proof.
  intros H1 H2. induction fuel as [|fuel IH]; intros n s w.
  - destruct n; reflexivity.
  - assert (Hstep : graph_step g rt self1 (n, s) w = graph_step g rt self2 (n, s) w).
    { unfold graph_step. unfold bind at 1 3. rewrite log_step_eq.
      unfold bind at 1 3. simpl fst; simpl snd.
      rewrite (run_node_silent g rt self1 self2) by assumption. reflexivity. }
    destruct n; try reflexivity; simpl; unfold bind; rewrite Hstep;
      destruct (graph_step g rt self2 _ w) as [[c|e] w1]; try reflexivity;
      apply IH.
Qed.

(** X4: an observer that returns on every event is purely additive over a
    whole run: with it, graph.invoke gives the same result, the same
    gateway calls and the same node log as with no observer at all,
    whatever the budget stored in the system. *)
Theorem silent_observer_same_run
    (fuel : nat) (g : Gateway) (rt : PyRuntime) (limit limit' : Z)
    (cb : StatusCallback) (state : ReflectionState) (w : World) :
  (forall ev agent data, cb ev agent data = Ok tt) ->
  graph_invoke fuel g rt (mkSystem limit (Some cb)) state w =
  graph_invoke fuel g rt (mkSystem limit' None) state w.
Proof.
  intros Hcb. unfold graph_invoke. apply graph_run_silent.
  - exact Hcb.
  - exact I.
Qed.

Lemma silent_observer_same_run_witness :
  graph_invoke 4 gw_quiet rt_sample (mkSystem 3 (Some cb_silent))
    (initial_state "q" 3) w0 =
  graph_invoke 4 gw_quiet rt_sample (mkSystem 3 None) (initial_state "q" 3) w0.
Proof.
  exact (silent_observer_same_run 4 gw_quiet rt_sample 3 3 cb_silent
           (initial_state "q" 3) w0 (fun _ _ _ => eq_refl)).
Defined.

(** ** Hand-offs when the classifier is of no use *)

Lemma path_map_alternate r : path_map (alternate r) = Some (fallback_node r).
Proof.
  unfold alternate, fallback_node. rewrite Zmod_even.
  destruct (Z.even r); reflexivity.
Qed.

(** After a turn, below the budget, a router that returns with a
    classifier of no use has chosen by the round counter. *)
Lemma router_after_turn_unusable g n response s w label w' :
  discussion_round s + 1 < max_rounds s ->
  (forall i c, no_usable_judgment (judge g i c)) ->
  _should_continue_discussion g (after_turn n response s) w = (Ok label, w') ->
  label = alternate (discussion_round s + 1).
Proof.
  intros Hlt Hj Hrouter.
  destruct (after_turn_fields n response s) as (Hr & Hm & Hms & _).
  rewrite (router_below_budget g _ w response) in Hrouter
    by first [rewrite Hr, Hm; lia | rewrite Hms; apply last_snoc].
  rewrite Hr in Hrouter.
  destruct (template_variables g (judge_human_text response))
    as [[|x vars]|e]; inversion Hrouter; subst; [|reflexivity].
  specialize (Hj (gateway_calls w) response). unfold no_usable_judgment in Hj.
  destruct (judge g (gateway_calls w) response) as [reply|e]; [|reflexivity].
  destruct Hj as [-> ->]. reflexivity.
Qed.

Lemma graph_step_agent_unusable g rt self n s w n' s' w' :
  (forall i c, no_usable_judgment (judge g i c)) ->
  is_agent n = true ->
  discussion_round s + 1 < max_rounds s ->
  graph_step g rt self (n, s) w = (Ok (n', s'), w') ->
  n' = fallback_node (discussion_round s + 1).
Proof.
  intros Hj Hn Hlt Hstep.
  destruct (graph_step_agent_returns _ _ _ _ _ _ _ _ _ Hn Hstep)
    as (resp & _ & _ & _ & _ & _ & _ & Hgo).
  destruct (Hgo Hlt) as (_ & _ & _ & label & Hpath & Hlabel).
  set (w1 := after_call _) in Hlabel.
  destruct (_should_continue_discussion g (after_turn n resp s) w1)
    as [[l|e] w2] eqn:Hrouter; simpl in Hlabel; [|discriminate].
  inversion Hlabel; subst l.
  rewrite (router_after_turn_unusable g n resp s w1 label w2 Hlt Hj Hrouter)
    in Hpath.
  rewrite path_map_alternate in Hpath. congruence.
Qed.

Lemma rounds_from_cons first count :
  rounds_from first (S count) = first :: rounds_from (first + 1) count.
Proof.
  unfold rounds_from. cbn [seq map]. f_equal; [lia|].
  rewrite <- seq_shift, map_map. apply map_ext. intros k. lia.
Qed.

Lemma graph_run_unusable_trace g rt self :
  (forall i c, no_usable_judgment (judge g i c)) ->
  forall fuel n s w s' w',
    is_agent n = true ->
    discussion_round s < max_rounds s ->
    graph_run fuel g rt self n s w = (Ok (Some s'), w') ->
    steps w' =
      (steps w ++
       n :: map fallback_node
              (rounds_from (discussion_round s + 1)
                 (Z.to_nat (max_rounds s - discussion_round s) - 1))
       ++ [collector])%list.
Proof.
  intros Hj. induction fuel as [|fuel IH]; intros n s w s' w' Hn Hlt Hrun.
  { destruct n; discriminate. }
  destruct (Z_le_gt_dec (max_rounds s) (discussion_round s + 1)) as [Hle|Hgt].
  - destruct (graph_run_completed g rt self (S fuel) n s w s' w' Hn Hlt Hrun)
      as (turns & nodes & v & Hlen & Hnl & _ & Hhd & Hsteps & _).
    assert (Hone : Z.to_nat (max_rounds s - discussion_round s) = 1%nat) by lia.
    rewrite Hone in *. rewrite Hlen in Hnl.
    destruct nodes as [|n0 [|n1 nodes]]; try discriminate.
    simpl in Hhd. inversion Hhd; subst n0. exact Hsteps.
  - rewrite graph_run_agent_unfold in Hrun by exact Hn.
    destruct (graph_step g rt self (n, s) w) as [[[n1 s1]|e] w1] eqn:Hstep.
    2:{ erewrite bind_raise in Hrun by exact Hstep. discriminate. }
    erewrite bind_ok in Hrun by exact Hstep.
    simpl fst in Hrun; simpl snd in Hrun.
    assert (Hlt1 : discussion_round s + 1 < max_rounds s) by lia.
    pose proof (graph_step_agent_unusable g rt self n s w n1 s1 w1 Hj Hn
                  Hlt1 Hstep) as Hn1.
    destruct (graph_step_agent_returns _ _ _ _ _ _ _ _ _ Hn Hstep)
      as (resp & _ & -> & Hst & _ & _ & _ & Hgo).
    destruct (Hgo Hlt1) as (Hag & _).
    destruct (after_turn_fields n resp s) as (Hr & Hm & _).
    assert (Hlt' : discussion_round (after_turn n resp s) <
                   max_rounds (after_turn n resp s)) by lia.
    rewrite (IH n1 (after_turn n resp s) w1 s' w' Hag Hlt' Hrun).
    rewrite Hst, Hr, Hm, <- app_assoc. cbn [app].
    replace (Z.to_nat (max_rounds s - discussion_round s) - 1)%nat
      with (S (Z.to_nat (max_rounds s - (discussion_round s + 1)) - 1)) by lia.
    rewrite rounds_from_cons. cbn [map]. rewrite Hn1. reflexivity.
Qed.

(** X6: when the classifier never gives a usable answer (every call
    raises or names neither category), the turns of a completed run are
    fixed by the round counter alone: the medical expert opens, and the
    turn taken when the counter is r >= 1 goes to the engineer if r is
    even and to the medical expert if r is odd.  So the medical expert
    speaks twice before the engineer speaks at all, and on a budget of 2
    the engineer never speaks. *)
Theorem unusable_classifier_turn_order
    (fuel : nat) (g : Gateway) (rt : PyRuntime) (self : MedicalReflectionSystem)
    (user_query : string) (limit : Z) (w : World)
    (s' : ReflectionState) (w' : World) :
  (forall i c, no_usable_judgment (judge g i c)) ->
  1 <= limit ->
  graph_invoke fuel g rt self (initial_state user_query limit) w =
    (Ok (Some s'), w') ->
  steps w' =
    (steps w ++
     medical_staff_agent ::
     map fallback_node (rounds_from 1 (Z.to_nat limit - 1))
     ++ [collector])%list /\
  (limit = 2 ->
   steps w' = (steps w ++ [medical_staff_agent; medical_staff_agent; collector])%list).
Proof.
  intros Hj Hlimit Hrun.
  pose proof (graph_run_unusable_trace g rt self Hj fuel medical_staff_agent
                (initial_state user_query limit) w s' w' eq_refl
                ltac:(simpl; lia) Hrun) as H.
  simpl in H. rewrite Z.sub_0_r in H.
  split; [exact H|]. intros ->. exact H.
Qed.

Lemma unusable_classifier_turn_order_witness :
  exists s' w',
    graph_invoke 5 gw_quiet rt_unparsable (mkSystem 4 None)
      (initial_state "q" 4) w0 = (Ok (Some s'), w') /\
    steps w' = [medical_staff_agent; medical_staff_agent; engineer_agent;
                medical_staff_agent; collector].
Proof.
  assert (Hrun : exists s' w',
            graph_invoke 5 gw_quiet rt_unparsable (mkSystem 4 None)
              (initial_state "q" 4) w0 = (Ok (Some s'), w'))
    by (eexists _, _; vm_compute; reflexivity).
  destruct Hrun as (s' & w' & Hrun). exists s', w'. split; [exact Hrun|].
  assert (Hj : forall i c, no_usable_judgment (judge gw_quiet i c))
    by (intros i c; simpl; auto).
  destruct (unusable_classifier_turn_order 5 gw_quiet rt_unparsable
              (mkSystem 4 None) "q" 4 w0 s' w' Hj ltac:(lia) Hrun) as [H _].
  exact H.
Defined.

(** X7: a budget of zero or less does not stop the first turn: the edge
    from START runs the medical expert before the router is asked, so a
    completed run has made that one turn and the extraction, ends with
    the round counter at 1, above max_rounds, and has made the turn's
    gateway call and at most one more, for the extraction: exactly two
    when the texts of the run hold no field. *)
Theorem nonpositive_budget_runs_one_turn
    (fuel : nat) (g : Gateway) (rt : PyRuntime) (self : MedicalReflectionSystem)
    (user_query : string) (limit : Z) (w : World)
    (s' : ReflectionState) (w' : World) :
  limit <= 0 ->
  graph_invoke fuel g rt self (initial_state user_query limit) w =
    (Ok (Some s'), w') ->
  discussion_round s' = 1 /\
  max_rounds s' = limit /\
  steps w' = (steps w ++ [medical_staff_agent; collector])%list /\
  (gateway_calls w' = (gateway_calls w + 1)%nat \/
   gateway_calls w' = (gateway_calls w + 2)%nat) /\
  exists answer,
    chat g (gateway_calls w) medical_expert [HumanMessage user_query] =
      Ok answer /\
    messages s' = [HumanMessage user_query; AIMessage answer;
                   AIMessage (final_summary s')] /\
    medical_insights s' = [answer] /\ engineering_insights s' = [] /\
    (template_variables g
       (collector_human_text
          (after_turn medical_staff_agent answer
             (initial_state user_query limit))) = Ok [] ->
     gateway_calls w' = (gateway_calls w + 2)%nat).
Proof.
  intros Hlimit Hrun. unfold graph_invoke in Hrun.
  destruct fuel as [|fuel]; [discriminate|].
  rewrite graph_run_agent_unfold in Hrun by reflexivity.
  destruct (graph_step g rt self
              (medical_staff_agent, initial_state user_query limit) w)
    as [[[n1 s1]|e] w1] eqn:Hstep.
  2:{ erewrite bind_raise in Hrun by exact Hstep. discriminate. }
  erewrite bind_ok in Hrun by exact Hstep. simpl fst in Hrun; simpl snd in Hrun.
  destruct (graph_step_agent_returns g rt self medical_staff_agent
              (initial_state user_query limit) w n1 s1 w1 eq_refl Hstep)
    as (resp & Hchat & -> & Hst & _ & _ & Hstop & _).
  assert (Hle : max_rounds (initial_state user_query limit) <=
                discussion_round (initial_state user_query limit) + 1)
    by (simpl; lia).
  destruct (Hstop Hle) as [-> Hcalls].
  destruct fuel as [|fuel]; [discriminate|].
  rewrite graph_run_collector_unfold in Hrun.
  destruct (graph_step g rt self
              (collector, after_turn medical_staff_agent resp
                            (initial_state user_query limit)) w1)
    as [[[n2 s2]|e] w2] eqn:Hc.
  2:{ erewrite bind_raise in Hrun by exact Hc. discriminate. }
  erewrite bind_ok in Hrun by exact Hc. simpl fst in Hrun; simpl snd in Hrun.
  destruct (graph_step_collector_returns _ _ _ _ _ _ _ _ Hc)
    as (variables & v & Hvars & -> & -> & Hst2 & _ & _ & Hcalls2 & Hexact).
  rewrite graph_run_end in Hrun. unfold ret in Hrun.
  inversion Hrun; subst s' w'.
  simpl. split; [reflexivity|]. split; [reflexivity|].
  split; [rewrite Hst2, Hst, <- app_assoc; reflexivity|].
  split; [lia|]. exists resp.
  split; [exact Hchat|]. split; [reflexivity|].
  split; [reflexivity|]. split; [reflexivity|].
  intros Hnone. simpl in Hvars. rewrite Hvars in Hnone.
  inversion Hnone; subst variables. rewrite (Hexact eq_refl). lia.
Qed.

Lemma nonpositive_budget_runs_one_turn_witness :
  exists s' w',
    graph_invoke 2 gw_quiet rt_unparsable (mkSystem (-3) None)
      (initial_state "q" (-3)) w0 = (Ok (Some s'), w') /\
    discussion_round s' = 1 /\ max_rounds s' = -3.
Proof.
  assert (Hrun : exists s' w',
            graph_invoke 2 gw_quiet rt_unparsable (mkSystem (-3) None)
              (initial_state "q" (-3)) w0 = (Ok (Some s'), w'))
    by (eexists _, _; vm_compute; reflexivity).
  destruct Hrun as (s' & w' & Hrun). exists s', w'. split; [exact Hrun|].
  destruct (nonpositive_budget_runs_one_turn 2 gw_quiet rt_unparsable
              (mkSystem (-3) None) "q" (-3) w0 s' w' ltac:(lia) Hrun)
    as (H1 & H2 & _).
  split; [exact H1 | exact H2].
Defined.

(** ** Braces in the texts of a run *)

(** X27: what a brace in an agent's answer does to the routing.  Below
    the budget, after an agent's message, the router builds its prompt
    from that message.  A malformed brace raises out of the router before
    any call.  A field makes the router return the role of the parity
    fallback without calling the classifier at all.  Only a message
    without fields is classified, with exactly one call, and the router
    names one of the two agents. *)
Theorem braces_decide_routing
    (g : Gateway) (s : ReflectionState) (w : World) (last_content : string) :
  discussion_round s < max_rounds s ->
  last (messages s) = Some (AIMessage last_content) ->
  (forall e,
     template_variables g (judge_human_text last_content) = Raise e ->
     _should_continue_discussion g s w = (Raise e, w)) /\
  (forall v variables,
     template_variables g (judge_human_text last_content) =
       Ok (v :: variables) ->
     _should_continue_discussion g s w =
       (Ok (fallback_role (discussion_round s)), w)) /\
  (template_variables g (judge_human_text last_content) = Ok [] ->
   exists label,
     _should_continue_discussion g s w = (Ok label, after_call w) /\
     (label = "medical" \/ label = "engineer_agent")).
Proof.
  intros Hlt Hlast.
  rewrite (router_below_budget g s w last_content Hlt Hlast).
  split; [intros e ->; reflexivity|].
  split; [intros v variables ->; rewrite alternate_fallback_role; reflexivity|].
  intros ->. eexists. split; [reflexivity|].
  destruct (judge g (gateway_calls w) last_content) as [reply|e];
    [|apply alternate_label].
  destruct (contains "medical" (lower (strip reply))); [auto|].
  destruct (contains "engineering" (lower (strip reply))); [auto|].
  apply alternate_label.
Qed.

Lemma braces_decide_routing_witness :
  _should_continue_discussion gw_scoring field_state w0 = (Ok "medical", w0) /\
  _should_continue_discussion gw_scoring sample_state w0 =
    (Ok "engineer_agent", after_call w0).
Proof.
  assert (Hlt : discussion_round field_state < max_rounds field_state)
    by (simpl; lia).
  assert (Hlt' : discussion_round sample_state < max_rounds sample_state)
    by (simpl; lia).
  split.
  - apply (proj1 (proj2 (braces_decide_routing gw_scoring field_state w0
                           "send {id}" Hlt eq_refl)) "id" []).
    vm_compute. reflexivity.
  - destruct (proj2 (proj2 (braces_decide_routing gw_scoring sample_state w0
                              "a" Hlt' eq_refl)))
      as (label & Hrouter & _); [vm_compute; reflexivity|].
    rewrite Hrouter. vm_compute in Hrouter.
    inversion Hrouter. reflexivity.
Defined.

(** X28: a malformed brace anywhere in the insights or in the transcript
    makes the extraction step raise while it builds its prompt, before the
    model is called: the step is logged, no state is returned, and a run
    that has reached the collector ends with that exception, the turns
    before it having been made. *)
Theorem malformed_brace_fails_extraction
    (g : Gateway) (rt : PyRuntime) (self : MedicalReflectionSystem)
    (s : ReflectionState) (w : World) (e : exn) :
  template_variables g (collector_human_text s) = Raise e ->
  collector_node g rt s w = (Raise e, w) /\
  graph_step g rt self (collector, s) w =
    (Raise e,
     mkWorld (gateway_calls w) (steps w ++ [collector])%list
             (sessions w) (clock w)) /\
  (forall fuel,
     graph_run (S fuel) g rt self collector s w =
       (Raise e,
        mkWorld (gateway_calls w) (steps w ++ [collector])%list
                (sessions w) (clock w))).
Proof.
  intros Hraise.
  assert (Hnode : forall w1, collector_node g rt s w1 = (Raise e, w1)).
  { intros w1. unfold collector_node. unfold bind at 1, lift.
    rewrite Hraise. reflexivity. }
  assert (Hstep : graph_step g rt self (collector, s) w =
            (Raise e,
             mkWorld (gateway_calls w) (steps w ++ [collector])%list
                     (sessions w) (clock w))).
  { unfold graph_step. simpl fst; simpl snd.
    erewrite bind_ok by apply log_step_eq.
    simpl run_node. erewrite bind_raise by apply Hnode. reflexivity. }
  split; [apply Hnode|]. split; [exact Hstep|].
  intros fuel. rewrite graph_run_collector_unfold.
  erewrite bind_raise by exact Hstep. reflexivity.
Qed.

Lemma malformed_brace_fails_extraction_witness :
  collector_node gw_braces rt_sample brace_state w0 =
    (Raise (ValueError "expected '}' before end of string"), w0).
Proof.
  apply (malformed_brace_fails_extraction gw_braces rt_sample (mkSystem 3 None)
           brace_state w0).
  vm_compute. reflexivity.
Defined.

(* ===================================================================== *)
(** * Further properties of the evaluator *)
(* ===================================================================== *)

Lemma evaluate_needs_fallback_on_dumps_witness :
  evaluate_needs gw_quiet rt_sample
    (PyList (map NeedItem_model_dump [sample_item; failed_need_item])) w0 =
  (Raise (AttributeError "'dict' object has no attribute 'need'"),
   mkWorld 1 [] ∅ 0).
Proof.
  apply (evaluate_needs_fallback_on_dumps gw_quiet rt_sample
           sample_item [failed_need_item] w0).
  intros c. eexists. reflexivity.
Defined.

(** Formatting a need succeeds only on a dict. *)
Lemma format_need_is_dict rt i x c :
  format_need rt (i, x) = Ok c -> exists d, x = PyDict d.
Proof.
  unfold format_need. cbn [fst snd].
  destruct x; try discriminate. eauto.
Qed.

(** Whenever the formatting of a truthy argument succeeds, the default
    evaluation of the same argument raises. *)
Lemma formatted_needs_have_no_default rt needs content :
  truthy needs = true ->
  _format_needs_for_evaluation rt needs = Ok content ->
  exists e, _create_default_evaluation needs = Raise e.
Proof.
  intros Ht Hf. unfold _format_needs_for_evaluation in Hf.
  assert (Hfirst : exists x rest, py_iter needs = Ok (x :: rest)).
  { destruct needs as [| | | s | l | d |]; try discriminate.
    - destruct s as [|c s]; [discriminate|]. simpl. eauto.
    - destruct l as [|x l]; [discriminate|]. simpl. eauto.
    - destruct d as [|kv d]; [discriminate|]. simpl. eauto. }
  destruct Hfirst as (x & rest & Hiter). rewrite Hiter in Hf.
  cbn [rbind enumerate for_each] in Hf.
  destruct (format_need rt (1, x)) as [c|e] eqn:Hx; [|discriminate].
  destruct (format_need_is_dict _ _ _ _ Hx) as [d ->].
  unfold _create_default_evaluation. rewrite Hiter.
  cbn [rbind for_each default_need_evaluation py_getattr_need]. eauto.
Qed.

(** X11: evaluate_needs never returns a default evaluation.  Whatever the
    argument, a result it returns is either the fixed empty result, for a
    falsy argument and without a gateway call, or exactly what the
    schema-constrained call returned on the formatted needs, after one
    call: whenever that call raises, evaluate_needs raises too. *)
Theorem evaluate_needs_returns_only_model_output
    (g : Gateway) (rt : PyRuntime) (needs : PyVal) (w : World)
    (out : NeedsEvaluationOutput) (w' : World) :
  evaluate_needs g rt needs w = (Ok out, w') ->
  (truthy needs = false /\ out = empty_evaluation /\ w' = w) \/
  (exists content,
     truthy needs = true /\
     _format_needs_for_evaluation rt needs = Ok content /\
     evaluation_chain g (gateway_calls w) content = Ok out /\
     w' = after_call w).
Proof.
  unfold evaluate_needs. destruct (truthy needs) eqn:Ht; cbn [negb].
  2:{ unfold ret. intros H. inversion H. left. auto. }
  intros H. right.
  destruct (_format_needs_for_evaluation rt needs) as [content|e] eqn:Hf.
  2:{ unfold bind, lift in H. discriminate. }
  exists content. unfold bind at 1, lift at 1, try_except in H.
  rewrite call_gateway_eq in H. fold (after_call w) in H.
  destruct (evaluation_chain g (gateway_calls w) content) as [o|e].
  - inversion H. auto.
  - destruct (formatted_needs_have_no_default rt needs content Ht Hf) as [e' He'].
    unfold lift in H. rewrite He' in H. discriminate.
Qed.

Lemma evaluate_needs_returns_only_model_output_witness :
  exists content,
    _format_needs_for_evaluation rt_sample
      (PyList [NeedItem_model_dump sample_item]) = Ok content /\
    evaluation_chain gw_scoring 0 content = Ok sample_scores.
Proof.
  destruct (evaluate_needs_returns_only_model_output gw_scoring rt_sample
              (PyList [NeedItem_model_dump sample_item]) w0 sample_scores
              (after_call w0) eq_refl)
    as [(H & _) | (content & _ & H1 & H2 & _)]; [discriminate|].
  exists content. split; assumption.
Defined.

(** X12: evaluate_needs makes at most one gateway call for the whole
    batch, however many needs it holds, and none when the argument is
    falsy or cannot be formatted: a falsy argument gives the fixed empty
    result with the world untouched, and an error of the formatting
    leaves evaluate_needs as it is, with the world untouched.  Needs that
    can be formatted cost exactly one call.  The registry and the clock
    are never touched. *)
Theorem evaluate_needs_one_call
    (g : Gateway) (rt : PyRuntime) (needs : PyVal) (w : World) :
  (snd (evaluate_needs g rt needs w) = w \/
   snd (evaluate_needs g rt needs w) = after_call w) /\
  (truthy needs = false ->
     evaluate_needs g rt needs w = (Ok empty_evaluation, w)) /\
  (forall e, truthy needs = true ->
     _format_needs_for_evaluation rt needs = Raise e ->
     evaluate_needs g rt needs w = (Raise e, w)) /\
  (forall content, truthy needs = true ->
     _format_needs_for_evaluation rt needs = Ok content ->
     snd (evaluate_needs g rt needs w) = after_call w).
Proof.
  unfold evaluate_needs. destruct (truthy needs); cbn [negb].
  2:{ split; [left; reflexivity|]. split; [reflexivity|].
      split; intros; discriminate. }
  destruct (_format_needs_for_evaluation rt needs) as [content|e].
  - assert (H : snd ((needs_content <- lift (Ok content) ;;
                      try_except
                        (call_gateway (fun i => evaluation_chain g i needs_content))
                        (fun _ => lift (_create_default_evaluation needs))) w)
                = after_call w).
    { unfold bind, lift, try_except. rewrite call_gateway_eq.
      destruct (evaluation_chain g (gateway_calls w) content); reflexivity. }
    split; [right; exact H|]. split; [discriminate|].
    split; [intros; discriminate|].
    intros c _ _. exact H.
  - split; [left; reflexivity|]. split; [discriminate|]. split.
    + intros e' _ He. inversion He. reflexivity.
    + intros; discriminate.
Qed.

Lemma first_missing_key (d : list (string * PyVal)) (keys : list string) :
  (exists k, In k keys /\ assoc_lookup k d = None) ->
  exists before k after,
    keys = (before ++ k :: after)%list /\
    assoc_lookup k d = None /\
    Forall (fun k' => exists v, assoc_lookup k' d = Some v) before.
Proof.
  induction keys as [|k0 keys IH]; intros (k & Hin & Hk); [destruct Hin|].
  destruct (assoc_lookup k0 d) as [v|] eqn:H0.
  - destruct Hin as [->|Hin]; [congruence|].
    destruct (IH (ex_intro _ k (conj Hin Hk))) as (b & k1 & a & -> & H1 & Hb).
    exists (k0 :: b), k1, a. repeat split; auto.
    constructor; eauto.
  - exists [], k0, keys. repeat split; auto.
Qed.

(** X13: a need that is a dict without one of the five keys stops
    evaluate_needs with a KeyError naming the first key that is missing
    (in the order need, summary, medical_insights, tech_insights,
    strategy), before any call to the model; here for the first need of
    the batch. *)
Theorem evaluate_needs_missing_key
    (g : Gateway) (rt : PyRuntime) (d : list (string * PyVal))
    (rest : list PyVal) (w : World) :
  (exists k, In k need_keys /\ assoc_lookup k d = None) ->
  exists before k after,
    need_keys = (before ++ k :: after)%list /\
    assoc_lookup k d = None /\
    Forall (fun k' => exists v, assoc_lookup k' d = Some v) before /\
    evaluate_needs g rt (PyList (PyDict d :: rest)) w = (Raise (KeyError k), w).
Proof.
  intros Hmiss.
  destruct (first_missing_key d need_keys Hmiss) as (b & k & a & Hkeys & Hk & Hb).
  exists b, k, a. repeat split; auto.
  unfold evaluate_needs. cbn [truthy negb].
  assert (Hf : _format_needs_for_evaluation rt (PyList (PyDict d :: rest)) =
               Raise (KeyError k)).
  { unfold _format_needs_for_evaluation. cbn [py_iter rbind enumerate for_each].
    assert (Hfn : format_need rt (1, PyDict d) = Raise (KeyError k)).
    { unfold format_need, need_keys in *. cbn [fst snd py_getitem].
      destruct b as [|k1 b]; [inversion Hkeys; subst; rewrite Hk; reflexivity|].
      inversion Hkeys as [[Hk1 Hrest]]. subst k1.
      inversion Hb as [|? ? [v1 Hv1] Hb1]; subst. rewrite Hv1. cbn [rbind].
      destruct b as [|k2 b]; [inversion Hrest; subst; rewrite Hk; reflexivity|].
      inversion Hrest as [[Hk2 Hrest2]]. subst k2.
      inversion Hb1 as [|? ? [v2 Hv2] Hb2]; subst. rewrite Hv2. cbn [rbind].
      destruct b as [|k3 b]; [inversion Hrest2; subst; rewrite Hk; reflexivity|].
      inversion Hrest2 as [[Hk3 Hrest3]]. subst k3.
      inversion Hb2 as [|? ? [v3 Hv3] Hb3]; subst. rewrite Hv3. cbn [rbind].
      destruct b as [|k4 b]; [inversion Hrest3; subst; rewrite Hk; reflexivity|].
      inversion Hrest3 as [[Hk4 Hrest4]]. subst k4.
      inversion Hb3 as [|? ? [v4 Hv4] Hb4]; subst. rewrite Hv4. cbn [rbind].
      destruct b as [|k5 b]; [inversion Hrest4; subst; rewrite Hk; reflexivity|].
      inversion Hrest4 as [[Hk5 Hrest5]].
      destruct b; discriminate. }
    rewrite Hfn. reflexivity. }
  rewrite Hf. reflexivity.
Qed.

Lemma evaluate_needs_missing_key_witness :
  exists k,
    evaluate_needs gw_scoring rt_sample
      (PyList [PyDict [("need", PyStr "A"); ("summary", PyStr "B")]]) w0 =
    (Raise (KeyError k), w0) /\ k = "medical_insights".
Proof.
  destruct (evaluate_needs_missing_key gw_scoring rt_sample
              [("need", PyStr "A"); ("summary", PyStr "B")] [] w0)
    as (b & k & a & Hkeys & Hk & Hb & Hev).
  - exists "strategy". split; [simpl; auto 10 | reflexivity].
  - exists k. split; [exact Hev|].
    vm_compute in Hev. inversion Hev. reflexivity.
Defined.

(* ===================================================================== *)
(** * Further properties of the prioritizer *)
(* ===================================================================== *)

Lemma prioritized_scores_sorted rt e :
  map prioritized_scores (prioritized_needs (create_prioritization rt e)) =
  map evaluation_scores (sorted_by_score_reverse (evaluations e)).
Proof.
  unfold create_prioritization. cbn [prioritized_needs].
  rewrite map_map.
  rewrite <- (enumerate_items (sorted_by_score_reverse (evaluations e)) 1) at 2.
  rewrite map_map. reflexivity.
Qed.

(** X14: create_prioritization loses nothing and mixes nothing up: the
    ranked needs, each with its title and its five scores, are a
    rearrangement of the evaluations it was given, one ranked need per
    evaluation. *)
Theorem prioritization_keeps_every_evaluation
    (rt : PyRuntime) (e : NeedsEvaluationOutput) :
  Permutation
    (map prioritized_scores (prioritized_needs (create_prioritization rt e)))
    (map evaluation_scores (evaluations e)) /\
  length (prioritized_needs (create_prioritization rt e)) =
    length (evaluations e).
Proof.
  assert (H : Permutation
    (map prioritized_scores (prioritized_needs (create_prioritization rt e)))
    (map evaluation_scores (evaluations e))).
  { rewrite prioritized_scores_sorted.
    apply Permutation_map, sorted_by_score_perm. }
  split; [exact H|].
  apply Permutation_length in H. rewrite !length_map in H. exact H.
Qed.

Lemma sorted_by_score_nil l : sorted_by_score_reverse l = [] -> l = [].
Proof.
  intros H. apply Permutation_nil. rewrite <- H.
  apply sorted_by_score_perm.
Qed.

(** The head of the sorted list: the first of the input among those with
    the greatest score. *)
Lemma sorted_by_score_head l : forall top rest,
  sorted_by_score_reverse l = top :: rest ->
  exists before after,
    l = (before ++ top :: after)%list /\
    Forall (fun x => (overall_score x < overall_score top)%Q) before /\
    Forall (fun x => (overall_score x <= overall_score top)%Q) after.
Proof.
  induction l as [|x l IH]; intros top rest Hs; [discriminate|].
  cbn [sorted_by_score_reverse fold_right] in Hs.
  fold (sorted_by_score_reverse l) in Hs.
  destruct (sorted_by_score_reverse l) as [|y r] eqn:Hl.
  - apply sorted_by_score_nil in Hl. subst l.
    simpl in Hs. inversion Hs; subst.
    exists [], []. split; [reflexivity|]. split; constructor.
  - destruct (IH y r eq_refl) as (b & a & -> & Hb & Ha).
    cbn [insert_by_score] in Hs.
    destruct (score_lt (overall_score x) (overall_score y)) eqn:Hlt.
    + inversion Hs; subst. apply score_lt_spec in Hlt.
      exists (x :: b), a.
      split; [reflexivity|]. split; [constructor; assumption | exact Ha].
    + inversion Hs; subst. apply score_lt_false in Hlt.
      exists [], (b ++ y :: a)%list.
      split; [reflexivity|]. split; [constructor|].
      apply List.Forall_app. split.
      * eapply List.Forall_impl; [|exact Hb].
        intros z Hz. cbv beta in Hz. apply Qlt_le_weak.
        eapply Qlt_le_trans; [exact Hz | exact Hlt].
      * constructor; [exact Hlt|].
        eapply List.Forall_impl; [|exact Ha].
        intros z Hz. cbv beta in Hz.
        eapply Qle_trans; [exact Hz | exact Hlt].
Qed.

(** X15: the need ranked first is the evaluation with the greatest overall
    score, and among several with that score the one that came first in
    the input: every evaluation before it in the input scores strictly
    less, every one after it scores no more. *)
Theorem top_ranked_need_is_first_maximum
    (rt : PyRuntime) (e : NeedsEvaluationOutput)
    (p : PrioritizedNeed) (others : list PrioritizedNeed) :
  prioritized_needs (create_prioritization rt e) = p :: others ->
  rank p = 1 /\ priority_level p = "High" /\
  exists before top after,
    evaluations e = (before ++ top :: after)%list /\
    prioritized_scores p = evaluation_scores top /\
    Forall (fun x => (overall_score x < overall_score top)%Q) before /\
    Forall (fun x => (overall_score x <= overall_score top)%Q) after.
Proof.
  unfold create_prioritization. cbn [prioritized_needs]. intros H.
  destruct (sorted_by_score_reverse (evaluations e)) as [|top rest] eqn:Hs;
    [discriminate|].
  cbn [enumerate map] in H. inversion H; subst p others.
  split; [reflexivity|]. split; [reflexivity|].
  destruct (sorted_by_score_head _ _ _ Hs) as (b & a & Hl & Hb & Ha).
  exists b, top, a. repeat split; auto.
Qed.

Lemma top_ranked_need_is_first_maximum_witness :
  exists p others before top after,
    prioritized_needs (create_prioritization rt_sample
      (mkEvaluationOutput evaluations_close "" [])) = p :: others /\
    evaluations_close = (before ++ top :: after)%list /\
    prioritized_scores p = evaluation_scores top /\
    Forall (fun x => (overall_score x < overall_score top)%Q) before.
Proof.
  destruct (top_ranked_need_is_first_maximum rt_sample
              (mkEvaluationOutput evaluations_close "" []) _ _ eq_refl)
    as (_ & _ & b & top & a & H1 & H2 & H3 & _).
  eexists _, _, b, top, a. split; [reflexivity|]. auto.
Defined.

Lemma sorted_by_score_fixed l :
  StronglySorted score_ge l -> sorted_by_score_reverse l = l.
Proof.
  induction 1 as [|x l Hl IH Hx]; [reflexivity|].
  cbn [sorted_by_score_reverse fold_right].
  fold (sorted_by_score_reverse l). rewrite IH.
  destruct l as [|y l]; [reflexivity|].
  cbn [insert_by_score]. inversion Hx as [|? ? Hy _]; subst.
  unfold score_ge in Hy. apply score_lt_false in Hy. rewrite Hy. reflexivity.
Qed.

(** X16: evaluations that already come in rank order (no score before a
    greater one) keep exactly that order: the ranked needs carry the
    titles and scores of the input, position by position.  In particular
    ranking a ranked list again changes nothing. *)
Theorem ranked_input_keeps_its_order
    (rt : PyRuntime) (e : NeedsEvaluationOutput) :
  StronglySorted score_ge (evaluations e) ->
  map prioritized_scores (prioritized_needs (create_prioritization rt e)) =
    map evaluation_scores (evaluations e) /\
  sorted_by_score_reverse (sorted_by_score_reverse (evaluations e)) =
    sorted_by_score_reverse (evaluations e).
Proof.
  intros Hs. rewrite prioritized_scores_sorted.
  rewrite !(sorted_by_score_fixed _ Hs). split; reflexivity.
Qed.

Lemma ranked_input_keeps_its_order_witness :
  StronglySorted score_ge evaluations_ranked /\
  map pn_need_title
    (prioritized_needs (create_prioritization rt_sample
       (mkEvaluationOutput evaluations_ranked "" []))) = ["A"; "B"; "C"].
Proof.
  assert (H : StronglySorted score_ge evaluations_ranked).
  { repeat constructor; unfold score_ge; simpl; discriminate. }
  split; [exact H|].
  destruct (ranked_input_keeps_its_order rt_sample
              (mkEvaluationOutput evaluations_ranked "" []) H) as [H1 _].
  apply (f_equal (map (fun t => fst (fst (fst (fst (fst t))))))) in H1.
  rewrite !map_map in H1. exact H1.
Defined.

Lemma low_priority_tail l : forall i,
  5 <= i ->
  map priority_level (map prioritized_need (enumerate i l)) =
  repeat "Low" (length l).
Proof.
  induction l as [|x l IH]; intros i Hi; [reflexivity|].
  cbn [enumerate map length repeat prioritized_need priority_level fst].
  rewrite IH by lia. f_equal. unfold priority_of_rank.
  destruct (Z.leb_spec i 2); [lia|]. destruct (Z.leb_spec i 4); [lia|].
  reflexivity.
Qed.

(** X17: the tiers and the number of recommendations depend on the number
    N of evaluations alone, not on any score: the levels in rank order are
    the first N of High, High, Medium, Medium followed by N - 4 times Low,
    and there are 2 recommendations for no need, 3 for one, 4 for two or
    more. *)
Theorem tiers_depend_on_count_only
    (rt : PyRuntime) (e : NeedsEvaluationOutput) :
  map priority_level (prioritized_needs (create_prioritization rt e)) =
    (firstn (length (evaluations e)) ["High"; "High"; "Medium"; "Medium"]
     ++ repeat "Low" (length (evaluations e) - 4))%list /\
  length (prio_recommendations (create_prioritization rt e)) =
    (2 + Nat.min 2 (length (evaluations e)))%nat.
Proof.
  assert (Hlen : length (sorted_by_score_reverse (evaluations e)) =
                 length (evaluations e))
    by (apply Permutation_length, sorted_by_score_perm).
  unfold create_prioritization.
  cbn [prioritized_needs prio_recommendations].
  rewrite <- Hlen.
  destruct (sorted_by_score_reverse (evaluations e))
    as [|e1 [|e2 [|e3 [|e4 l]]]]; try (split; reflexivity).
  split.
  - cbn [enumerate map length firstn]. rewrite low_priority_tail by lia.
    cbn [prioritized_need priority_level fst].
    replace (S (S (S (S (length l)))) - 4)%nat with (length l) by lia.
    rewrite firstn_nil. reflexivity.
  - reflexivity.
Qed.

(* ===================================================================== *)
(** * Further properties of the background runner *)
(* ===================================================================== *)

Lemma sessions_getitem_ok session_id w session :
  sessions w !! session_id = Some session ->
  sessions_getitem session_id w = (Ok session, w).
Proof. intros H. unfold sessions_getitem. rewrite H. reflexivity. Qed.

Lemma sessions_getitem_missing session_id w :
  sessions w !! session_id = None ->
  sessions_getitem session_id w = (Raise (KeyError session_id), w).
Proof. intros H. unfold sessions_getitem. rewrite H. reflexivity. Qed.

Lemma session_setitem_ok session_id key v w session :
  sessions w !! session_id = Some session ->
  session_setitem session_id key v w =
    (Ok tt, with_session session_id (<[key := v]> session) w).
Proof.
  intros H. unfold session_setitem.
  erewrite bind_ok by (apply sessions_getitem_ok; exact H). reflexivity.
Qed.

Lemma with_session_lookup session_id session w :
  sessions (with_session session_id session w) !! session_id = Some session.
Proof. apply lookup_insert_eq. Qed.

Lemma keeps_lookup {A} (m : M A) w session_id :
  keeps_registry m ->
  sessions (snd (m w)) !! session_id = sessions w !! session_id.
Proof. intros H. destruct (H w) as [-> _]. reflexivity. Qed.

Lemma keeps_run_reflection_sync fuel g rt query limit :
  keeps_registry (run_reflection_sync fuel g rt query limit).
Proof.
  unfold run_reflection_sync, graph_invoke.
  apply keeps_bind; [apply keeps_lift|]. intros reflection_system.
  apply keeps_bind; [apply keeps_graph_run|].
  intros [r|]; apply keeps_ret.
Qed.

(** The constructor raises before the graph exists, so run_reflection_sync
    raises before it runs anything. *)
Lemma run_reflection_sync_raises fuel g rt query limit w :
  run_reflection_sync fuel g rt query limit w =
    (Raise (AttributeError no_checkpointer), w).
Proof. reflexivity. Qed.

Lemma keeps_evaluate_needs g rt needs :
  keeps_registry (evaluate_needs g rt needs).
Proof.
  unfold evaluate_needs. destruct (negb (truthy needs)); keeps.
Qed.

(** X18: for a session id that is not in the registry process_reflection
    raises KeyError: the first write fails, and so does the update of the
    handler that was to record the failure.  Nothing is run and nothing
    changes: no gateway call, no session created. *)
Theorem process_reflection_unknown_session
    (fuel : nat) (g : Gateway) (rt : PyRuntime)
    (session_id query : string) (limit : Z) (w : World) :
  sessions w !! session_id = None ->
  process_reflection fuel g rt session_id query limit w =
    (Raise (KeyError session_id), w).
Proof.
  intros H. unfold process_reflection, try_except.
  assert (Hset : session_setitem session_id "status" (SVStr "processing") w =
                 (Raise (KeyError session_id), w)).
  { unfold session_setitem.
    erewrite bind_raise by (apply sessions_getitem_missing; exact H).
    reflexivity. }
  erewrite bind_raise by exact Hset.
  erewrite bind_raise by (apply sessions_getitem_missing; exact H).
  reflexivity.
Qed.

Lemma process_reflection_unknown_session_witness :
  process_reflection 3 gw_scoring rt_sample "nobody" "q" 2 w_registered =
    (Raise (KeyError "nobody"), w_registered).
Proof.
  apply (process_reflection_unknown_session 3 gw_scoring rt_sample
           "nobody" "q" 2 w_registered).
  vm_compute. reflexivity.
Defined.

(** The run, seen from process_reflection: the world in which it starts
    and the registry it leaves. *)
Lemma process_reflection_run fuel g rt session_id query limit w session r w1 :
  sessions w !! session_id = Some session ->
  run_reflection_sync fuel g rt query limit
    (with_session session_id (marked_processing session) w) = (r, w1) ->
  sessions w1 = <[session_id := marked_processing session]> (sessions w) /\
  sessions w1 !! session_id = Some (marked_processing session).
Proof.
  intros Hs Hrun.
  destruct (keeps_run_reflection_sync fuel g rt query limit
              (with_session session_id (marked_processing session) w))
    as [Hk _].
  rewrite Hrun in Hk. cbn [snd] in Hk. split; [exact Hk|].
  rewrite Hk. apply with_session_lookup.
Qed.

(** The handler of process_reflection, on a session that exists. *)
Lemma process_reflection_handler session_id e w session :
  sessions w !! session_id = Some session ->
  (session <- sessions_getitem session_id ;;
   completed_at <- now ;;
   sessions_store session_id
     (<["completed_at" := SVTime completed_at]>
      (<["error" := SVStr (exn_str e)]>
      (<["status" := SVStr "error"]> session))) ;;;
   ret (Some tt)) w =
  (Ok (Some tt),
   with_session session_id (marked_error e (clock w) session) (after_now w)).
Proof.
  intros H. erewrite bind_ok by (apply sessions_getitem_ok; exact H).
  reflexivity.
Qed.

(** When the run raises. *)
Lemma process_reflection_run_raises_aux
    fuel g rt session_id query limit w session e w1 :
  sessions w !! session_id = Some session ->
  run_reflection_sync fuel g rt query limit
    (with_session session_id (marked_processing session) w) = (Raise e, w1) ->
  process_reflection fuel g rt session_id query limit w =
    (Ok (Some tt),
     with_session session_id
       (marked_error e (clock w1) (marked_processing session)) (after_now w1)).
Proof.
  intros Hs Hrun.
  destruct (process_reflection_run _ _ _ _ _ _ _ _ _ _ Hs Hrun) as [_ Hl].
  unfold process_reflection, try_except.
  erewrite bind_ok by (apply session_setitem_ok; exact Hs). cbv beta.
  fold (marked_processing session).
  erewrite bind_raise by exact Hrun.
  apply process_reflection_handler. exact Hl.
Qed.

Lemma process_reflection_eq fuel g rt session_id query limit :
  process_reflection fuel g rt session_id query limit =
  try_except
    (session_setitem session_id "status" (SVStr "processing") ;;;
     r <- run_reflection_sync fuel g rt query limit ;;
     store_and_evaluate g rt session_id r)
    (record_failure session_id).
Proof. reflexivity. Qed.

Lemma record_failure_ok session_id e w session :
  sessions w !! session_id = Some session ->
  record_failure session_id e w =
    (Ok (Some tt),
     with_session session_id (marked_error e (clock w) session) (after_now w)).
Proof.
  intros H. unfold record_failure.
  erewrite bind_ok by (apply sessions_getitem_ok; exact H). reflexivity.
Qed.

Lemma py_get_truthy d key found :
  py_get d key PyNone = Ok found -> truthy found = true ->
  py_getitem d key = Ok found.
Proof.
  unfold py_get, py_getitem. destruct d; try discriminate.
  destruct (assoc_lookup key d) as [x|]; intros H Ht; inversion H; subst;
    [reflexivity | discriminate].
Qed.

(** The three ways on from a stored result. *)
Lemma store_and_evaluate_no_dict g rt session_id result session w1 e :
  sessions w1 !! session_id = Some (marked_processing session) ->
  py_get (parsed_needs result) "needs" PyNone = Raise e ->
  store_and_evaluate g rt session_id (Some result) w1 =
    (Raise e, world_completed session_id result session w1).
Proof.
  intros Hl Hget. unfold store_and_evaluate.
  erewrite bind_ok by (apply sessions_getitem_ok; exact Hl). cbv beta.
  erewrite bind_ok by reflexivity. cbv beta.
  erewrite bind_ok by reflexivity. cbv beta.
  rewrite Hget. reflexivity.
Qed.

Lemma store_and_evaluate_no_needs g rt session_id result session w1 found :
  sessions w1 !! session_id = Some (marked_processing session) ->
  py_get (parsed_needs result) "needs" PyNone = Ok found ->
  truthy found = false ->
  store_and_evaluate g rt session_id (Some result) w1 =
    (Ok (Some tt), world_completed session_id result session w1).
Proof.
  intros Hl Hget Ht. unfold store_and_evaluate.
  erewrite bind_ok by (apply sessions_getitem_ok; exact Hl). cbv beta.
  erewrite bind_ok by reflexivity. cbv beta.
  erewrite bind_ok by reflexivity. cbv beta.
  rewrite Hget. unfold bind at 1, lift at 1. rewrite Ht. reflexivity.
Qed.

Lemma store_and_evaluate_needs g rt session_id result session w1 found
    outcome w3 :
  sessions w1 !! session_id = Some (marked_processing session) ->
  py_get (parsed_needs result) "needs" PyNone = Ok found ->
  truthy found = true ->
  evaluate_needs g rt found (world_completed session_id result session w1) =
    (outcome, w3) ->
  store_and_evaluate g rt session_id (Some result) w1 =
    (Ok (Some tt),
     with_session session_id
       (with_entries rt outcome (clock w3)
          (marked_completed result (clock w1) (marked_processing session)))
       (after_now (after_now w3))) /\
  clock w3 = clock w1 + 1 /\
  sessions w3 =
    <[session_id := marked_completed result (clock w1) (marked_processing session)]>
      (sessions w1).
Proof.
  intros Hl Hget Ht Hev.
  set (sc := marked_completed result (clock w1) (marked_processing session)) in *.
  destruct (keeps_evaluate_needs g rt found
              (world_completed session_id result session w1)) as [Hk Hc].
  rewrite Hev in Hk, Hc. cbn [snd] in Hk, Hc.
  assert (Hl3 : sessions w3 !! session_id = Some sc).
  { rewrite Hk. apply with_session_lookup. }
  split; [|split; [exact Hc | exact Hk]].
  unfold store_and_evaluate.
  erewrite bind_ok by (apply sessions_getitem_ok; exact Hl). cbv beta.
  erewrite bind_ok by reflexivity. cbv beta.
  erewrite bind_ok by reflexivity. cbv beta.
  rewrite Hget. unfold bind at 1, lift at 1. rewrite Ht.
  fold sc. fold (world_completed session_id result session w1).
  rewrite (py_get_truthy _ _ _ Hget Ht).
  unfold try_except. erewrite (bind_ok (lift (Ok found))) by reflexivity.
  cbv beta. destruct outcome as [ev|e].
  - erewrite bind_ok by exact Hev. cbv beta.
    erewrite bind_ok by reflexivity. cbv beta.
    erewrite bind_ok by (apply session_setitem_ok; exact Hl3). cbv beta zeta.
    erewrite bind_ok by reflexivity. cbv beta.
    erewrite bind_ok
      by (apply session_setitem_ok; apply with_session_lookup).
    unfold ret, with_entries, with_session, after_now. cbn.
    rewrite insert_insert_eq. reflexivity.
  - erewrite bind_raise by exact Hev.
    erewrite bind_ok by reflexivity. cbv beta.
    erewrite bind_ok by (apply session_setitem_ok; exact Hl3). cbv beta.
    erewrite bind_ok by reflexivity. cbv beta.
    erewrite bind_ok
      by (apply session_setitem_ok; apply with_session_lookup).
    unfold ret, with_entries, with_session, after_now. cbn.
    rewrite insert_insert_eq. reflexivity.
Qed.

Lemma process_reflection_after_run
    fuel g rt session_id query limit w session r w1 :
  sessions w !! session_id = Some session ->
  run_reflection_sync fuel g rt query limit
    (with_session session_id (marked_processing session) w) = (Ok r, w1) ->
  process_reflection fuel g rt session_id query limit w =
    match store_and_evaluate g rt session_id r w1 with
    | (Ok x, w') => (Ok x, w')
    | (Raise e, w2) => record_failure session_id e w2
    end.
Proof.
  intros Hs Hrun. rewrite process_reflection_eq. unfold try_except.
  erewrite bind_ok by (apply session_setitem_ok; exact Hs). cbv beta.
  fold (marked_processing session).
  erewrite bind_ok by exact Hrun. cbv beta.
  destruct (store_and_evaluate g rt session_id r w1) as [[x|e] w2]; reflexivity.
Qed.

Ltac session_lookup :=
  repeat (rewrite lookup_insert_ne
            by (let H := fresh in intros H; discriminate H));
  first [apply lookup_insert_eq | reflexivity].

Lemma insert_twice {A} (m : gmap string A) k a b :
  <[k := b]> (<[k := a]> m) = <[k := b]> m.
Proof. apply insert_insert_eq. Qed.

(** X19: when the run raises (as it does when the system cannot be
    constructed, and as a failing turn would make it), process_reflection
    itself returns: the session is marked
    "error" with str(e) under "error" and a completion time, it gets no
    "result", "evaluation" or "prioritization" entry, every other session
    is as before, and no gateway call follows the failed run. *)
Theorem process_reflection_run_failure
    (fuel : nat) (g : Gateway) (rt : PyRuntime)
    (session_id query : string) (limit : Z)
    (w : World) (session : gmap string SessionVal) (e : exn) (w1 : World) :
  sessions w !! session_id = Some session ->
  run_reflection_sync fuel g rt query limit
    (with_session session_id (marked_processing session) w) = (Raise e, w1) ->
  exists w' session',
    process_reflection fuel g rt session_id query limit w = (Ok (Some tt), w') /\
    sessions w' = <[session_id := session']> (sessions w) /\
    session' !! "status" = Some (SVStr "error") /\
    session' !! "error" = Some (SVStr (exn_str e)) /\
    session' !! "completed_at" = Some (SVTime (clock w1)) /\
    session' !! "result" = session !! "result" /\
    session' !! "evaluation" = session !! "evaluation" /\
    session' !! "prioritization" = session !! "prioritization" /\
    gateway_calls w' = gateway_calls w1.
Proof.
  intros Hs Hrun.
  destruct (process_reflection_run _ _ _ _ _ _ _ _ _ _ Hs Hrun) as [Hreg _].
  eexists _, _. split.
  { apply (process_reflection_run_raises_aux fuel g rt session_id query limit
             w session e w1 Hs Hrun). }
  cbn [sessions with_session after_now gateway_calls].
  split; [rewrite Hreg; apply insert_twice|].
  unfold marked_error, marked_processing.
  repeat split; try reflexivity.
  - rewrite !lookup_insert_ne by discriminate. apply lookup_insert_eq.
  - rewrite lookup_insert_ne by discriminate. apply lookup_insert_eq.
  - apply lookup_insert_eq.
  - rewrite !lookup_insert_ne by discriminate. reflexivity.
  - rewrite !lookup_insert_ne by discriminate. reflexivity.
  - rewrite !lookup_insert_ne by discriminate. reflexivity.
Qed.

Lemma process_reflection_run_failure_witness :
  exists w' session',
    process_reflection 3 gw_down rt_sample "s1" "q" 1 w_registered =
      (Ok (Some tt), w') /\
    sessions w' !! "s1" = Some session' /\
    session' !! "status" = Some (SVStr "error") /\
    session' !! "error" = Some (SVStr no_checkpointer) /\
    session' !! "result" = None.
Proof.
  edestruct (process_reflection_run_failure 3 gw_down rt_sample "s1" "q" 1
               w_registered (new_session "q" 1 0))
    as (w' & session' & Hp & Hreg & Hst & Herr & _ & Hres & _).
  - vm_compute. reflexivity.
  - vm_compute. reflexivity.
  - exists w', session'. split; [exact Hp|].
    split; [rewrite Hreg; apply lookup_insert_eq|].
    split; [exact Hst|]. split; [exact Herr|].
    rewrite Hres. vm_compute. reflexivity.
Defined.


(** What process_reflection leaves behind once the run is over, in every
    case. *)
Lemma process_reflection_settles_aux
    fuel g rt session_id query limit w session r w1 :
  sessions w !! session_id = Some session ->
  run_reflection_sync fuel g rt query limit
    (with_session session_id (marked_processing session) w) = (r, w1) ->
  r <> Ok None ->
  exists w' session',
    process_reflection fuel g rt session_id query limit w = (Ok (Some tt), w') /\
    sessions w' = <[session_id := session']> (sessions w) /\
    (session' !! "status" = Some (SVStr "completed") \/
     session' !! "status" = Some (SVStr "error")) /\
    (exists t, session' !! "completed_at" = Some (SVTime t)).
Proof.
  intros Hs Hrun Hfuel.
  destruct (process_reflection_run _ _ _ _ _ _ _ _ _ _ Hs Hrun) as [Hreg Hl].
  destruct r as [[res|]|e]; [| congruence |].
  - rewrite (process_reflection_after_run fuel g rt session_id query limit
               w session (Some res) w1 Hs Hrun).
    destruct (py_get (parsed_needs res) "needs" PyNone) as [found|e] eqn:Hget.
    + destruct (truthy found) eqn:Ht.
      * destruct (evaluate_needs g rt found
                    (world_completed session_id res session w1))
          as [outcome w3] eqn:Hev.
        destruct (store_and_evaluate_needs g rt session_id res session w1
                    found outcome w3 Hl Hget Ht Hev) as (Hstore & Hc & Hk).
        rewrite Hstore. eexists _, _. split; [reflexivity|].
        cbn [sessions with_session after_now].
        split; [rewrite Hk, Hreg, !insert_twice; reflexivity|].
        unfold with_entries, marked_completed, marked_processing. split.
        -- left. session_lookup.
        -- eexists. session_lookup.
      * rewrite (store_and_evaluate_no_needs g rt session_id res session w1
                   found Hl Hget Ht).
        eexists _, _. split; [reflexivity|].
        cbn [sessions world_completed with_session after_now].
        split; [rewrite Hreg; apply insert_twice|].
        unfold marked_completed, marked_processing. split.
        -- left. session_lookup.
        -- eexists. session_lookup.
    + rewrite (store_and_evaluate_no_dict g rt session_id res session w1 e
                 Hl Hget).
      erewrite record_failure_ok by apply with_session_lookup.
      eexists _, _. split; [reflexivity|].
      cbn [sessions world_completed with_session after_now].
      split; [rewrite Hreg, !insert_twice; reflexivity|].
      unfold marked_error. split.
      * right. session_lookup.
      * eexists. session_lookup.
  - rewrite (process_reflection_run_raises_aux fuel g rt session_id query limit
               w session e w1 Hs Hrun).
    eexists _, _. split; [reflexivity|].
    cbn [sessions with_session after_now].
    split; [rewrite Hreg; apply insert_twice|].
    unfold marked_error. split.
    + right. session_lookup.
    + eexists. session_lookup.
Qed.

Lemma run_reflection_sync_has_fuel g rt query limit w :
  1 <= limit ->
  fst (run_reflection_sync (S (Z.to_nat limit)) g rt query limit w) <> Ok None.
Proof.
  intros Hlimit. rewrite run_reflection_sync_raises. discriminate.
Qed.

(** X22: a session that is in the registry is never left "processing":
    for max_rounds >= 1, process_reflection returns (it never raises), the
    session ends with status "completed" or "error" and a completion
    time, and every other session is exactly as it was. *)
Theorem process_reflection_settles
    (g : Gateway) (rt : PyRuntime)
    (session_id query : string) (limit : Z)
    (w : World) (session : gmap string SessionVal) :
  sessions w !! session_id = Some session ->
  1 <= limit ->
  exists w' session',
    process_reflection (S (Z.to_nat limit)) g rt session_id query limit w =
      (Ok (Some tt), w') /\
    sessions w' !! session_id = Some session' /\
    (session' !! "status" = Some (SVStr "completed") \/
     session' !! "status" = Some (SVStr "error")) /\
    (exists t, session' !! "completed_at" = Some (SVTime t)) /\
    (forall other, other <> session_id ->
       sessions w' !! other = sessions w !! other).
Proof.
  intros Hs Hlimit.
  destruct (run_reflection_sync (S (Z.to_nat limit)) g rt query limit
              (with_session session_id (marked_processing session) w))
    as [r w1] eqn:Hrun.
  pose proof (run_reflection_sync_has_fuel g rt query limit
                (with_session session_id (marked_processing session) w)
                Hlimit) as Hfuel.
  rewrite Hrun in Hfuel. cbn [fst] in Hfuel.
  destruct (process_reflection_settles_aux _ _ _ _ _ _ _ _ _ _ Hs Hrun Hfuel)
    as (w' & session' & Hp & Hreg & Hst & Ht).
  exists w', session'. split; [exact Hp|].
  split; [rewrite Hreg; apply lookup_insert_eq|].
  split; [exact Hst|]. split; [exact Ht|].
  intros other Hne. rewrite Hreg. apply lookup_insert_ne. congruence.
Qed.

Lemma process_reflection_settles_witness :
  exists w' session',
    process_reflection 3 gw_down rt_sample "s1" "q" 2 w_registered =
      (Ok (Some tt), w') /\
    sessions w' !! "s1" = Some session' /\
    (session' !! "status" = Some (SVStr "completed") \/
     session' !! "status" = Some (SVStr "error")).
Proof.
  destruct (process_reflection_settles gw_down rt_sample "s1" "q" 2
              w_registered (new_session "q" 1 0))
    as (w' & session' & Hp & Hl & Hst & _).
  - vm_compute. reflexivity.
  - lia.
  - exists w', session'. auto.
Defined.

(* ===================================================================== *)
(** * Properties of the endpoints *)
(* ===================================================================== *)

Lemma py_get_is_dict v key default found :
  py_get v key default = Ok found -> exists d, v = PyDict d.
Proof. destruct v; try discriminate. eauto. Qed.

(** The session process_reflection leaves, in full. *)
Lemma process_reflection_outcome_aux
    fuel g rt session_id query limit w session r w1 :
  sessions w !! session_id = Some session ->
  run_reflection_sync fuel g rt query limit
    (with_session session_id (marked_processing session) w) = (r, w1) ->
  r <> Ok None ->
  exists w' session',
    process_reflection fuel g rt session_id query limit w = (Ok (Some tt), w') /\
    sessions w' = <[session_id := session']> (sessions w) /\
    session' !! "created_at" = session !! "created_at" /\
    session' !! "query" = session !! "query" /\
    (exists t, session' !! "completed_at" = Some (SVTime t)) /\
    entries_follow rt session session' /\
    ((session' !! "status" = Some (SVStr "completed") /\
      exists res d, r = Ok (Some res) /\
        session' !! "result" = Some (SVResult res) /\
        parsed_needs res = PyDict d) \/
     (session' !! "status" = Some (SVStr "error") /\
      exists e, session' !! "error" = Some (SVStr (exn_str e)))).
Proof.
  intros Hs Hrun Hfuel.
  destruct (process_reflection_run _ _ _ _ _ _ _ _ _ _ Hs Hrun) as [Hreg Hl].
  destruct r as [[res|]|e]; [| congruence |].
  - rewrite (process_reflection_after_run fuel g rt session_id query limit
               w session (Some res) w1 Hs Hrun).
    destruct (py_get (parsed_needs res) "needs" PyNone) as [found|e] eqn:Hget.
    + destruct (py_get_is_dict _ _ _ _ Hget) as [d Hd].
      destruct (truthy found) eqn:Ht.
      * destruct (evaluate_needs g rt found
                    (world_completed session_id res session w1))
          as [outcome w3] eqn:Hev.
        destruct (store_and_evaluate_needs g rt session_id res session w1
                    found outcome w3 Hl Hget Ht Hev) as (Hstore & Hc & Hk).
        rewrite Hstore. eexists _, _. split; [reflexivity|].
        cbn [sessions with_session after_now].
        split; [rewrite Hk, Hreg, !insert_twice; reflexivity|].
        unfold with_entries, marked_completed, marked_processing.
        split; [session_lookup|]. split; [session_lookup|].
        split; [eexists; session_lookup|].
        split.
        { right. exists outcome, (clock w3). split; session_lookup. }
        left. split; [session_lookup|].
        exists res, d. split; [reflexivity|]. split; [session_lookup | exact Hd].
      * rewrite (store_and_evaluate_no_needs g rt session_id res session w1
                   found Hl Hget Ht).
        eexists _, _. split; [reflexivity|].
        cbn [sessions world_completed with_session after_now].
        split; [rewrite Hreg; apply insert_twice|].
        unfold marked_completed, marked_processing.
        split; [session_lookup|]. split; [session_lookup|].
        split; [eexists; session_lookup|].
        split; [left; split; session_lookup|].
        left. split; [session_lookup|].
        exists res, d. split; [reflexivity|]. split; [session_lookup | exact Hd].
    + rewrite (store_and_evaluate_no_dict g rt session_id res session w1 e
                 Hl Hget).
      erewrite record_failure_ok by apply with_session_lookup.
      eexists _, _. split; [reflexivity|].
      cbn [sessions world_completed with_session after_now].
      split; [rewrite Hreg, !insert_twice; reflexivity|].
      unfold marked_error, marked_completed, marked_processing.
      split; [session_lookup|]. split; [session_lookup|].
      split; [eexists; session_lookup|].
      split; [left; split; session_lookup|].
      right. split; [session_lookup|]. exists e. session_lookup.
  - rewrite (process_reflection_run_raises_aux fuel g rt session_id query limit
               w session e w1 Hs Hrun).
    eexists _, _. split; [reflexivity|].
    cbn [sessions with_session after_now].
    split; [rewrite Hreg; apply insert_twice|].
    unfold marked_error, marked_processing.
    split; [session_lookup|]. split; [session_lookup|].
    split; [eexists; session_lookup|].
    split; [left; split; session_lookup|].
    right. split; [session_lookup|]. exists e. session_lookup.
Qed.

Lemma new_session_lookups query limit t :
  new_session query limit t !! "status" = Some (SVStr "queued") /\
  new_session query limit t !! "query" = Some (SVStr query) /\
  new_session query limit t !! "created_at" = Some (SVTime t) /\
  new_session query limit t !! "evaluation" = None /\
  new_session query limit t !! "prioritization" = None.
Proof.
  unfold new_session. repeat split; try session_lookup;
    rewrite !lookup_insert_ne by discriminate; apply lookup_empty.
Qed.

Lemma submit_reflection_query_eq session_id request w :
  submit_reflection_query session_id request w =
    (Ok (mkResponse session_id "queued"
           "Reflection analysis has been queued for processing"),
     with_session session_id
       (new_session (req_query request) (req_max_rounds request) (clock w))
       (after_now w)).
Proof. reflexivity. Qed.

(** X23: submitting a query registers the session at once, under the id
    drawn for it and whatever that id held before, and touches no other
    session.  Until the background task runs, the reflection endpoint
    answers with the status "queued", the query, zero rounds and empty
    lists, and the evaluation and prioritization endpoints answer 404. *)
Theorem submitted_session_is_queued
    (fmt : SessionVal -> string) (session_id : string)
    (request : ReflectionRequest) (w : World) :
  exists w1,
    submit_reflection_query session_id request w =
      (Ok (mkResponse session_id "queued"
             "Reflection analysis has been queued for processing"), w1) /\
    sessions w1 !! session_id =
      Some (new_session (req_query request) (req_max_rounds request) (clock w)) /\
    (forall other, other <> session_id ->
       sessions w1 !! other = sessions w !! other) /\
    gateway_calls w1 = gateway_calls w /\
    get_reflection_result fmt (sessions w1) session_id =
      Respond (mkReflectionResultModel session_id "queued" (req_query request)
                 0 [] [] [] "" [] (clock w) None) /\
    get_evaluation_result (sessions w1) session_id =
      HTTPException 404
        "Evaluation not available. Reflection must complete first." /\
    get_prioritization_result (sessions w1) session_id =
      HTTPException 404
        "Prioritization not available. Evaluation must complete first.".
Proof.
  eexists. split; [apply submit_reflection_query_eq|].
  destruct (new_session_lookups (req_query request) (req_max_rounds request)
              (clock w)) as (Hst & Hq & Hc & Hev & Hpr).
  cbn [sessions with_session after_now gateway_calls].
  split; [apply lookup_insert_eq|].
  split; [intros other Hne; apply lookup_insert_ne; congruence|].
  split; [reflexivity|].
  unfold get_reflection_result, get_evaluation_result,
         get_prioritization_result.
  rewrite lookup_insert_eq, Hst, Hq, Hc, Hev, Hpr.
  repeat split; reflexivity.
Qed.

Lemma validated_request_bounds query max_rounds request :
  ReflectionRequest_validate query max_rounds = Some request ->
  req_query request = query /\ 1 <= req_max_rounds request <= 10.
Proof.
  unfold ReflectionRequest_validate.
  destruct ((1 <=? _) && (_ <=? 10))%Z eqn:Hb; [|discriminate].
  intros H. inversion H; subst. cbn [req_query req_max_rounds].
  apply andb_prop in Hb. destruct Hb as [H1 H2].
  apply Z.leb_le in H1. apply Z.leb_le in H2. auto.
Qed.

(** What the endpoints answer on a session that process_reflection has
    settled, starting from a session with a query and a creation time. *)
Lemma get_reflection_result_completed fmt registry session_id session res d t t' :
  registry !! session_id = Some session ->
  session !! "status" = Some (SVStr "completed") ->
  session !! "result" = Some (SVResult res) ->
  parsed_needs res = PyDict d ->
  session !! "created_at" = Some (SVTime t) ->
  session !! "completed_at" = Some (SVTime t') ->
  get_reflection_result fmt registry session_id =
    Respond (mkReflectionResultModel session_id "completed"
               (original_query res) (discussion_rounds res)
               (rr_medical_insights res) (rr_engineering_insights res) d
               (rr_final_summary res) (full_conversation res) t (Some t')).
Proof.
  intros Hr Hst Hres Hd Hc Hc'. unfold get_reflection_result.
  rewrite Hr, Hst. cbn [is_str String.eqb Ascii.eqb Bool.eqb negb].
  rewrite Hres, Hc, Hd, Hc'. reflexivity.
Qed.

Lemma get_reflection_result_error fmt registry session_id session msg :
  registry !! session_id = Some session ->
  session !! "status" = Some (SVStr "error") ->
  session !! "error" = Some (SVStr msg) ->
  get_reflection_result fmt registry session_id =
    HTTPException 500 ("Reflection failed: " ++ msg).
Proof.
  intros Hr Hst He. unfold get_reflection_result.
  rewrite Hr, Hst. cbn [is_str String.eqb Ascii.eqb Bool.eqb].
  rewrite He. reflexivity.
Qed.

(** X24: the whole path of one accepted request.  A request that passes
    validation has max_rounds in 1..10; once it is submitted and its
    background task has run, the task has returned and the reflection
    endpoint never again shows the session as queued or processing: it
    answers either with the completed result (the query, max_rounds
    rounds, a conversation of max_rounds + 2 entries, the creation time
    of the submission and a completion time) or with 500 and
    "Reflection failed: " followed by str(e). *)
Theorem accepted_request_reaches_a_final_answer
    (g : Gateway) (rt : PyRuntime) (fmt : SessionVal -> string)
    (session_id query : string) (max_rounds : option Z)
    (request : ReflectionRequest) (w : World) :
  ReflectionRequest_validate query max_rounds = Some request ->
  1 <= req_max_rounds request <= 10 /\
  exists w2,
    process_reflection (S (Z.to_nat (req_max_rounds request))) g rt session_id
      (req_query request) (req_max_rounds request)
      (snd (submit_reflection_query session_id request w)) = (Ok (Some tt), w2) /\
    ((exists m,
        get_reflection_result fmt (sessions w2) session_id = Respond m /\
        rm_status m = "completed" /\
        rm_original_query m = query /\
        rm_discussion_rounds m = req_max_rounds request /\
        length (rm_full_conversation m) =
          (Z.to_nat (req_max_rounds request) + 2)%nat /\
        rm_created_at m = clock w /\
        exists t, rm_completed_at m = Some t) \/
     (exists e,
        get_reflection_result fmt (sessions w2) session_id =
          HTTPException 500 ("Reflection failed: " ++ exn_str e))).
Proof.
  intros Hv. destruct (validated_request_bounds _ _ _ Hv) as [Hq Hb].
  split; [exact Hb|].
  rewrite submit_reflection_query_eq. cbn [snd].
  set (session := new_session (req_query request) (req_max_rounds request)
                    (clock w)).
  set (w1 := with_session session_id session (after_now w)).
  assert (Hs : sessions w1 !! session_id = Some session)
    by apply with_session_lookup.
  destruct (run_reflection_sync (S (Z.to_nat (req_max_rounds request))) g rt
              (req_query request) (req_max_rounds request)
              (with_session session_id (marked_processing session) w1))
    as [r wr] eqn:Hrun.
  pose proof (run_reflection_sync_has_fuel g rt (req_query request)
                (req_max_rounds request)
                (with_session session_id (marked_processing session) w1)
                ltac:(lia)) as Hfuel.
  rewrite Hrun in Hfuel. cbn [fst] in Hfuel.
  destruct (process_reflection_outcome_aux _ _ _ _ _ _ _ _ _ _ Hs Hrun Hfuel)
    as (w2 & session' & Hp & Hreg & Hc & Hqy & [t Ht] & _ & Hcase).
  destruct (new_session_lookups (req_query request) (req_max_rounds request)
              (clock w)) as (_ & _ & Hcreated & _).
  fold session in Hcreated. rewrite Hcreated in Hc.
  assert (Hl : sessions w2 !! session_id = Some session')
    by (rewrite Hreg; apply lookup_insert_eq).
  exists w2. split; [exact Hp|].
  destruct Hcase as [(Hst & res & d & -> & Hres & Hd) | (Hst & e & He)].
  - exfalso. rewrite run_reflection_sync_raises in Hrun. discriminate Hrun.
  - right. exists e.
    apply (get_reflection_result_error fmt (sessions w2) session_id session'
             (exn_str e) Hl Hst He).
Qed.

Lemma accepted_request_reaches_a_final_answer_witness :
  ReflectionRequest_validate "q" None = Some (mkRequest "q" 3) /\
  exists w2,
    process_reflection 4 gw_scoring rt_sample "s2" "q" 3
      (snd (submit_reflection_query "s2" (mkRequest "q" 3) w0)) =
      (Ok (Some tt), w2).
Proof.
  split; [reflexivity|].
  destruct (accepted_request_reaches_a_final_answer gw_scoring rt_sample
              (fun _ => "") "s2" "q" None (mkRequest "q" 3) w0 eq_refl)
    as (_ & w2 & Hp & _).
  exists w2. exact Hp.
Defined.

Lemma get_evaluation_result_entry registry session_id session outcome t :
  registry !! session_id = Some session ->
  session !! "evaluation" = Some (evaluation_entry outcome t) ->
  get_evaluation_result registry session_id =
    match outcome with
    | Ok ev =>
        Respond (mkEvaluationResultModel session_id "completed"
                   (evaluations ev) (summary ev) (top_priority_needs ev) t)
    | Raise e => HTTPException 500 ("Evaluation failed: " ++ exn_str e)
    end.
Proof.
  intros Hr He. unfold get_evaluation_result. rewrite Hr, He.
  destruct outcome; reflexivity.
Qed.

Lemma get_prioritization_result_entry rt registry session_id session outcome t :
  registry !! session_id = Some session ->
  session !! "prioritization" = Some (prioritization_entry rt outcome t) ->
  get_prioritization_result registry session_id =
    match outcome with
    | Ok ev =>
        Respond (mkPrioritizationResultModel session_id "completed"
                   (prioritized_needs (create_prioritization rt ev))
                   (ranking_criteria (create_prioritization rt ev))
                   (prio_recommendations (create_prioritization rt ev)) t)
    | Raise e => HTTPException 500 ("Prioritization failed: " ++ exn_str e)
    end.
Proof.
  intros Hr He. unfold get_prioritization_result. rewrite Hr, He.
  destruct outcome; reflexivity.
Qed.

(** X25: after the background task, the evaluation endpoint and the
    prioritization endpoint of a session tell one story.  For a session
    that had neither entry before, either both answer 404 (no needs were
    found, or the reflection failed), or both answer 200 and the ranking
    shown is create_prioritization of exactly the evaluation shown, or
    both answer 500 with the same str(e) after their prefixes. *)
Theorem evaluation_and_prioritization_endpoints_agree
    (g : Gateway) (rt : PyRuntime)
    (session_id query : string) (limit : Z)
    (w : World) (session : gmap string SessionVal) :
  sessions w !! session_id = Some session ->
  session !! "evaluation" = None ->
  session !! "prioritization" = None ->
  1 <= limit ->
  exists w2,
    process_reflection (S (Z.to_nat limit)) g rt session_id query limit w =
      (Ok (Some tt), w2) /\
    ((get_evaluation_result (sessions w2) session_id =
        HTTPException 404
          "Evaluation not available. Reflection must complete first." /\
      get_prioritization_result (sessions w2) session_id =
        HTTPException 404
          "Prioritization not available. Evaluation must complete first.") \/
     (exists ev t,
        get_evaluation_result (sessions w2) session_id =
          Respond (mkEvaluationResultModel session_id "completed"
                     (evaluations ev) (summary ev) (top_priority_needs ev) t) /\
        get_prioritization_result (sessions w2) session_id =
          Respond (mkPrioritizationResultModel session_id "completed"
                     (prioritized_needs (create_prioritization rt ev))
                     (ranking_criteria (create_prioritization rt ev))
                     (prio_recommendations (create_prioritization rt ev))
                     (t + 1))) \/
     (exists e,
        get_evaluation_result (sessions w2) session_id =
          HTTPException 500 ("Evaluation failed: " ++ exn_str e) /\
        get_prioritization_result (sessions w2) session_id =
          HTTPException 500 ("Prioritization failed: " ++ exn_str e))).
Proof.
  intros Hs Hev Hpr Hlimit.
  destruct (run_reflection_sync (S (Z.to_nat limit)) g rt query limit
              (with_session session_id (marked_processing session) w))
    as [r wr] eqn:Hrun.
  pose proof (run_reflection_sync_has_fuel g rt query limit
                (with_session session_id (marked_processing session) w)
                Hlimit) as Hfuel.
  rewrite Hrun in Hfuel. cbn [fst] in Hfuel.
  destruct (process_reflection_outcome_aux _ _ _ _ _ _ _ _ _ _ Hs Hrun Hfuel)
    as (w2 & session' & Hp & Hreg & _ & _ & _ & Hent & _).
  assert (Hl : sessions w2 !! session_id = Some session')
    by (rewrite Hreg; apply lookup_insert_eq).
  exists w2. split; [exact Hp|].
  destruct Hent as [[He' Hp'] | (outcome & t & He' & Hp')].
  - left. unfold get_evaluation_result, get_prioritization_result.
    rewrite Hl, He', Hp', Hev, Hpr. split; reflexivity.
  - right.
    rewrite (get_evaluation_result_entry _ _ _ _ _ Hl He').
    rewrite (get_prioritization_result_entry rt _ _ _ _ _ Hl Hp').
    destruct outcome as [ev|e]; [left; exists ev, t | right; exists e];
      split; reflexivity.
Qed.

Lemma evaluation_and_prioritization_endpoints_agree_witness :
  exists w2,
    process_reflection 2 gw_scoring rt_sample "s1" "q" 1 w_registered =
      (Ok (Some tt), w2).
Proof.
  destruct (evaluation_and_prioritization_endpoints_agree gw_scoring rt_sample
              "s1" "q" 1 w_registered (new_session "q" 1 0))
    as (w2 & Hp & _).
  - vm_compute. reflexivity.
  - vm_compute. reflexivity.
  - vm_compute. reflexivity.
  - lia.
  - exists w2. exact Hp.
Defined.

(** ** The stream of progress events *)

Lemma stream_of_callback session_id t event_type agent data streams :
  stream_of session_id
    (status_callback_for session_id t event_type agent data streams) =
  (stream_of session_id streams ++ [mkStreamEvent t event_type agent data])%list.
Proof.
  unfold stream_of, status_callback_for. rewrite lookup_insert_eq.
  destruct (streams !! session_id); reflexivity.
Qed.

Lemma stream_of_record_events session_id events : forall streams,
  stream_of session_id (record_events session_id events streams) =
  (stream_of session_id streams ++ events)%list.
Proof.
  induction events as [|e events IH]; intros streams; cbn [record_events].
  - rewrite app_nil_r. reflexivity.
  - rewrite IH, stream_of_callback, <- app_assoc. destruct e. reflexivity.
Qed.

Lemma record_events_other session_id other events : forall streams,
  other <> session_id ->
  record_events session_id events streams !! other = streams !! other.
Proof.
  induction events as [|e events IH]; intros streams Hne; [reflexivity|].
  cbn [record_events]. rewrite IH by exact Hne.
  unfold status_callback_for. apply lookup_insert_ne. congruence.
Qed.

(** X26: the progress events of a session are kept in the order the
    callback was called, none dropped, and the callbacks of one session
    never touch the stream of another.  A pass of the streaming loop that
    has already delivered the first n events of a stream delivers exactly
    the events recorded since, once and in order, and moves its index to
    the end of the stream; when nothing was recorded it delivers nothing
    and keeps its index. *)
Theorem stream_delivers_recorded_events
    (session_id : string) (recorded : list StreamEvent)
    (streams : gmap string (list StreamEvent)) :
  stream_of session_id (record_events session_id recorded streams) =
    (stream_of session_id streams ++ recorded)%list /\
  (forall other, other <> session_id ->
     record_events session_id recorded streams !! other = streams !! other) /\
  new_events_since (length (stream_of session_id streams))
    (stream_of session_id (record_events session_id recorded streams)) =
    (recorded,
     length (stream_of session_id (record_events session_id recorded streams))) /\
  new_events_since (length (stream_of session_id streams))
    (stream_of session_id streams) =
    ([], length (stream_of session_id streams)).
Proof.
  split; [apply stream_of_record_events|].
  split; [intros other; apply record_events_other|].
  unfold new_events_since. rewrite stream_of_record_events.
  split.
  - rewrite skipn_app, skipn_all, Nat.sub_diag. cbn [skipn app].
    rewrite length_app. reflexivity.
  - rewrite skipn_all. cbn [length]. rewrite Nat.add_0_r. reflexivity.
Qed.
